(** * Swiggy MCP Telegram bot: OAuth flow correlation and client cache

    A shallow embedding of the authentication core of the bot:
    - [SessionStore]        (memory/sessionStore.ts)
    - [SwiggyOAuthProvider] (mcp/oauthProvider.ts)
    - [OAuthCallbackServer] (auth/oauthCallbackServer.ts, both revisions)
    - [TokenManager]        (auth/tokenManager.ts, both revisions)
    - [McpClientManager]    (mcp/mcpClientManager.ts)
    - [ToolInvoker]         (mcp/toolInvoker.ts)
    - [Async]               (mcp/mcpClientManager.ts, its calls overlapping)

    and of what is built on it:
    - [Main]                (index.ts, the completion handler)
    - [CommandHandlers]     (bot/commandHandlers.ts: login and logout)
    - [RateLimiter]         (utils/rateLimiter.ts)
    - [ConversationMemory]  (memory/conversationMemory.ts)
    - [MessageFormatter]    (bot/messageFormatter.ts: the text helpers)
    - [ToolDiscovery]       (mcp/toolDiscovery.ts)

    JavaScript [Map]s are finite maps ([gmap]); objects that the code
    mutates in place are entries of those maps that are written back;
    [Date.now()] and [crypto.randomUUID()] are explicit inputs; the MCP SDK
    ([auth], [Client.connect], [Client.callTool]) is an environment whose
    answer to each call is an explicit input as well. *)

From Stdlib Require Import Ascii.
From stdpp Require Import base option gmap strings pretty list.

Local Open Scope string_scope.
Local Open Scope list_scope.
Local Open Scope Z_scope.

(** ** Data model (types/mcp.types.ts, types/user.types.ts) *)

Inductive SwiggyService := food | instamart | dineout.

Global Instance SwiggyService_eq_dec : EqDecision SwiggyService.
Proof. solve_decision. Defined.

Global Instance SwiggyService_countable : Countable SwiggyService.
Proof.
  refine (inj_countable'
            (λ s, match s with food => 0%nat | instamart => 1%nat | dineout => 2%nat end)
            (λ n, match n with 0%nat => food | 1%nat => instamart | _ => dineout end) _).
  by intros [].
Defined.

(** The string a service is at run time (the type is a union of literals). *)
Definition service_name (s : SwiggyService) : string :=
  match s with
  | food => "food"
  | instamart => "instamart"
  | dineout => "dineout"
  end.

(** [OAuthTokens] and [OAuthClientInformationFull] are objects of the SDK;
    the store only keeps them, so a few representative fields suffice.
    Being objects, they are truthy whenever they are defined. *)
Record OAuthTokens := mkTokens {
  access_token : string;
  token_type : string;
  refresh_token : option string;
}.

Record OAuthClientInformationFull := mkClientInfo {
  client_id : string;
  client_secret : option string;
}.

Module UserOAuthState.
Record t := mk {
  tokens : option OAuthTokens;
  codeVerifier : option string;
  state : option string;
  authenticatedAt : option Z;
}.
(** The object literal [{}]. *)
Definition empty : t := mk None None None None.
End UserOAuthState.

Module UserSession.
Record t := mk {
  telegramUserId : Z;
  telegramChatId : Z;
  username : option string;
  oauthState : gmap SwiggyService UserOAuthState.t;
  isAuthenticating : bool;
  pendingAuthService : option SwiggyService;
  pendingAuthUrl : option string;
  createdAt : Z;
  lastActiveAt : Z;
}.
End UserSession.

Module PendingOAuthFlow.
Record t := mk {
  telegramUserId : Z;
  chatId : Z;
  service : SwiggyService;
  codeVerifier : string;
  state : string;
  createdAt : Z;
  expiresAt : Z;
}.
End PendingOAuthFlow.

(** JavaScript truthiness of a string: only the empty string is falsy. *)
Definition truthy (s : string) : bool :=
  match s with
  | EmptyString => false
  | String _ _ => true
  end.

(** Truthiness of [string | null | undefined]. *)
Definition truthy_opt (o : option string) : bool :=
  match o with
  | Some s => truthy s
  | None => false
  end.

(** The composite key [`${userId}:${service}`] used by the client-info map
    and by the client cache. *)
Definition composite_key (userId : Z) (service : SwiggyService) : string :=
  pretty userId +:+ ":" +:+ service_name service.

(** ** SessionStore (memory/sessionStore.ts) *)

Module SessionStore.

Record t := mk {
  sessions : gmap Z UserSession.t;
  pendingFlows : gmap string PendingOAuthFlow.t;
  clientInfos : gmap string OAuthClientInformationFull;
}.

(** The three field initialisers [new Map()]. *)
Definition empty : t := mk ∅ ∅ ∅.

Definition with_sessions (st : t) (m : gmap Z UserSession.t) : t :=
  mk m (pendingFlows st) (clientInfos st).

(** Write a mutated session object back under its key. *)
Definition put_session (st : t) (userId : Z) (s : UserSession.t) : t :=
  with_sessions st (<[userId := s]> (sessions st)).

(** The three readings of [Date.now()] are [t_created], [t_active]
    (object literal) and [t_touch] (the final assignment). *)
Definition getOrCreateSession (t_created t_active t_touch : Z)
    (userId chatId : Z) (username : option string) (st : t)
    : t * UserSession.t :=
  let fresh :=
    UserSession.mk userId chatId username ∅ false None None t_created t_active in
  let s0 := default fresh (sessions st !! userId) in
  let s1 :=
    UserSession.mk (UserSession.telegramUserId s0) (UserSession.telegramChatId s0)
      (UserSession.username s0) (UserSession.oauthState s0)
      (UserSession.isAuthenticating s0) (UserSession.pendingAuthService s0)
      (UserSession.pendingAuthUrl s0) (UserSession.createdAt s0) t_touch in
  (put_session st userId s1, s1).

Definition getSession (userId : Z) (st : t) : option UserSession.t :=
  sessions st !! userId.

Definition saveTokens (now : Z) (userId : Z) (service : SwiggyService)
    (tokens : OAuthTokens) (st : t) : t :=
  match sessions st !! userId with
  | None => st
  | Some session =>
      let e := default UserOAuthState.empty (UserSession.oauthState session !! service) in
      let e' :=
        UserOAuthState.mk (Some tokens) (UserOAuthState.codeVerifier e)
          (UserOAuthState.state e) (Some now) in
      put_session st userId
        (UserSession.mk (UserSession.telegramUserId session)
           (UserSession.telegramChatId session) (UserSession.username session)
           (<[service := e']> (UserSession.oauthState session))
           false None None
           (UserSession.createdAt session) (UserSession.lastActiveAt session))
  end.

Definition getTokens (userId : Z) (service : SwiggyService) (st : t)
    : option OAuthTokens :=
  s ← sessions st !! userId;
  e ← UserSession.oauthState s !! service;
  UserOAuthState.tokens e.

Definition clearTokens (userId : Z) (service : SwiggyService) (st : t) : t :=
  match sessions st !! userId with
  | None => st
  | Some session =>
      match UserSession.oauthState session !! service with
      | None => st
      | Some _ =>
          put_session st userId
            (UserSession.mk (UserSession.telegramUserId session)
               (UserSession.telegramChatId session) (UserSession.username session)
               (delete service (UserSession.oauthState session))
               (UserSession.isAuthenticating session)
               (UserSession.pendingAuthService session)
               (UserSession.pendingAuthUrl session)
               (UserSession.createdAt session) (UserSession.lastActiveAt session))
      end
  end.

Definition saveCodeVerifier (userId : Z) (service : SwiggyService)
    (verifier : string) (st : t) : t :=
  match sessions st !! userId with
  | None => st
  | Some session =>
      let e := default UserOAuthState.empty (UserSession.oauthState session !! service) in
      let e' :=
        UserOAuthState.mk (UserOAuthState.tokens e) (Some verifier)
          (UserOAuthState.state e) (UserOAuthState.authenticatedAt e) in
      put_session st userId
        (UserSession.mk (UserSession.telegramUserId session)
           (UserSession.telegramChatId session) (UserSession.username session)
           (<[service := e']> (UserSession.oauthState session))
           (UserSession.isAuthenticating session)
           (UserSession.pendingAuthService session)
           (UserSession.pendingAuthUrl session)
           (UserSession.createdAt session) (UserSession.lastActiveAt session))
  end.

Definition getCodeVerifier (userId : Z) (service : SwiggyService) (st : t)
    : string :=
  default ""
    (s ← sessions st !! userId;
     e ← UserSession.oauthState s !! service;
     UserOAuthState.codeVerifier e).

Definition saveClientInfo (userId : Z) (service : SwiggyService)
    (info : OAuthClientInformationFull) (st : t) : t :=
  mk (sessions st) (pendingFlows st)
     (<[composite_key userId service := info]> (clientInfos st)).

Definition getClientInfo (userId : Z) (service : SwiggyService) (st : t)
    : option OAuthClientInformationFull :=
  clientInfos st !! composite_key userId service.

Definition setPendingAuthUrl (userId : Z) (service : SwiggyService)
    (url : string) (st : t) : t :=
  match sessions st !! userId with
  | None => st
  | Some session =>
      put_session st userId
        (UserSession.mk (UserSession.telegramUserId session)
           (UserSession.telegramChatId session) (UserSession.username session)
           (UserSession.oauthState session)
           true (Some service) (Some url)
           (UserSession.createdAt session) (UserSession.lastActiveAt session))
  end.

(** [!session?.pendingAuthUrl] also rejects the empty string; a service
    name is never empty, so it is truthy whenever it is defined. *)
Definition getPendingAuthUrl (userId : Z) (st : t)
    : option (string * SwiggyService) :=
  match sessions st !! userId with
  | None => None
  | Some session =>
      match UserSession.pendingAuthUrl session, UserSession.pendingAuthService session with
      | Some url, Some svc => if truthy url then Some (url, svc) else None
      | _, _ => None
      end
  end.

Definition clearPendingAuth (userId : Z) (st : t) : t :=
  match sessions st !! userId with
  | None => st
  | Some session =>
      put_session st userId
        (UserSession.mk (UserSession.telegramUserId session)
           (UserSession.telegramChatId session) (UserSession.username session)
           (UserSession.oauthState session)
           false None None
           (UserSession.createdAt session) (UserSession.lastActiveAt session))
  end.

Definition registerPendingFlow (state : string) (flow : PendingOAuthFlow.t)
    (st : t) : t :=
  mk (sessions st) (<[state := flow]> (pendingFlows st)) (clientInfos st).

Definition getPendingFlow (state : string) (st : t) : option PendingOAuthFlow.t :=
  pendingFlows st !! state.

Definition removePendingFlow (state : string) (st : t) : t :=
  mk (sessions st) (delete state (pendingFlows st)) (clientInfos st).

(** [!!this.sessions.get(userId)?.oauthState[service]?.tokens] *)
Definition isAuthenticated (userId : Z) (service : SwiggyService) (st : t) : bool :=
  match
    s ← sessions st !! userId;
    e ← UserSession.oauthState s !! service;
    UserOAuthState.tokens e
  with
  | Some _ => true
  | None => false
  end.

End SessionStore.

(** ** Logger (utils/logger.ts)

    A call of [logger.debug/info/warn/error] is an observable action; the
    metadata object that accompanies the message is not kept. *)

Module Log.
Inductive level := Debug | Info | Warn | Error.
Record entry := mk { lvl : level; message : string }.
Definition info (m : string) : entry := mk Info m.
Definition warn (m : string) : entry := mk Warn m.
Definition error (m : string) : entry := mk Error m.
End Log.

(** ** SwiggyOAuthProvider (mcp/oauthProvider.ts)

    The [sessionStore] field is a reference to the one shared store: every
    method that uses it takes the store and returns the store it leaves. *)

Module SwiggyOAuthProvider.

Record t := mk {
  userId : Z;
  service : SwiggyService;
  callbackPort : Z;
  callbackHost : string;
  oauthState : option string;
}.

(** The constructor; an omitted [callbackHost] is ["localhost"], an
    omitted [oauthState] stays [undefined]. *)
Definition new (userId : Z) (service : SwiggyService) (callbackPort : Z)
    (callbackHost : option string) (oauthState : option string) : t :=
  mk userId service callbackPort (default "localhost" callbackHost) oauthState.

Definition redirectUrl (p : t) : string :=
  "http://" +:+ callbackHost p +:+ ":" +:+ pretty (callbackPort p) +:+ "/callback".

Definition clientInformation (p : t) (st : SessionStore.t)
    : option OAuthClientInformationFull :=
  SessionStore.getClientInfo (userId p) (service p) st.

Definition saveClientInformation (p : t) (info : OAuthClientInformationFull)
    (st : SessionStore.t) : SessionStore.t :=
  SessionStore.saveClientInfo (userId p) (service p) info st.

Definition tokens (p : t) (st : SessionStore.t) : option OAuthTokens :=
  SessionStore.getTokens (userId p) (service p) st.

Definition saveTokens (p : t) (now : Z) (tokens : OAuthTokens)
    (st : SessionStore.t) : SessionStore.t * list Log.entry :=
  (SessionStore.saveTokens now (userId p) (service p) tokens st,
   [Log.info "Saving OAuth tokens"]).

Definition redirectToAuthorization (p : t) (authorizationUrl : string)
    (st : SessionStore.t) : SessionStore.t * list Log.entry :=
  (SessionStore.setPendingAuthUrl (userId p) (service p) authorizationUrl st,
   [Log.info "OAuth redirect requested"]).

(** [this.oauthState ?? crypto.randomUUID()]; [uuid] is the value the
    generator would return. *)
Definition state (p : t) (uuid : string) : string :=
  match oauthState p with
  | Some s => s
  | None => uuid
  end.

Definition saveCodeVerifier (p : t) (codeVerifier : string)
    (st : SessionStore.t) : SessionStore.t :=
  SessionStore.saveCodeVerifier (userId p) (service p) codeVerifier st.

Definition codeVerifier (p : t) (st : SessionStore.t) : string :=
  SessionStore.getCodeVerifier (userId p) (service p) st.

End SwiggyOAuthProvider.

(** ** The SDK as a client of the provider

    While it runs, a call into the SDK ([auth], [Client.connect]) may invoke
    any methods of the provider it was given, in any order.  Such a run is a
    list of calls; the reading methods leave the store as it is. *)

Module Sdk.

Inductive call :=
| ClientInformation
| SaveClientInformation (info : OAuthClientInformationFull)
| Tokens
| SaveTokens (now : Z) (tokens : OAuthTokens)
| RedirectToAuthorization (authorizationUrl : string)
| State (uuid : string)
| SaveCodeVerifier (codeVerifier : string)
| CodeVerifier.

Definition perform (p : SwiggyOAuthProvider.t) (c : call) (st : SessionStore.t)
    : SessionStore.t * list Log.entry :=
  match c with
  | ClientInformation | Tokens | State _ | CodeVerifier => (st, [])
  | SaveClientInformation info =>
      (SwiggyOAuthProvider.saveClientInformation p info st, [])
  | SaveTokens now tokens => SwiggyOAuthProvider.saveTokens p now tokens st
  | RedirectToAuthorization url =>
      SwiggyOAuthProvider.redirectToAuthorization p url st
  | SaveCodeVerifier v => (SwiggyOAuthProvider.saveCodeVerifier p v st, [])
  end.

Fixpoint run (p : SwiggyOAuthProvider.t) (cs : list call) (st : SessionStore.t)
    : SessionStore.t * list Log.entry :=
  match cs with
  | [] => (st, [])
  | c :: cs' =>
      let '(st1, l1) := perform p c st in
      let '(st2, l2) := run p cs' st1 in
      (st2, l1 ++ l2)
  end.

End Sdk.

(** ** OAuthCallbackServer (auth/oauthCallbackServer.ts) *)

Module AuthCallbackEvent.
Record t := mk { code : string; state : string }.
End AuthCallbackEvent.

Module Http.

(** What [new URL(req.url ?? "/", base)] gives: the path and the query
    pairs in the order of the query string. *)
Record Request := mkRequest {
  method : string;
  pathname : string;
  searchParams : list (string * string);
}.

(** [URLSearchParams.get]: the first value for the name, or [null]. *)
Fixpoint get (name : string) (ps : list (string * string)) : option string :=
  match ps with
  | [] => None
  | (k, v) :: ps' => if String.eqb k name then Some v else get name ps'
  end.

(** The two long HTML documents are named, short bodies are kept. *)
Inductive Body :=
| Literal (s : string)
| ConfirmationPage       (* "Authentication Successful!", static *)
| FragmentRedirectPage.  (* script moving #code=..&state=.. into the query *)

Record Response := mkResponse {
  status : Z;
  contentType : string;
  body : Body;
}.

(** What serving one request does: the response written, the
    [authCallback] events emitted and the lines logged. *)
Record Served := mkServed {
  response : Response;
  emitted : list AuthCallbackEvent.t;
  logged : list Log.entry;
}.

End Http.

(** The revision in auth/oauthCallbackServer.ts.  [handleRequest] here is
    the method from its second statement on, once [new URL] has parsed the
    request target; [Incoming.serve] below puts the parse before it. *)
Module OAuthCallbackServer.
Import Http.

Definition handleCallback (url : Request) : Served :=
  let code := get "code" (searchParams url) in
  let state := get "state" (searchParams url) in
  match code, state with
  | Some c, Some s =>
      if negb (truthy c) || negb (truthy s) then
        mkServed (mkResponse 200 "text/html" FragmentRedirectPage) [] []
      else
        mkServed (mkResponse 200 "text/html" ConfirmationPage)
                 [AuthCallbackEvent.mk c s]
                 [Log.info "Received OAuth callback"]
  | _, _ => mkServed (mkResponse 200 "text/html" FragmentRedirectPage) [] []
  end.

Definition handleRequest (req : Request) : Served :=
  if String.eqb (pathname req) "/health" then
    mkServed (mkResponse 200 "text/plain" (Literal "OK")) [] []
  else if String.eqb (pathname req) "/callback" then
    handleCallback req
  else
    mkServed (mkResponse 404 "text/plain" (Literal "Not found")) [] [].

End OAuthCallbackServer.

(** The other revision of the same file: a callback without both
    parameters is answered with an error page.  As above, [handleRequest]
    is the method once the request target is parsed. *)
Module OAuthCallbackServerStrict.
Import Http.

Definition handleCallback (url : Request) : Served :=
  let code := get "code" (searchParams url) in
  let state := get "state" (searchParams url) in
  match code, state with
  | Some c, Some s =>
      if negb (truthy c) || negb (truthy s) then
        mkServed (mkResponse 400 "text/html"
                    (Literal "<h1>Missing code or state parameter</h1>")) [] []
      else
        mkServed (mkResponse 200 "text/html" ConfirmationPage)
                 [AuthCallbackEvent.mk c s]
                 [Log.info "Received OAuth callback"]
  | _, _ =>
      mkServed (mkResponse 400 "text/html"
                  (Literal "<h1>Missing code or state parameter</h1>")) [] []
  end.

Definition handleRequest (req : Request) : Served :=
  if String.eqb (pathname req) "/health" then
    mkServed (mkResponse 200 "text/plain" (Literal "OK")) [] []
  else if String.eqb (pathname req) "/callback" then
    handleCallback req
  else
    mkServed (mkResponse 404 "text/plain" (Literal "Not found")) [] [].

End OAuthCallbackServerStrict.

(** ** The request as it arrives

    In both revisions [handleRequest] starts with
    [new URL(req.url ?? "/", base)], outside any [try].  The parser is the
    platform's, so what it makes of a request target is an input here:
    the parsed URL, or the [TypeError] it throws (as it does for the
    target [//], which names no host).  When it throws, the exception
    leaves [handleRequest] before [writeHead]: no response is written, no
    event is emitted and nothing is logged. *)
Module Incoming.
Import Http.

Inductive Parse :=
| Parsed (url : Request)
| NotAUrl.

Inductive Outcome :=
| Answered (s : Served)
| TypeErrorThrown (message : string).

(** [rest] is the method after its first statement, of either revision. *)
Definition serve (rest : Request → Served) (p : Parse) : Outcome :=
  match p with
  | Parsed url => Answered (rest url)
  | NotAUrl => TypeErrorThrown "Invalid URL"
  end.

Definition response (o : Outcome) : option Response :=
  match o with
  | Answered s => Some (Http.response s)
  | TypeErrorThrown _ => None
  end.

Definition emitted (o : Outcome) : list AuthCallbackEvent.t :=
  match o with
  | Answered s => Http.emitted s
  | TypeErrorThrown _ => []
  end.

End Incoming.

(** ** TokenManager (auth/tokenManager.ts) *)

Module AuthCompleteEvent.
Record t := mk {
  userId : Z;
  chatId : Z;
  service : SwiggyService;
  success : bool;
  error : option string;
}.
End AuthCompleteEvent.

(** What the SDK's [auth(provider, {serverUrl, authorizationCode})] does in
    one call: the provider methods it invokes, then how it ends. *)
Module AuthRun.
Inductive result := AUTHORIZED | REDIRECT | Threw (err : string).
Record t := mk { calls : list Sdk.call; outcome : result }.
End AuthRun.

(** The actions of the flow coordinator that the outside observes, oldest
    first.  [AuthCalled] records the store as the exchange finds it. *)
Module Flow.

Inductive action :=
| Logged (e : Log.entry)
| AuthCalled (provider : SwiggyOAuthProvider.t) (serverUrl : string)
             (authorizationCode : string) (seen : SessionStore.t)
| AuthComplete (ev : AuthCompleteEvent.t).

Record World := mkWorld {
  store : SessionStore.t;
  trace : list action;
}.

(** The notifications delivered and the exchanges attempted in a trace. *)
Definition notifications (tr : list action) : list AuthCompleteEvent.t :=
  omap (λ a, match a with AuthComplete ev => Some ev | _ => None end) tr.

Definition exchanges (tr : list action) : list (Z * SwiggyService * string) :=
  omap (λ a, match a with
             | AuthCalled p _ code _ =>
                 Some (SwiggyOAuthProvider.userId p, SwiggyOAuthProvider.service p, code)
             | _ => None
             end) tr.

Definition expired_message : string :=
  "Authentication flow expired. Please try /login again.".

Definition exchange_failed_message : string :=
  "Token exchange failed. Please try /login again.".

End Flow.

(** The revision that exchanges the code (constructor with [endpoints],
    [callbackPort], [callbackHost]; the one the entry point builds). *)
Module TokenManager.
Import Flow.

Record t := mk {
  endpoints : SwiggyService → string;
  callbackPort : Z;
  callbackHost : string;
}.

Definition notify (flow : PendingOAuthFlow.t) (success : bool)
    (error : option string) : action :=
  AuthComplete
    (AuthCompleteEvent.mk (PendingOAuthFlow.telegramUserId flow)
       (PendingOAuthFlow.chatId flow) (PendingOAuthFlow.service flow)
       success error).

(** [now] is the reading of [Date.now()], [sdk] what [auth] does if it is
    called.  The handler behind [onAuthComplete] is the asynchronous
    function the entry point installs: calling it returns a promise and
    does not throw, so a notification is an action that completes. *)
Definition handleCallback (tm : t) (now : Z) (sdk : AuthRun.t)
    (event : AuthCallbackEvent.t) (w : World) : World :=
  let code := AuthCallbackEvent.code event in
  let state := AuthCallbackEvent.state event in
  match SessionStore.getPendingFlow state (store w) with
  | None =>
      mkWorld (store w)
        (trace w ++ [Logged (Log.warn "Received callback for unknown state")])
  | Some flow =>
      if PendingOAuthFlow.expiresAt flow <? now then
        mkWorld (SessionStore.removePendingFlow state (store w))
          (trace w ++ [notify flow false (Some expired_message)])
      else
        let st1 := SessionStore.removePendingFlow state (store w) in
        let oauthProvider :=
          SwiggyOAuthProvider.new (PendingOAuthFlow.telegramUserId flow)
            (PendingOAuthFlow.service flow) (callbackPort tm)
            (Some (callbackHost tm)) None in
        let serverUrl := endpoints tm (PendingOAuthFlow.service flow) in
        let '(st2, logs) := Sdk.run oauthProvider (AuthRun.calls sdk) st1 in
        let called :=
          trace w ++ [AuthCalled oauthProvider serverUrl code st1]
                  ++ (Logged <$> logs) in
        match AuthRun.outcome sdk with
        | AuthRun.AUTHORIZED =>
            mkWorld st2
              (called ++ [Logged (Log.info "OAuth token exchange successful");
                          notify flow true None])
        | AuthRun.REDIRECT =>
            mkWorld st2
              (called ++ [Logged (Log.warn "OAuth token exchange returned unexpected result");
                          notify flow false (Some exchange_failed_message)])
        | AuthRun.Threw _ =>
            mkWorld st2
              (called ++ [Logged (Log.error "OAuth token exchange failed");
                          notify flow false (Some exchange_failed_message)])
        end
  end.

End TokenManager.

(** The other revision of the same file: no exchange, the callback alone
    is reported as a success. *)
Module TokenManagerSignalOnly.
Import Flow.

Definition handleCallback (now : Z) (event : AuthCallbackEvent.t)
    (w : World) : World :=
  let state := AuthCallbackEvent.state event in
  match SessionStore.getPendingFlow state (store w) with
  | None =>
      mkWorld (store w)
        (trace w ++ [Logged (Log.warn "Received callback for unknown state")])
  | Some flow =>
      if PendingOAuthFlow.expiresAt flow <? now then
        mkWorld (SessionStore.removePendingFlow state (store w))
          (trace w ++ [TokenManager.notify flow false (Some expired_message)])
      else
        mkWorld (SessionStore.removePendingFlow state (store w))
          (trace w ++
             [Logged (Log.info "OAuth callback received, signaling auth complete");
              TokenManager.notify flow true None])
  end.

End TokenManagerSignalOnly.

(** ** McpClientManager (mcp/mcpClientManager.ts) *)

(** What the platform and the SDK do during one connection attempt:
    whether [new URL(endpoint)] accepts the configured endpoint, the
    provider methods [client.connect(transport)] invokes, and whether the
    connection resolves ([None]) or rejects with an error. *)
Module ConnectRun.
Record t := mk {
  url_ok : bool;
  calls : list Sdk.call;
  outcome : option string;
}.
End ConnectRun.

Module McpClientManager.

(** A [Client] object is known by its identity: the reference it got
    when [new Client(...)] allocated it. *)
Record Client := mkClient { client_ref : nat }.

Record Transport := mkTransport {
  transport_url : string;
  authProvider : SwiggyOAuthProvider.t;
}.

Inductive Error :=
| AuthenticationRequiredError (userId : Z) (service : SwiggyService)
| TypeError (msg : string)
| ConnectError (msg : string).

Inductive result (A : Type) :=
| Ok (a : A)
| Throw (e : Error).
Arguments Ok {A} a.
Arguments Throw {A} e.

Record t := mk {
  clients : gmap string Client;
  transports : gmap string Transport;
  endpoints : SwiggyService → string;
  callbackPort : Z;
  callbackHost : string;
}.

Inductive action :=
| Logged (e : Log.entry)
| ConnectCalled (c : Client) (tr : Transport)
| CloseCalled (c : Client).

(** The manager, the store it shares with the other components, the next
    free object reference and the actions so far, oldest first. *)
Record World := mkWorld {
  manager : t;
  store : SessionStore.t;
  next_ref : nat;
  trace : list action;
}.

Definition getKey (userId : Z) (service : SwiggyService) : string :=
  composite_key userId service.

Definition cache (m : t) (key : string) (c : Client) (tr : Transport) : t :=
  mk (<[key := c]> (clients m)) (<[key := tr]> (transports m))
     (endpoints m) (callbackPort m) (callbackHost m).

Definition evict (m : t) (key : string) : t :=
  mk (delete key (clients m)) (delete key (transports m))
     (endpoints m) (callbackPort m) (callbackHost m).

Definition getClient (userId : Z) (service : SwiggyService)
    (env : ConnectRun.t) (w : World) : World * result Client :=
  let m := manager w in
  let key := getKey userId service in
  match clients m !! key with
  | Some existing => (w, Ok existing)
  | None =>
      if negb (SessionStore.isAuthenticated userId service (store w)) then
        (w, Throw (AuthenticationRequiredError userId service))
      else
        let oauthProvider :=
          SwiggyOAuthProvider.new userId service (callbackPort m)
            (Some (callbackHost m)) None in
        if negb (ConnectRun.url_ok env) then (w, Throw (TypeError "Invalid URL"))
        else
          let transport := mkTransport (endpoints m service) oauthProvider in
          let client := mkClient (next_ref w) in
          let '(st1, logs) := Sdk.run oauthProvider (ConnectRun.calls env) (store w) in
          let tr1 := trace w ++ [ConnectCalled client transport] ++ (Logged <$> logs) in
          match ConnectRun.outcome env with
          | None =>
              (mkWorld (cache m key client transport) st1 (S (next_ref w))
                 (tr1 ++ [Logged (Log.info "MCP client connected")]),
               Ok client)
          | Some err =>
              let w1 :=
                mkWorld m st1 (S (next_ref w))
                  (tr1 ++ [Logged (Log.error "MCP client connection failed")]) in
              match SessionStore.getPendingAuthUrl userId st1 with
              | Some _ => (w1, Throw (AuthenticationRequiredError userId service))
              | None => (w1, Throw (ConnectError err))
              end
          end
  end.

(** The method takes [userId] and [service] only; a further argument at a
    call site is dropped by the language. *)
Definition initiateAuth (userId : Z) (service : SwiggyService)
    (env : ConnectRun.t) (w : World) : World * result (option string) :=
  let m := manager w in
  let oauthProvider :=
    SwiggyOAuthProvider.new userId service (callbackPort m)
      (Some (callbackHost m)) None in
  if negb (ConnectRun.url_ok env) then (w, Throw (TypeError "Invalid URL"))
  else
    let transport := mkTransport (endpoints m service) oauthProvider in
    let client := mkClient (next_ref w) in
    let '(st1, logs) := Sdk.run oauthProvider (ConnectRun.calls env) (store w) in
    let tr1 := trace w ++ [ConnectCalled client transport] ++ (Logged <$> logs) in
    match ConnectRun.outcome env with
    | None =>
        let key := getKey userId service in
        (mkWorld (cache m key client transport) st1 (S (next_ref w)) tr1, Ok None)
    | Some _ =>
        let w1 := mkWorld m st1 (S (next_ref w)) tr1 in
        match SessionStore.getPendingAuthUrl userId st1 with
        | Some (url, _) => (w1, Ok (Some url))
        | None => (w1, Ok None)
        end
    end.

(** An error of [client.close()] is swallowed, so how it ends does not
    matter. *)
Definition disconnectClient (userId : Z) (service : SwiggyService)
    (w : World) : World :=
  let key := getKey userId service in
  match clients (manager w) !! key with
  | Some client =>
      mkWorld (evict (manager w) key) (store w) (next_ref w)
        (trace w ++ [CloseCalled client])
  | None => w
  end.

Definition disconnectUser (userId : Z) (w : World) : World :=
  foldl (λ w' service, disconnectClient userId service w') w
    [food; instamart; dineout].

Definition invalidateClient (userId : Z) (service : SwiggyService)
    (w : World) : World :=
  mkWorld (evict (manager w) (getKey userId service)) (store w) (next_ref w)
    (trace w).

End McpClientManager.

(** ** ToolInvoker (mcp/toolInvoker.ts) *)

Module ToolInvoker.

Record ContentItem := mkItem {
  type : string;
  text : option string;
  data : option string;
  mimeType : option string;
}.

Record ToolCallResult := mkResult {
  service : SwiggyService;
  toolName : string;
  content : list ContentItem;
  isError : bool;
}.

(** utils/errors.ts *)
Record SwiggyMcpError := mkError {
  message : string;
  err_service : SwiggyService;
  err_toolName : option string;
  isRetryable : bool;
}.

(** How one [client.callTool] ends: it resolves with a result object
    ([content] and [isError] may be absent) or rejects; of a rejection
    only the message is used. *)
Inductive CallOutcome :=
| Resolved (content : option (list ContentItem)) (isError : option bool)
| Rejected (message : string).

Inductive action :=
| Logged (e : Log.entry)
| CallTool (name : string) (arguments : list (string * string))
| Sleep (ms : Z).

(** [String.prototype.includes] *)
Fixpoint includes (s search : string) : bool :=
  String.prefix search s ||
  match s with
  | EmptyString => false
  | String _ s' => includes s' search
  end.

Definition retryable (message : string) : bool :=
  includes message "timeout" || includes message "ECONNRESET" ||
  includes message "503".

Definition invoke (service : SwiggyService) (toolName : string)
    (args : list (string * string)) (o : CallOutcome)
    : list action * (ToolCallResult + SwiggyMcpError) :=
  let start := [Logged (Log.info "Invoking MCP tool"); CallTool toolName args] in
  match o with
  | Resolved c e =>
      let content := default [] c in
      let isError := bool_decide (e = Some true) in
      (start ++ (if isError then [Logged (Log.warn "MCP tool returned error")] else []),
       inl (mkResult service toolName content isError))
  | Rejected message =>
      (start, inr (mkError message service (Some toolName) (retryable message)))
  end.

(** [first] is how the first call of the tool ends, [second] how a second
    call ends if one is made.  Whatever [invoke] throws is a
    [SwiggyMcpError]. *)
Definition invokeWithRetry (service : SwiggyService) (toolName : string)
    (args : list (string * string)) (first second : CallOutcome)
    : list action * (ToolCallResult + SwiggyMcpError) :=
  match invoke service toolName args first with
  | (tr1, inl r) => (tr1, inl r)
  | (tr1, inr err) =>
      if isRetryable err then
        let '(tr2, r2) := invoke service toolName args second in
        (tr1 ++ [Logged (Log.info "Retrying MCP tool call"); Sleep 1000] ++ tr2, r2)
      else (tr1, inr err)
  end.

(** The remote calls made in a trace, by tool name. *)
Definition calls (tr : list action) : list string :=
  omap (λ a, match a with CallTool name _ => Some name | _ => None end) tr.

End ToolInvoker.

(** ** Histories of the client manager

    The calls that reach the manager and the store it shares, made one
    after the other: each has ended before the next starts.  Calls that
    overlap are the subject of [Async] below. *)

Module History.
Import McpClientManager.

Inductive op :=
| GetClient (userId : Z) (service : SwiggyService) (env : ConnectRun.t)
| InitiateAuth (userId : Z) (service : SwiggyService) (env : ConnectRun.t)
| DisconnectClient (userId : Z) (service : SwiggyService)
| DisconnectUser (userId : Z)
| InvalidateClient (userId : Z) (service : SwiggyService)
| StoreWrite (f : SessionStore.t → SessionStore.t).

Definition step (w : World) (o : op) : World :=
  match o with
  | GetClient u s env => (getClient u s env w).1
  | InitiateAuth u s env => (initiateAuth u s env w).1
  | DisconnectClient u s => disconnectClient u s w
  | DisconnectUser u => disconnectUser u w
  | InvalidateClient u s => invalidateClient u s w
  | StoreWrite f => mkWorld (manager w) (f (store w)) (next_ref w) (trace w)
  end.

Definition run (w : World) (ops : list op) : World := foldl step w ops.

(** The calls that delete or replace the cache entry of
    [(userId, service)]: invalidation, disconnection (of the pair or of
    the whole user) and an [initiateAuth] for the pair whose connection
    succeeds, which caches the client it built. *)
Definition resets (userId : Z) (service : SwiggyService) (o : op) : bool :=
  match o with
  | GetClient _ _ _ | StoreWrite _ => false
  | InitiateAuth u s env =>
      bool_decide (u = userId ∧ s = service) && ConnectRun.url_ok env &&
      bool_decide (ConnectRun.outcome env = None)
  | DisconnectClient u s | InvalidateClient u s =>
      bool_decide (u = userId ∧ s = service)
  | DisconnectUser u => bool_decide (u = userId)
  end.

(** The calls named invalidation or disconnection of the pair. *)
Definition evicts (userId : Z) (service : SwiggyService) (o : op) : bool :=
  match o with
  | GetClient _ _ _ | InitiateAuth _ _ _ | StoreWrite _ => false
  | DisconnectClient u s | InvalidateClient u s =>
      bool_decide (u = userId ∧ s = service)
  | DisconnectUser u => bool_decide (u = userId)
  end.

End History.

(** [sub] occurs in [s] as a run of consecutive characters. *)
Definition contains (s sub : string) : Prop :=
  ∃ before after, s = before +:+ sub +:+ after.

(** The three texts, in this spelling, that [invoke] looks for in the
    message of a rejected call. *)
Definition transient_marker (message : string) : Prop :=
  contains message "timeout" ∨ contains message "ECONNRESET" ∨ contains message "503".

(** Whether a string contains the separator of the composite keys. *)
Fixpoint has_colon (s : string) : bool :=
  match s with
  | EmptyString => false
  | String c s' => Ascii.eqb c ":"%char || has_colon s'
  end.

(** ** SessionStore, the listing of connected services

    [Object.keys(session.oauthState).filter(s => !!oauthState[s]?.tokens)].
    The finite map does not keep the order in which the keys were added, so
    the list comes in the order of the map; what is proved of it does not
    depend on the order. *)
Definition getAuthenticatedServices (userId : Z) (st : SessionStore.t)
    : list SwiggyService :=
  match SessionStore.sessions st !! userId with
  | None => []
  | Some session =>
      filter
        (λ s, is_Some (e ← UserSession.oauthState session !! s; UserOAuthState.tokens e))
        (map_to_list (UserSession.oauthState session)).*1
  end.

(** The per-service record [session.oauthState[service]] of a user, if the
    user has a session and the session has that record. *)
Definition oauth_entry (userId : Z) (service : SwiggyService) (st : SessionStore.t)
    : option UserOAuthState.t :=
  session ← SessionStore.sessions st !! userId;
  UserSession.oauthState session !! service.

(** What a run of the SDK on the provider of one pair may not change. *)
Definition untouched_elsewhere (p : SwiggyOAuthProvider.t) (st st' : SessionStore.t)
    : Prop :=
  (∀ u s, (u, s) ≠ (SwiggyOAuthProvider.userId p, SwiggyOAuthProvider.service p) →
          oauth_entry u s st' = oauth_entry u s st) ∧
  (∀ u s, (u, s) ≠ (SwiggyOAuthProvider.userId p, SwiggyOAuthProvider.service p) →
          SessionStore.getClientInfo u s st' = SessionStore.getClientInfo u s st) ∧
  (∀ u, u ≠ SwiggyOAuthProvider.userId p →
        SessionStore.getSession u st' = SessionStore.getSession u st) ∧
  SessionStore.pendingFlows st' = SessionStore.pendingFlows st.

(** ** The entry point (index.ts): the completion handler

    The handler given to the [TokenManager] looks the session up and calls
    [botApp.handleAuthComplete(event.userId, chatId, event.service,
    event.success, event.error)] with
    [chatId = session?.telegramChatId ?? event.chatId].  The result below
    is the list of arguments of that call. *)
Module Main.

Definition onAuthComplete (event : AuthCompleteEvent.t) (st : SessionStore.t)
    : AuthCompleteEvent.t :=
  let session := SessionStore.getSession (AuthCompleteEvent.userId event) st in
  let chatId :=
    match session with
    | Some s => UserSession.telegramChatId s
    | None => AuthCompleteEvent.chatId event
    end in
  AuthCompleteEvent.mk (AuthCompleteEvent.userId event) chatId
    (AuthCompleteEvent.service event) (AuthCompleteEvent.success event)
    (AuthCompleteEvent.error event).

End Main.

(** Whether [auth] returned ["AUTHORIZED"]. *)
Definition is_authorized (r : AuthRun.result) : bool :=
  match r with
  | AuthRun.AUTHORIZED => true
  | _ => false
  end.




(** ** The client manager with calls that overlap

    A method that awaits runs in two parts, up to its [await] and from it
    on, and other calls run in between.  [getClient] awaits
    [client.connect] (l.67) between reading the cache (l.40) and writing
    it (l.84); [initiateAuth] awaits it (l.115) before writing the cache
    (l.118); [disconnectClient] awaits [client.close] (l.138) between
    reading the cache (l.135) and deleting the entry (l.142);
    [invalidateClient] does not await.  [disconnectUser] is its three
    [disconnectClient] calls, each awaited before the next.  While a
    connection attempt is awaited the SDK calls the provider of its
    transport.

    A state is the world and the calls suspended at their [await]; an
    event is a call that starts, a provider method invoked for a suspended
    connection attempt, a write of another component to the store, or an
    awaited promise that settles. *)
Module Async.
Import McpClientManager.

Inductive Task :=
| Connecting (forAuth : bool) (userId : Z) (service : SwiggyService)
             (client : Client) (transport : Transport)
| Closing (userId : Z) (service : SwiggyService).

Record State := mkState {
  world : World;
  tasks : gmap nat Task;
  next_task : nat;
}.

(** No call under way. *)
Definition start (w : World) : State := mkState w ∅ 0.

Inductive event :=
| CallGetClient (userId : Z) (service : SwiggyService) (url_ok : bool)
| CallInitiateAuth (userId : Z) (service : SwiggyService) (url_ok : bool)
| CallDisconnectClient (userId : Z) (service : SwiggyService)
| CallInvalidateClient (userId : Z) (service : SwiggyService)
| ProviderCalled (task : nat) (c : Sdk.call)
| StoreWrite (f : SessionStore.t → SessionStore.t)
| Settled (task : nat) (error : option string).

(** How a call ends, for its caller. *)
Inductive Completed :=
| GotClient (userId : Z) (service : SwiggyService) (r : result Client)
| GotUrl (userId : Z) (service : SwiggyService) (r : result (option string))
| Disconnected (userId : Z) (service : SwiggyService)
| Invalidated (userId : Z) (service : SwiggyService).

Definition suspend (a : State) (w : World) (t : Task) : State :=
  mkState w (<[next_task a := t]> (tasks a)) (S (next_task a)).

Definition with_world (a : State) (w : World) : State :=
  mkState w (tasks a) (next_task a).

Definition resume (a : State) (task : nat) (w : World) : State :=
  mkState w (delete task (tasks a)) (next_task a).

(** [getClient] up to [await client.connect(transport)]. *)
Definition callGetClient (userId : Z) (service : SwiggyService) (url_ok : bool)
    (a : State) : State * option Completed :=
  let w := world a in
  let m := manager w in
  let key := getKey userId service in
  match clients m !! key with
  | Some existing => (a, Some (GotClient userId service (Ok existing)))
  | None =>
      if negb (SessionStore.isAuthenticated userId service (store w)) then
        (a, Some (GotClient userId service
                    (Throw (AuthenticationRequiredError userId service))))
      else
        let oauthProvider :=
          SwiggyOAuthProvider.new userId service (callbackPort m)
            (Some (callbackHost m)) None in
        if negb url_ok then
          (a, Some (GotClient userId service (Throw (TypeError "Invalid URL"))))
        else
          let transport := mkTransport (endpoints m service) oauthProvider in
          let client := mkClient (next_ref w) in
          (suspend a
             (mkWorld m (store w) (S (next_ref w))
                (trace w ++ [ConnectCalled client transport]))
             (Connecting false userId service client transport),
           None)
  end.

(** [initiateAuth] up to [await client.connect(transport)]. *)
Definition callInitiateAuth (userId : Z) (service : SwiggyService) (url_ok : bool)
    (a : State) : State * option Completed :=
  let w := world a in
  let m := manager w in
  let oauthProvider :=
    SwiggyOAuthProvider.new userId service (callbackPort m)
      (Some (callbackHost m)) None in
  if negb url_ok then (a, Some (GotUrl userId service (Throw (TypeError "Invalid URL"))))
  else
    let transport := mkTransport (endpoints m service) oauthProvider in
    let client := mkClient (next_ref w) in
    (suspend a
       (mkWorld m (store w) (S (next_ref w))
          (trace w ++ [ConnectCalled client transport]))
       (Connecting true userId service client transport),
     None).

(** [disconnectClient] up to [await client.close()]. *)
Definition callDisconnectClient (userId : Z) (service : SwiggyService)
    (a : State) : State * option Completed :=
  let w := world a in
  match clients (manager w) !! getKey userId service with
  | Some client =>
      (suspend a
         (mkWorld (manager w) (store w) (next_ref w) (trace w ++ [CloseCalled client]))
         (Closing userId service),
       None)
  | None => (a, Some (Disconnected userId service))
  end.

(** The SDK invokes a method of the provider of a connection attempt that
    is under way. *)
Definition providerCalled (task : nat) (c : Sdk.call) (a : State) : State :=
  let w := world a in
  match tasks a !! task with
  | Some (Connecting _ _ _ _ transport) =>
      let '(st1, logs) := Sdk.perform (authProvider transport) c (store w) in
      with_world a
        (mkWorld (manager w) st1 (next_ref w) (trace w ++ (Logged <$> logs)))
  | _ => a
  end.

(** The promise a call awaits settles, resolved ([None]) or rejected with
    an error, and the call runs to its end. *)
Definition settled (task : nat) (error : option string) (a : State)
    : State * option Completed :=
  let w := world a in
  let m := manager w in
  match tasks a !! task with
  | Some (Connecting false userId service client transport) =>
      match error with
      | None =>
          (resume a task
             (mkWorld (cache m (getKey userId service) client transport) (store w)
                (next_ref w)
                (trace w ++ [Logged (Log.info "MCP client connected")])),
           Some (GotClient userId service (Ok client)))
      | Some err =>
          let w1 :=
            mkWorld m (store w) (next_ref w)
              (trace w ++ [Logged (Log.error "MCP client connection failed")]) in
          match SessionStore.getPendingAuthUrl userId (store w) with
          | Some _ =>
              (resume a task w1,
               Some (GotClient userId service
                       (Throw (AuthenticationRequiredError userId service))))
          | None =>
              (resume a task w1,
               Some (GotClient userId service (Throw (ConnectError err))))
          end
      end
  | Some (Connecting true userId service client transport) =>
      match error with
      | None =>
          (resume a task
             (mkWorld (cache m (getKey userId service) client transport) (store w)
                (next_ref w) (trace w)),
           Some (GotUrl userId service (Ok None)))
      | Some _ =>
          match SessionStore.getPendingAuthUrl userId (store w) with
          | Some (url, _) => (resume a task w, Some (GotUrl userId service (Ok (Some url))))
          | None => (resume a task w, Some (GotUrl userId service (Ok None)))
          end
      end
  | Some (Closing userId service) =>
      (resume a task
         (mkWorld (evict m (getKey userId service)) (store w) (next_ref w) (trace w)),
       Some (Disconnected userId service))
  | None => (a, None)
  end.

Definition step (a : State) (e : event) : State * option Completed :=
  match e with
  | CallGetClient u s url_ok => callGetClient u s url_ok a
  | CallInitiateAuth u s url_ok => callInitiateAuth u s url_ok a
  | CallDisconnectClient u s => callDisconnectClient u s a
  | CallInvalidateClient u s =>
      (with_world a (invalidateClient u s (world a)), Some (Invalidated u s))
  | ProviderCalled task c => (providerCalled task c a, None)
  | StoreWrite f =>
      (with_world a
         (mkWorld (manager (world a)) (f (store (world a))) (next_ref (world a))
            (trace (world a))),
       None)
  | Settled task error => settled task error a
  end.

(** The state after the events, and how the calls that ended in them
    ended, oldest first. *)
Fixpoint run (a : State) (es : list event) : State * list Completed :=
  match es with
  | [] => (a, [])
  | e :: es' =>
      let '(a1, r) := step a e in
      let '(a2, rs) := run a1 es' in
      (a2, option_list r ++ rs)
  end.

(** The events named invalidation or disconnection of the pair: such a
    call starts, or the [close] that a [disconnectClient] of the pair
    awaits settles. *)
Definition evicts (userId : Z) (service : SwiggyService) (a : State) (e : event) : bool :=
  match e with
  | CallDisconnectClient u s | CallInvalidateClient u s =>
      bool_decide (u = userId ∧ s = service)
  | Settled task _ =>
      match tasks a !! task with
      | Some (Closing u s) => bool_decide (u = userId ∧ s = service)
      | _ => false
      end
  | _ => false
  end.

(** The events that may delete or replace the cache entry of the pair:
    those of [evicts], and a connection attempt for the pair, of
    [initiateAuth] or of a [getClient] that found the cache empty, that
    resolves. *)
Definition disturbs (userId : Z) (service : SwiggyService) (a : State) (e : event) : bool :=
  evicts userId service a e ||
  match e with
  | Settled task None =>
      match tasks a !! task with
      | Some (Connecting _ u s _ _) => bool_decide (u = userId ∧ s = service)
      | _ => false
      end
  | _ => false
  end.

(** No event of the list disturbs the pair, each taken in the state in
    which it happens. *)
Fixpoint undisturbed (userId : Z) (service : SwiggyService) (a : State)
    (es : list event) : bool :=
  match es with
  | [] => true
  | e :: es' => negb (disturbs userId service a e) && undisturbed userId service (step a e).1 es'
  end.

Fixpoint unevicted (userId : Z) (service : SwiggyService) (a : State)
    (es : list event) : bool :=
  match es with
  | [] => true
  | e :: es' => negb (evicts userId service a e) && unevicted userId service (step a e).1 es'
  end.

(** The events of one call that nothing interrupts. *)
Definition whole_connect (start : event) (task : nat) (env : ConnectRun.t) : list event :=
  start :: (ProviderCalled task <$> ConnectRun.calls env)
        ++ [Settled task (ConnectRun.outcome env)].

End Async.

(** Every key of the cache is the key of a pair. *)
Definition keyed_by_pairs (m : McpClientManager.t) : Prop :=
  ∀ key, is_Some (McpClientManager.clients m !! key) →
    ∃ userId service, key = McpClientManager.getKey userId service.

(** * Sample data *)

(** A store in which user 7 has a session and nothing else. *)
Definition store_with_user7 : SessionStore.t :=
  (SessionStore.getOrCreateSession 1000 1000 1000 7 70 None SessionStore.empty).1.

Definition sample_tokens : OAuthTokens := mkTokens "at-1" "Bearer" None.

(** A flow registered at time 1000 under state ["S1"] for user 7 and the
    food service, with the five-minute window of config/constants.ts. *)
Definition OAUTH_FLOW_TIMEOUT_MS : Z := 300000.

Definition flow_S1 : PendingOAuthFlow.t :=
  PendingOAuthFlow.mk 7 70 food "" "S1" 1000 (1000 + OAUTH_FLOW_TIMEOUT_MS).

Definition store_with_flow_S1 : SessionStore.t :=
  SessionStore.registerPendingFlow "S1" flow_S1 store_with_user7.

Definition world_with_flow_S1 : Flow.World :=
  Flow.mkWorld store_with_flow_S1 [].

Definition sample_token_manager : TokenManager.t :=
  TokenManager.mk
    (λ s, match s with
          | food => "https://mcp.swiggy.com/food"
          | instamart => "https://mcp.swiggy.com/im"
          | dineout => "https://mcp.swiggy.com/dineout"
          end)
    3000 "localhost".

(** An exchange in which the SDK stores the tokens it obtained. *)
Definition authorized_run : AuthRun.t :=
  AuthRun.mk [Sdk.ClientInformation; Sdk.CodeVerifier; Sdk.SaveTokens 5000 sample_tokens]
             AuthRun.AUTHORIZED.

Definition failed_run : AuthRun.t :=
  AuthRun.mk [Sdk.ClientInformation; Sdk.CodeVerifier] (AuthRun.Threw "invalid_grant").

Definition sample_manager : McpClientManager.t :=
  McpClientManager.mk ∅ ∅ (TokenManager.endpoints sample_token_manager) 3000 "localhost".

(** The state after [initiateLogin] registered flow ["S1"] for user 7,
    before it calls [initiateAuth]. *)
Definition world_logging_in : McpClientManager.World :=
  McpClientManager.mkWorld sample_manager store_with_flow_S1 0 [].

(** A first connection without tokens: the SDK asks the provider for its
    state while the generator would return ["uuid-2"], has the
    authorization URL recorded and rejects. *)
Definition redirecting_connect : ConnectRun.t :=
  ConnectRun.mk true
    [Sdk.Tokens; Sdk.ClientInformation; Sdk.State "uuid-2";
     Sdk.SaveCodeVerifier "verifier-1";
     Sdk.RedirectToAuthorization "https://auth.swiggy.example/authorize?state=uuid-2"]
    (Some "Unauthorized").

(** User 7 authenticated for the food service, no client cached yet. *)
Definition store_authenticated : SessionStore.t :=
  SessionStore.saveTokens 5000 7 food sample_tokens store_with_user7.

Definition world_authenticated : McpClientManager.World :=
  McpClientManager.mkWorld sample_manager store_authenticated 0 [].

Definition successful_connect : ConnectRun.t :=
  ConnectRun.mk true [Sdk.Tokens] None.

(** The same after a first successful [getClient(7, food)]. *)
Definition world_connected : McpClientManager.World :=
  (McpClientManager.getClient 7 food successful_connect world_authenticated).1.

Definition failing_connect : ConnectRun.t :=
  ConnectRun.mk true [Sdk.Tokens] (Some "ECONNREFUSED").

(** What else may happen between two requests for the food client of user
    7: another user asks for a client, the tokens of user 7 are cleared,
    another of their services is invalidated, the other user is
    disconnected, the login of user 7 for food is started again but does
    not connect. *)
Definition other_activity : list History.op :=
  [History.GetClient 8 food successful_connect;
   History.StoreWrite (SessionStore.clearTokens 7 food);
   History.InvalidateClient 7 instamart;
   History.DisconnectUser 8;
   History.InitiateAuth 7 food failing_connect].

(** User 7 with tokens for two services. *)
Definition store_two_services : SessionStore.t :=
  SessionStore.saveTokens 5001 7 dineout sample_tokens store_authenticated.


(** A flow registered for user 9, who has no session (the login button was
    pressed without any earlier command). *)
Definition flow_S9 : PendingOAuthFlow.t :=
  PendingOAuthFlow.mk 9 90 food "" "S9" 1000 (1000 + OAUTH_FLOW_TIMEOUT_MS).

Definition world_with_flow_S9 : Flow.World :=
  Flow.mkWorld (SessionStore.registerPendingFlow "S9" flow_S9 store_with_flow_S1) [].

(** User 7 connected to food and dineout, user 8 (with a session and
    tokens) connected to food. *)
Definition world_three_clients : McpClientManager.World :=
  History.run
    (McpClientManager.mkWorld sample_manager
       (SessionStore.saveTokens 5003 8 food sample_tokens
          (SessionStore.getOrCreateSession 1000 1000 1000 8 80 None
             store_two_services).1)
       0 [])
    [History.GetClient 7 food successful_connect;
     History.GetClient 7 dineout successful_connect;
     History.GetClient 8 food successful_connect].

(** A connection attempt during which the SDK records the authorization
    URL and then rejects. *)
Definition unauthorized_connect : ConnectRun.t :=
  ConnectRun.mk true
    [Sdk.Tokens; Sdk.RedirectToAuthorization "https://auth.swiggy.example/authorize"]
    (Some "Unauthorized").

(** * The chat layer that calls the core *)

(** ** Messages and keyboards (bot/inlineKeyboards.ts) *)

Module Telegram.

Record Button := mkButton {
  text : string;
  callback_data : option string;
  url : option string;
}.

(** One call of [bot.sendMessage(chatId, text, options)]; [html] says
    whether [parse_mode: "HTML"] was given. *)
Record Sent := mkSent {
  chat : Z;
  body : string;
  html : bool;
  reply_markup : option (list (list Button));
}.

End Telegram.

(** The line feed written [\n] in the source. *)
Definition nl : string := String "010"%char EmptyString.

(** config/constants.ts *)
Definition VALID_SERVICES : list SwiggyService := [food; instamart; dineout].

Definition SERVICE_LABELS (s : SwiggyService) : string :=
  match s with
  | food => "Swiggy Food"
  | instamart => "Instamart"
  | dineout => "Dineout"
  end.

Definition AUTH_SUCCESS (label : string) : string :=
  "Successfully connected to <b>" +:+ label +:+ "</b>! You can now start searching.".

Module InlineKeyboards.
Import Telegram.

Definition buildLoginKeyboard : list (list Button) :=
  [[mkButton "🍔 Food" (Some "login:food") None];
   [mkButton "🛒 Instamart" (Some "login:instamart") None];
   [mkButton "🍽️ Dineout" (Some "login:dineout") None]].

Definition buildAuthLinkKeyboard (url : string) (service : SwiggyService)
    : list (list Button) :=
  [[mkButton ("Login to " +:+ service_name service) None (Some url)]].

End InlineKeyboards.

(** ** CommandHandlers (bot/commandHandlers.ts) *)

(** [String.prototype.toLowerCase] on the letters A to Z.  The argument is
    only compared with the three service names afterwards, and no
    character outside A to Z is lowered to one of their letters, so the
    comparison comes out as in the source for every input. *)
Definition lower_char (c : ascii) : ascii :=
  let n := nat_of_ascii c in
  if ((65 <=? n) && (n <=? 90))%nat then ascii_of_nat (n + 32) else c.

Fixpoint toLowerCase (s : string) : string :=
  match s with
  | EmptyString => EmptyString
  | String c s' => String (lower_char c) (toLowerCase s')
  end.

(** [VALID_SERVICES.includes(service)], with the service it then is. *)
Definition valid_service (s : string) : option SwiggyService :=
  if String.eqb s "food" then Some food
  else if String.eqb s "instamart" then Some instamart
  else if String.eqb s "dineout" then Some dineout
  else None.

Module CommandHandlers.
Import Telegram.

(** The handlers share the client manager and the store; [outbox] lists
    the calls of [bot.sendMessage], oldest first. *)
Record Bot := mkBot {
  world : McpClientManager.World;
  outbox : list Sent;
}.

Definition send (b : Bot) (m : Sent) : Bot := mkBot (world b) (outbox b ++ [m]).

Definition with_store (w : McpClientManager.World) (st : SessionStore.t)
    : McpClientManager.World :=
  McpClientManager.mkWorld (McpClientManager.manager w) st
    (McpClientManager.next_ref w) (McpClientManager.trace w).

Definition logged (w : McpClientManager.World) (e : Log.entry)
    : McpClientManager.World :=
  McpClientManager.mkWorld (McpClientManager.manager w) (McpClientManager.store w)
    (McpClientManager.next_ref w)
    (McpClientManager.trace w ++ [McpClientManager.Logged e]).

(** What a login attempt meets: the value of [crypto.randomUUID()], the two
    readings of [Date.now()] in the flow record, what the connection
    attempt does, and whether the n-th [sendMessage] of the attempt
    resolves. *)
Record LoginEnv := mkLoginEnv {
  uuid : string;
  t_created : Z;
  t_expires : Z;
  connect : ConnectRun.t;
  delivered : nat → bool;
}.

Definition link_message (label : string) : string :=
  "Please click the button below to log in to <b>" +:+ label +:+ "</b>:" +:+ nl +:+ nl
  +:+ "⚠️ This link expires in 5 minutes.".

(** The [catch] block of [initiateLogin]. *)
Definition login_failed (chatId : Z) (service : SwiggyService) (b : Bot) : Bot :=
  send (mkBot (logged (world b) (Log.error "Failed to initiate login")) (outbox b))
    (mkSent chatId
       ("Failed to start authentication for " +:+ SERVICE_LABELS service
        +:+ ". Please try again later.")
       false None).

(** Both revisions of the file: one calls [initiateAuth(userId, service)],
    the other passes [state] as a third argument, which [initiateAuth]
    does not take.  A [sendMessage] that rejects outside the [try] ends
    the handler; inside it, control goes to the [catch] block. *)
Definition initiateLogin (userId chatId : Z) (service : SwiggyService)
    (env : LoginEnv) (b : Bot) : Bot :=
  let b0 :=
    send b (mkSent chatId
              ("Connecting to <b>" +:+ SERVICE_LABELS service +:+ "</b>..." +:+ nl
               +:+ "Please wait while I generate your authentication link.")
              true None) in
  if negb (delivered env 0) then b0
  else
    let state := uuid env in
    let flow :=
      PendingOAuthFlow.mk userId chatId service "" state (t_created env)
        (t_expires env + OAUTH_FLOW_TIMEOUT_MS) in
    let w1 :=
      with_store (world b0)
        (SessionStore.registerPendingFlow state flow (McpClientManager.store (world b0))) in
    let '(w2, r) := McpClientManager.initiateAuth userId service (connect env) w1 in
    let b2 := mkBot w2 (outbox b0) in
    match r with
    | McpClientManager.Throw _ => login_failed chatId service b2
    | McpClientManager.Ok authUrl =>
        let m :=
          match authUrl with
          | Some u =>
              if truthy u then
                mkSent chatId (link_message (SERVICE_LABELS service)) true
                  (Some (InlineKeyboards.buildAuthLinkKeyboard u service))
              else
                match SessionStore.getPendingAuthUrl userId (McpClientManager.store w2) with
                | Some (purl, psvc) =>
                    mkSent chatId (link_message (SERVICE_LABELS psvc)) true
                      (Some (InlineKeyboards.buildAuthLinkKeyboard purl psvc))
                | None => mkSent chatId (AUTH_SUCCESS (SERVICE_LABELS service)) true None
                end
          | None =>
              match SessionStore.getPendingAuthUrl userId (McpClientManager.store w2) with
              | Some (purl, psvc) =>
                  mkSent chatId (link_message (SERVICE_LABELS psvc)) true
                    (Some (InlineKeyboards.buildAuthLinkKeyboard purl psvc))
              | None => mkSent chatId (AUTH_SUCCESS (SERVICE_LABELS service)) true None
              end
          end in
        let b3 := send b2 m in
        if delivered env 1 then b3 else login_failed chatId service b3
    end.

(** [serviceArg] is the trimmed rest of the command, if any; the three
    readings of [Date.now()] are those of [getOrCreateSession]. *)
Definition handleLogin (tc ta tn : Z) (userId chatId : Z) (username : option string)
    (serviceArg : option string) (env : LoginEnv) (b : Bot) : Bot :=
  let st0 :=
    (SessionStore.getOrCreateSession tc ta tn userId chatId username
       (McpClientManager.store (world b))).1 in
  let b0 := mkBot (with_store (world b) st0) (outbox b) in
  match serviceArg with
  | Some arg =>
      if negb (truthy arg) then
        send b0 (mkSent chatId "Which Swiggy service would you like to connect?" false
                   (Some InlineKeyboards.buildLoginKeyboard))
      else
        match valid_service (toLowerCase arg) with
        | None =>
            send b0 (mkSent chatId "Invalid service. Use one of: food, instamart, dineout"
                       false None)
        | Some service =>
            if SessionStore.isAuthenticated userId service st0 then
              send b0 (mkSent chatId
                         ("You're already connected to <b>" +:+ SERVICE_LABELS service
                          +:+ "</b>. Use /logout " +:+ service_name service
                          +:+ " to disconnect first.")
                         true None)
            else initiateLogin userId chatId service env b0
        end
  | None =>
      send b0 (mkSent chatId "Which Swiggy service would you like to connect?" false
                 (Some InlineKeyboards.buildLoginKeyboard))
  end.


End CommandHandlers.

(** A login attempt in which every message is delivered. *)
Definition sample_login_env : CommandHandlers.LoginEnv :=
  CommandHandlers.mkLoginEnv "uuid-1" 2000 2001 redirecting_connect (λ _, true).

Definition bot_three_clients : CommandHandlers.Bot :=
  CommandHandlers.mkBot world_three_clients [].

Definition bot_logging_in : CommandHandlers.Bot :=
  CommandHandlers.mkBot world_logging_in [].

(** ** RateLimiter (utils/rateLimiter.ts) *)

Module RateLimiter.

Record t := mk {
  requests : gmap Z (list Z);
  maxRequests : Z;
  windowMs : Z;
}.

Definition new (maxRequests windowMs : option Z) : t :=
  mk ∅ (default 20 maxRequests) (default 60000 windowMs).

(** [now - ts < this.windowMs] *)
Definition in_window (rl : t) (now ts : Z) : bool := now - ts <? windowMs rl.

(** [now] is the reading of [Date.now()]; the result is the limiter as it
    is left and the value returned. *)
Definition isLimited (now userId : Z) (rl : t) : t * bool :=
  let userRequests := default [] (requests rl !! userId) in
  let valid := List.filter (in_window rl now) userRequests in
  if maxRequests rl <=? Z.of_nat (length valid) then
    (mk (<[userId := valid]> (requests rl)) (maxRequests rl) (windowMs rl), true)
  else
    (mk (<[userId := valid ++ [now]]> (requests rl)) (maxRequests rl) (windowMs rl),
     false).

(** A history of calls [(now, userId)]: the limiter it leaves and the calls
    that were let through, oldest first. *)
Definition step (s : t * list (Z * Z)) (c : Z * Z) : t * list (Z * Z) :=
  let '(rl', limited) := isLimited c.1 c.2 s.1 in
  (rl', if limited then s.2 else s.2 ++ [c]).

Definition run (rl : t) (calls : list (Z * Z)) : t * list (Z * Z) :=
  foldl step (rl, []) calls.

(** The times of the calls of a user among [calls]. *)
Definition times_of (userId : Z) (calls : list (Z * Z)) : list Z :=
  (List.filter (λ c : Z * Z, c.2 =? userId) calls).*1.

(** The clock never goes back: each call is no earlier than the one
    before, the first no earlier than [t]. *)
Fixpoint nondecreasing (t : Z) (calls : list (Z * Z)) : Prop :=
  match calls with
  | [] => True
  | c :: calls' => t ≤ c.1 ∧ nondecreasing c.1 calls'
  end.

End RateLimiter.

(** ** ConversationMemory (memory/conversationMemory.ts) *)

Module ConversationMemory.

Inductive Role := user | assistant.

(** types/gemini.types.ts.  The memory stores a parsed intent and hands it
    back without looking inside; its confidence, parameters and filters
    are not represented. *)
Record ParsedIntent := mkIntent {
  intent : string;
  service : string;
  toolName : option string;
  followUp : bool;
  originalQuery : string;
}.

Record ConversationTurn := mkTurn {
  role : Role;
  content : string;
  timestamp : Z;
  parsedIntent : option ParsedIntent;
  toolResults : option string;
}.

Record t := mk {
  store : gmap Z (list ConversationTurn);
  maxTurnsPerUser : Z;
  ttlMs : Z;
}.

Definition new (maxTurnsPerUser ttlMs : option Z) : t :=
  mk ∅ (default 50 maxTurnsPerUser) (default 3600000 ttlMs).

(** [turns.push(turn)], then [turns.splice(0, turns.length - max)] when
    the list is longer than [max]; [splice] removes what there is when
    asked for more. *)
Definition addTurn (userId : Z) (turn : ConversationTurn) (cm : t) : t :=
  let turns := default [] (store cm !! userId) ++ [turn] in
  let n := Z.of_nat (length turns) in
  let kept :=
    if maxTurnsPerUser cm <? n then drop (Z.to_nat (n - maxTurnsPerUser cm)) turns
    else turns in
  mk (<[userId := kept]> (store cm)) (maxTurnsPerUser cm) (ttlMs cm).

(** [Array.prototype.slice(start)] for an integer [start]: a negative start
    counts from the end. *)
Definition slice_from {A} (start : Z) (l : list A) : list A :=
  let len := Z.of_nat (length l) in
  let k := if start <? 0 then Z.max (len + start) 0 else Z.min start len in
  drop (Z.to_nat k) l.

(** [limit] is absent when the caller relies on the default of 10. *)
Definition getHistory (userId : Z) (limit : option Z) (cm : t) : list ConversationTurn :=
  slice_from (- default 10 limit) (default [] (store cm !! userId)).

(** The loop from the last turn down to the first. *)
Definition getLastIntent (userId : Z) (cm : t) : option ParsedIntent :=
  head (omap parsedIntent (reverse (default [] (store cm !! userId)))).

Definition getLastToolResults (userId : Z) (cm : t) : option string :=
  head (omap (λ turn, match toolResults turn with
                      | Some r => if truthy r then Some r else None
                      | None => None
                      end)
             (reverse (default [] (store cm !! userId)))).

Definition clearHistory (userId : Z) (cm : t) : t :=
  mk (delete userId (store cm)) (maxTurnsPerUser cm) (ttlMs cm).

(** The periodic sweep: a user goes when they have no turn or when their
    last turn is older than [ttlMs]. *)
Definition cleanupExpired (now : Z) (cm : t) : t :=
  mk (omap (λ turns, match last turns with
                     | Some t => if ttlMs cm <? now - timestamp t then None else Some turns
                     | None => None
                     end) (store cm))
     (maxTurnsPerUser cm) (ttlMs cm).

(** [TelegramBotApp.storeConversationTurn]: the user's turn with the
    intent, then the assistant's turn with the tool results; [t1] and [t2]
    are the two readings of [Date.now()]. *)
Definition storeConversationTurn (t1 t2 : Z) (userId : Z)
    (userMessage assistantResponse : string) (intent : option ParsedIntent)
    (results : option string) (cm : t) : t :=
  addTurn userId (mkTurn assistant assistantResponse t2 None results)
    (addTurn userId (mkTurn user userMessage t1 intent None) cm).

End ConversationMemory.

(** What the list kept for each user stands for: from time [t] on, the
    times in it that are still in the window are those of the calls of the
    user that were let through. *)
Definition limiter_tracks (rl : RateLimiter.t) (accepted : list (Z * Z)) (t : Z) : Prop :=
  ∀ userId t', t ≤ t' →
    List.filter (RateLimiter.in_window rl t') (default [] (RateLimiter.requests rl !! userId)) =
    List.filter (RateLimiter.in_window rl t') (RateLimiter.times_of userId accepted).

(** The time of the last call of a history that starts at [t]. *)
Definition end_time (t : Z) (calls : list (Z * Z)) : Z :=
  foldl (λ _ c, c.1) t calls.

Definition sample_intent : ConversationMemory.ParsedIntent :=
  ConversationMemory.mkIntent "food_search" "food" None false "pizza under 300".

Definition sample_turn (n : Z) : ConversationMemory.ConversationTurn :=
  ConversationMemory.mkTurn ConversationMemory.user "hello" n None None.

(** A memory that keeps three turns per user, in which user 7 already has
    three. *)
Definition memory_full : ConversationMemory.t :=
  ConversationMemory.addTurn 7 (sample_turn 3)
    (ConversationMemory.addTurn 7 (sample_turn 2)
       (ConversationMemory.addTurn 7 (sample_turn 1)
          (ConversationMemory.new (Some 3) None))).

(** ** MessageFormatter (bot/messageFormatter.ts): the text helpers *)

Module MessageFormatter.

(** A JavaScript string is a sequence of UTF-16 code units, and [length],
    [substring] and [lastIndexOf] count in code units. *)
Definition text := list Z.

(** The code units of an ASCII literal. *)
Definition units (s : string) : text :=
  (λ c, Z.of_nat (nat_of_ascii c)) <$> String.list_ascii_of_string s.

Definition newline : Z := 10.

(** config/constants.ts *)
Definition TELEGRAM_MAX_MESSAGE_LENGTH : Z := 4096.

Definition len (s : text) : Z := Z.of_nat (length s).

(** [s.substring(from, to)] and [s.substring(from)] for [0 <= from <= to]. *)
Definition substring (from to : Z) (s : text) : text :=
  take (Z.to_nat (to - from)) (drop (Z.to_nat from) s).

Definition substring_from (from : Z) (s : text) : text :=
  drop (Z.to_nat from) s.

(** The last index at which [c] occurs in [s], counting the first unit of
    [s] as index [i]; [best] when there is none. *)
Fixpoint last_index_from (c : Z) (s : text) (i best : Z) : Z :=
  match s with
  | [] => best
  | x :: s' => last_index_from c s' (i + 1) (if x =? c then i else best)
  end.

(** [s.lastIndexOf(c, position)] for a search string of one unit: the last
    index not after [position] at which [c] occurs, -1 when there is
    none. *)
Definition lastIndexOf (c : Z) (position : Z) (s : text) : Z :=
  last_index_from c (take (Z.to_nat (Z.max position 0 + 1)) s) 0 (-1).

(** Where the loop of [splitMessage] cuts a text longer than the limit. *)
Definition split_point (remaining : text) : Z :=
  let splitAt := lastIndexOf newline TELEGRAM_MAX_MESSAGE_LENGTH remaining in
  if (splitAt =? -1) || (splitAt <? TELEGRAM_MAX_MESSAGE_LENGTH / 2)
  then TELEGRAM_MAX_MESSAGE_LENGTH else splitAt.

(** The [while] loop of [splitMessage]; each unit of fuel is one turn of
    the loop, and [None] is the loop still running when the fuel is
    used up. *)
Fixpoint split_loop (fuel : nat) (remaining : text) : option (list text) :=
  match fuel with
  | O => None
  | S fuel =>
    if 0 <? len remaining then
      if len remaining <=? TELEGRAM_MAX_MESSAGE_LENGTH then Some [remaining]
      else
        let splitAt := split_point remaining in
        match split_loop fuel (substring_from splitAt remaining) with
        | Some chunks => Some (substring 0 splitAt remaining :: chunks)
        | None => None
        end
    else Some []
  end.

(** The loop is given as many turns as the text has units. *)
Definition splitMessage (s : text) : option (list text) :=
  if len s <=? TELEGRAM_MAX_MESSAGE_LENGTH then Some [s]
  else split_loop (length s) s.

Definition truncated_marker : text :=
  units (nl ++ nl ++ "<i>... truncated</i>")%string.

Definition truncate (s : text) : text :=
  if len s <=? TELEGRAM_MAX_MESSAGE_LENGTH then s
  else substring 0 (TELEGRAM_MAX_MESSAGE_LENGTH - 20) s ++ truncated_marker.

(** [s.replace(/c/g, by)] for a pattern of one unit. *)
Definition replace_all (c : Z) (by_ : text) (s : text) : text :=
  s ≫= (λ x, if x =? c then by_ else [x]).

Definition amp : Z := 38.
Definition lt : Z := 60.
Definition gt : Z := 62.

Definition escapeHtml (s : text) : text :=
  replace_all gt (units "&gt;")
    (replace_all lt (units "&lt;")
       (replace_all amp (units "&amp;") s)).

End MessageFormatter.

(** What the chunks of a text are: they make up the text, none is empty or
    longer than the limit, and each one that is followed by another is at
    least half the limit long and ends where the limit or a line break
    is. *)
Definition chunks_of (s : MessageFormatter.text) (chunks : list MessageFormatter.text) : Prop :=
  concat chunks = s ∧
  Forall (λ c, 1 ≤ MessageFormatter.len c ≤ MessageFormatter.TELEGRAM_MAX_MESSAGE_LENGTH) chunks ∧
  ∀ (i : nat) c next, chunks !! i = Some c → chunks !! S i = Some next →
    MessageFormatter.TELEGRAM_MAX_MESSAGE_LENGTH / 2 ≤ MessageFormatter.len c ∧
    (MessageFormatter.len c = MessageFormatter.TELEGRAM_MAX_MESSAGE_LENGTH ∨ head next = Some MessageFormatter.newline).


(** A text of 5001 units with one line break, at index 3000. *)
Definition sample_long_text : MessageFormatter.text :=
  repeat 120 3000 ++ [MessageFormatter.newline] ++ repeat 121 2000.

(** A text of 5000 units without a line break. *)
Definition sample_long_line : MessageFormatter.text := repeat 120 5000.

(** What [escapeHtml] puts in the place of one unit. *)
Definition escape_unit (x : Z) : MessageFormatter.text :=
  if x =? MessageFormatter.amp then MessageFormatter.units "&amp;"
  else if x =? MessageFormatter.lt then MessageFormatter.units "&lt;"
  else if x =? MessageFormatter.gt then MessageFormatter.units "&gt;"
  else [x].

(** ** ToolDiscovery (mcp/toolDiscovery.ts) *)

Module ToolDiscovery.

(** config/constants.ts *)
Definition TOOL_CACHE_TTL_MS : Z := 3600000.

(** A tool of the SDK stands for its name; the class looks at nothing
    else of it. *)
Record DiscoveredTool := mkTool {
  service : SwiggyService;
  tool : string;
}.

Record ToolCache := mkCache {
  tools : list DiscoveredTool;
  discoveredAt : Z;
  ttlMs : Z;
}.

Record t := mk {
  globalCache : option ToolCache;
  perUserCache : gmap Z ToolCache;
}.

Definition new : t := mk None ∅.

(** [listed] is what [client.listTools()] answers, [None] when it throws;
    [now] is the reading of [Date.now()]. *)
Definition discoverToolsForUser (now : Z) (userId : Z) (svc : SwiggyService)
    (listed : option (list string)) (td : t) : t * list DiscoveredTool :=
  match listed with
  | Some names =>
    let found := mkTool svc <$> names in
    let otherServiceTools :=
      match perUserCache td !! userId with
      | Some existing => List.filter (λ x, negb (bool_decide (service x = svc))) (tools existing)
      | None => []
      end in
    (mk (globalCache td)
        (<[userId := mkCache (otherServiceTools ++ found) now TOOL_CACHE_TTL_MS]>
           (perUserCache td)),
     found)
  | None => (td, [])
  end.

Definition fresh (now : Z) (c : ToolCache) : bool := now - discoveredAt c <? ttlMs c.

(** [userId] is absent when the caller passes none; [if (userId)] also
    fails for the number 0.  [now] and [now'] are the two readings of the
    clock. *)
Definition getTools (now now' : Z) (userId : option Z) (td : t) : list DiscoveredTool :=
  let fallback :=
    match globalCache td with
    | Some g => if fresh now' g then tools g else []
    | None => []
    end in
  match userId with
  | Some u =>
    if u =? 0 then fallback
    else match perUserCache td !! u with
         | Some c => if fresh now c then tools c else fallback
         | None => fallback
         end
  | None => fallback
  end.

Definition getToolsForService (now now' : Z) (svc : SwiggyService) (userId : option Z)
    (td : t) : list DiscoveredTool :=
  List.filter (λ x, bool_decide (service x = svc)) (getTools now now' userId td).

Definition hasToolsForService (now now' : Z) (svc : SwiggyService) (userId : option Z)
    (td : t) : bool :=
  0 <? Z.of_nat (length (getToolsForService now now' svc userId td)).

Definition invalidateUser (userId : Z) (td : t) : t :=
  mk (globalCache td) (delete userId (perUserCache td)).

End ToolDiscovery.

(** The tools of dineout discovered for user 7 at time 0. *)
Definition discovery_at_0 : ToolDiscovery.t :=
  (ToolDiscovery.discoverToolsForUser 0 7 dineout (Some ["search_restaurants"])
     ToolDiscovery.new).1.


(** Two requests of user 7 for the food client that overlap: the second
    starts while the first awaits its connection. *)
Definition overlapping_requests : list Async.event :=
  [Async.CallGetClient 7 food true;
   Async.CallGetClient 7 food true;
   Async.Settled 0 None;
   Async.Settled 1 None].

(** The first request of user 7 for the food client, awaiting its
    connection. *)
Definition async_connecting : Async.State :=
  (Async.step (Async.start world_authenticated) (Async.CallGetClient 7 food true)).1.

(** The same once the connection is there. *)
Definition async_connected : Async.State :=
  (Async.step async_connecting (Async.Settled 0 None)).1.

(** What may go on around the cached food client of user 7 without
    touching it: a request that finds it, a request of a user who is not
    authenticated, a login for the pair that starts, redirects and fails
    to connect, the tokens of the user being cleared, another service of
    the user being disconnected. *)
Definition async_activity : list Async.event :=
  [Async.CallGetClient 7 food true;
   Async.CallGetClient 8 food true;
   Async.CallInitiateAuth 7 food true;
   Async.ProviderCalled 1
     (Sdk.RedirectToAuthorization "https://auth.swiggy.example/authorize?state=uuid-2");
   Async.StoreWrite (SessionStore.clearTokens 7 food);
   Async.CallDisconnectClient 7 dineout;
   Async.Settled 1 (Some "Unauthorized");
   Async.CallInvalidateClient 7 instamart].

(** * Properties *)

(** ** Credential store *)

Section SessionStoreFacts.
Import SessionStore.

Implicit Types (st : SessionStore.t) (userId : Z) (service : SwiggyService).

Lemma sessions_put_session st userId s :
  sessions (put_session st userId s) !! userId = Some s.
Proof. unfold put_session, with_sessions; simpl. apply lookup_insert_eq. Qed.

Lemma isAuthenticated_getTokens st userId service :
  isAuthenticated userId service st = true ↔ is_Some (getTokens userId service st).
Proof.
  unfold isAuthenticated, getTokens.
  destruct (_ ≫= _) as [tk|]; split; intros H; eauto; try done.
Qed.

Lemma isAuthenticated_no_session st userId service :
  getSession userId st = None → isAuthenticated userId service st = false.
Proof. unfold getSession, isAuthenticated. by intros ->. Qed.

Lemma saveTokens_getTokens st userId service now tokens :
  is_Some (getSession userId st) →
  getTokens userId service (saveTokens now userId service tokens st) = Some tokens.
Proof.
  unfold getSession, saveTokens, getTokens. intros [session Hs]. rewrite Hs.
  rewrite sessions_put_session. simpl. by rewrite lookup_insert_eq.
Qed.

Lemma clearTokens_getTokens st userId service :
  getTokens userId service (clearTokens userId service st) = None.
Proof.
  unfold clearTokens, getTokens.
  destruct (sessions st !! userId) as [session|] eqn:Hs; simpl.
  - destruct (UserSession.oauthState session !! service) as [e|] eqn:He.
    + rewrite sessions_put_session. simpl. by rewrite lookup_delete_eq.
    + rewrite Hs. simpl. by rewrite He.
  - by rewrite Hs.
Qed.

(** Operations on one user leave the sessions of the others alone. *)
Lemma saveTokens_other st userId userId' service now tokens :
  userId ≠ userId' →
  getSession userId' (saveTokens now userId service tokens st) = getSession userId' st.
Proof.
  intros Hne. unfold getSession, saveTokens.
  destruct (sessions st !! userId); [|done].
  unfold put_session, with_sessions; simpl. by rewrite lookup_insert_ne.
Qed.

(** [saveTokens] resets the markers of a login in progress in the same
    step that stores the tokens. *)
Lemma saveTokens_clears_pending st userId service now tokens :
  getPendingAuthUrl userId (saveTokens now userId service tokens st) = None.
Proof.
  unfold getPendingAuthUrl, saveTokens.
  destruct (sessions st !! userId) as [session|] eqn:Hs.
  - by rewrite sessions_put_session.
  - by rewrite Hs.
Qed.

Lemma pendingFlows_saveTokens st userId service now tokens :
  pendingFlows (saveTokens now userId service tokens st) = pendingFlows st.
Proof. unfold saveTokens. by destruct (sessions st !! userId). Qed.

Lemma pendingFlows_saveCodeVerifier st userId service v :
  pendingFlows (saveCodeVerifier userId service v st) = pendingFlows st.
Proof. unfold saveCodeVerifier. by destruct (sessions st !! userId). Qed.

Lemma pendingFlows_setPendingAuthUrl st userId service url :
  pendingFlows (setPendingAuthUrl userId service url st) = pendingFlows st.
Proof. unfold setPendingAuthUrl. by destruct (sessions st !! userId). Qed.

Lemma getPendingFlow_remove st state :
  getPendingFlow state (removePendingFlow state st) = None.
Proof. unfold getPendingFlow, removePendingFlow; simpl. apply lookup_delete_eq. Qed.

Lemma getPendingFlow_register st state flow :
  getPendingFlow state (registerPendingFlow state flow st) = Some flow.
Proof. unfold getPendingFlow, registerPendingFlow; simpl. apply lookup_insert_eq. Qed.

End SessionStoreFacts.

(** C6 (as amended): for every user that has a session in the store and
    every service, [saveTokens] followed immediately by [isAuthenticated]
    gives true; for every user and service, [clearTokens] followed
    immediately by [isAuthenticated] gives false. *)
Theorem saveTokens_clearTokens_isAuthenticated
    (st : SessionStore.t) (userId : Z) (service : SwiggyService)
    (now : Z) (tokens : OAuthTokens) :
  (is_Some (SessionStore.getSession userId st) →
   SessionStore.isAuthenticated userId service
     (SessionStore.saveTokens now userId service tokens st) = true) ∧
  SessionStore.isAuthenticated userId service
    (SessionStore.clearTokens userId service st) = false.
Proof.
  split.
  - intros Hs. apply isAuthenticated_getTokens.
    rewrite saveTokens_getTokens; eauto.
  - destruct (SessionStore.isAuthenticated _ _ _) eqn:E; [|done].
    apply isAuthenticated_getTokens in E.
    rewrite clearTokens_getTokens in E. by destruct E.
Qed.

Lemma saveTokens_clearTokens_isAuthenticated_witness :
  SessionStore.isAuthenticated 7 food
    (SessionStore.saveTokens 2000 7 food sample_tokens store_with_user7) = true ∧
  SessionStore.isAuthenticated 7 food
    (SessionStore.clearTokens 7 food store_with_user7) = false.
Proof.
  destruct (saveTokens_clearTokens_isAuthenticated
              store_with_user7 7 food 2000 sample_tokens) as [Hsave Hclear].
  split; [apply Hsave; vm_compute; eauto | exact Hclear].
Defined.

(** C6 as stated fails for a user without a session: the tokens are not
    stored, and the user is not authenticated afterwards. *)
Lemma saveTokens_without_session_not_authenticated :
  SessionStore.isAuthenticated 7 food
    (SessionStore.saveTokens 2000 7 food sample_tokens SessionStore.empty) = false.
Proof. vm_compute. reflexivity. Qed.

(** C10: for a user without a session, [saveTokens], [saveCodeVerifier] and
    [setPendingAuthUrl] return normally and leave the whole store as it
    was; in particular the user is still not authenticated after
    [saveTokens]. *)
Theorem writes_without_session_are_noops
    (st : SessionStore.t) (userId : Z) (service : SwiggyService)
    (now : Z) (tokens : OAuthTokens) (verifier url : string) :
  SessionStore.getSession userId st = None →
  SessionStore.saveTokens now userId service tokens st = st ∧
  SessionStore.saveCodeVerifier userId service verifier st = st ∧
  SessionStore.setPendingAuthUrl userId service url st = st ∧
  SessionStore.isAuthenticated userId service
    (SessionStore.saveTokens now userId service tokens st) = false.
Proof.
  unfold SessionStore.getSession. intros Hs.
  assert (Hsave : SessionStore.saveTokens now userId service tokens st = st)
    by (unfold SessionStore.saveTokens; by rewrite Hs).
  repeat split.
  - exact Hsave.
  - unfold SessionStore.saveCodeVerifier. by rewrite Hs.
  - unfold SessionStore.setPendingAuthUrl. by rewrite Hs.
  - rewrite Hsave. by apply isAuthenticated_no_session.
Qed.

Lemma writes_without_session_are_noops_witness :
  SessionStore.saveTokens 2000 8 food sample_tokens store_with_user7 = store_with_user7 ∧
  SessionStore.saveCodeVerifier 8 food "verifier" store_with_user7 = store_with_user7 ∧
  SessionStore.setPendingAuthUrl 8 food "https://auth.example/authorize" store_with_user7
    = store_with_user7 ∧
  SessionStore.isAuthenticated 8 food
    (SessionStore.saveTokens 2000 8 food sample_tokens store_with_user7) = false.
Proof.
  apply (writes_without_session_are_noops store_with_user7 8 food 2000
           sample_tokens "verifier" "https://auth.example/authorize").
  vm_compute. reflexivity.
Defined.

(** ** Flow coordinator *)

Section FlowFacts.
Import Flow.

Lemma notifications_app tr1 tr2 :
  notifications (tr1 ++ tr2) = notifications tr1 ++ notifications tr2.
Proof. apply omap_app. Qed.

Lemma exchanges_app tr1 tr2 :
  exchanges (tr1 ++ tr2) = exchanges tr1 ++ exchanges tr2.
Proof. apply omap_app. Qed.

Lemma notifications_logged (logs : list Log.entry) :
  notifications (Logged <$> logs) = [].
Proof. induction logs as [|e logs IH]; [done|]. exact IH. Qed.

Lemma exchanges_logged (logs : list Log.entry) :
  exchanges (Logged <$> logs) = [].
Proof. induction logs as [|e logs IH]; [done|]. exact IH. Qed.

(** No method of the provider touches the registry of pending flows. *)
Lemma perform_pendingFlows p c st :
  SessionStore.pendingFlows (Sdk.perform p c st).1 = SessionStore.pendingFlows st.
Proof.
  destruct c; simpl; try done.
  - apply pendingFlows_saveTokens.
  - apply pendingFlows_setPendingAuthUrl.
  - apply pendingFlows_saveCodeVerifier.
Qed.

Lemma run_pendingFlows p cs st :
  SessionStore.pendingFlows (Sdk.run p cs st).1 = SessionStore.pendingFlows st.
Proof.
  revert st. induction cs as [|c cs IH]; intros st; simpl; [done|].
  pose proof (perform_pendingFlows p c st) as Hc.
  destruct (Sdk.perform p c st) as [st1 l1]. simpl in Hc.
  specialize (IH st1). destruct (Sdk.run p cs st1) as [st2 l2]. simpl in *.
  congruence.
Qed.

(** The shape of the trace after an exchange: the call, the lines the
    provider and the coordinator log, then the notification. *)
Lemma exchange_trace_shape tr p url code seen logs l ev :
  let tr' := (tr ++ [AuthCalled p url code seen] ++ (Logged <$> logs))
               ++ [Logged l; AuthComplete ev] in
  tr' = tr ++ [AuthCalled p url code seen]
           ++ (Logged <$> (logs ++ [l])) ++ [AuthComplete ev] ∧
  notifications tr' = notifications tr ++ [ev] ∧
  exchanges tr' =
    exchanges tr ++ [(SwiggyOAuthProvider.userId p, SwiggyOAuthProvider.service p, code)].
Proof.
  intros tr'. subst tr'. split; [|split].
  - rewrite fmap_app. rewrite <- !app_assoc. reflexivity.
  - rewrite !notifications_app, notifications_logged. simpl.
    by rewrite app_nil_r.
  - rewrite !exchanges_app, exchanges_logged. simpl.
    by rewrite <- app_assoc.
Qed.

End FlowFacts.

(** C4: a callback whose state matches no pending flow is logged and
    dropped by either revision of the coordinator: one warning is logged,
    no notification is delivered, no exchange is attempted and the store
    (sessions, tokens, pending flows, client registrations) is the same. *)
Theorem unknown_state_is_dropped
    (tm : TokenManager.t) (now : Z) (sdk : AuthRun.t)
    (event : AuthCallbackEvent.t) (w : Flow.World) :
  SessionStore.getPendingFlow (AuthCallbackEvent.state event) (Flow.store w) = None →
  ∀ w', w' = TokenManager.handleCallback tm now sdk event w ∨
        w' = TokenManagerSignalOnly.handleCallback now event w →
    Flow.store w' = Flow.store w ∧
    Flow.trace w' =
      Flow.trace w ++ [Flow.Logged (Log.warn "Received callback for unknown state")] ∧
    Flow.notifications (Flow.trace w') = Flow.notifications (Flow.trace w) ∧
    Flow.exchanges (Flow.trace w') = Flow.exchanges (Flow.trace w).
Proof.
  intros Hnone w' Hw'.
  assert (w' = Flow.mkWorld (Flow.store w)
                 (Flow.trace w ++
                    [Flow.Logged (Log.warn "Received callback for unknown state")]))
    as ->.
  { destruct Hw' as [-> | ->];
      unfold TokenManager.handleCallback, TokenManagerSignalOnly.handleCallback;
      by rewrite Hnone. }
  simpl. rewrite notifications_app, exchanges_app. simpl.
  by rewrite !app_nil_r.
Qed.

Lemma unknown_state_is_dropped_witness :
  let w' :=
    TokenManager.handleCallback sample_token_manager 2000 authorized_run
      (AuthCallbackEvent.mk "code-1" "unknown-xyz") world_with_flow_S1 in
  Flow.store w' = store_with_flow_S1 ∧
  Flow.trace w' = [Flow.Logged (Log.warn "Received callback for unknown state")] ∧
  Flow.notifications (Flow.trace w') = [] ∧
  Flow.exchanges (Flow.trace w') = [].
Proof.
  apply (unknown_state_is_dropped sample_token_manager 2000 authorized_run
           (AuthCallbackEvent.mk "code-1" "unknown-xyz") world_with_flow_S1).
  - vm_compute. reflexivity.
  - left. reflexivity.
Defined.



(** X7: the revision with the exchange does what C1 says.  For a callback
    whose state matches a pending flow that has not expired: the record is
    removed, then [auth] is called once, with a provider for the user and
    service of the flow and with the code of the callback, on a store in
    which the record is already gone; after it exactly one notification is
    delivered, a success if and only if [auth] returned AUTHORIZED, and
    otherwise a failure with the retry message. *)
Lemma exchange_revision_resolves_flow
    (tm : TokenManager.t) (now : Z) (sdk : AuthRun.t)
    (event : AuthCallbackEvent.t) (w : Flow.World) (flow : PendingOAuthFlow.t) :
  SessionStore.getPendingFlow (AuthCallbackEvent.state event) (Flow.store w) = Some flow →
  ¬ PendingOAuthFlow.expiresAt flow < now →
  let w' := TokenManager.handleCallback tm now sdk event w in
  ∃ provider seen logs ev,
    Flow.trace w' =
      Flow.trace w
        ++ [Flow.AuthCalled provider
              (TokenManager.endpoints tm (PendingOAuthFlow.service flow))
              (AuthCallbackEvent.code event) seen]
        ++ (Flow.Logged <$> logs) ++ [Flow.AuthComplete ev] ∧
    SwiggyOAuthProvider.userId provider = PendingOAuthFlow.telegramUserId flow ∧
    SwiggyOAuthProvider.service provider = PendingOAuthFlow.service flow ∧
    SessionStore.getPendingFlow (AuthCallbackEvent.state event) seen = None ∧
    SessionStore.getPendingFlow (AuthCallbackEvent.state event) (Flow.store w') = None ∧
    AuthCompleteEvent.userId ev = PendingOAuthFlow.telegramUserId flow ∧
    AuthCompleteEvent.chatId ev = PendingOAuthFlow.chatId flow ∧
    AuthCompleteEvent.service ev = PendingOAuthFlow.service flow ∧
    (AuthCompleteEvent.success ev = true ↔ AuthRun.outcome sdk = AuthRun.AUTHORIZED) ∧
    (AuthCompleteEvent.success ev = false →
     AuthCompleteEvent.error ev = Some Flow.exchange_failed_message) ∧
    Flow.notifications (Flow.trace w') = Flow.notifications (Flow.trace w) ++ [ev] ∧
    Flow.exchanges (Flow.trace w') =
      Flow.exchanges (Flow.trace w)
        ++ [(PendingOAuthFlow.telegramUserId flow, PendingOAuthFlow.service flow,
             AuthCallbackEvent.code event)].
Proof.
  intros Hflow Hlive w'. subst w'.
  apply Z.ltb_nlt in Hlive.
  unfold TokenManager.handleCallback. rewrite Hflow, Hlive.
  set (st1 := SessionStore.removePendingFlow _ _).
  set (p := SwiggyOAuthProvider.new _ _ _ _ _).
  pose proof (run_pendingFlows p (AuthRun.calls sdk) st1) as Hpf.
  destruct (Sdk.run p (AuthRun.calls sdk) st1) as [st2 logs]. simpl in Hpf.
  assert (Hgone : SessionStore.getPendingFlow (AuthCallbackEvent.state event) st2 = None).
  { unfold SessionStore.getPendingFlow. rewrite Hpf. apply getPendingFlow_remove. }
  unfold TokenManager.notify.
  destruct (AuthRun.outcome sdk) as [| |err] eqn:Hout;
    match goal with
    | |- context [Flow.mkWorld _ (_ ++ [Flow.Logged ?l; Flow.AuthComplete ?ev])] =>
        exists p, st1, (logs ++ [l]), ev;
        destruct (exchange_trace_shape (Flow.trace w) p
                    (TokenManager.endpoints tm (PendingOAuthFlow.service flow))
                    (AuthCallbackEvent.code event) st1 logs l ev)
          as (Htr & Hn & Hx)
    end;
    cbn [Flow.trace Flow.store TokenManager.notify] in *;
    rewrite Hn, Hx, Htr;
    repeat split; try done; apply getPendingFlow_remove.
Qed.

(** The revision without the exchange, on any live pending flow: the
    record is removed and a success is reported although no exchange was
    attempted and the store holds no more tokens than before. *)
Lemma signal_only_revision_skips_exchange
    (now : Z) (event : AuthCallbackEvent.t) (w : Flow.World)
    (flow : PendingOAuthFlow.t) :
  SessionStore.getPendingFlow (AuthCallbackEvent.state event) (Flow.store w) = Some flow →
  ¬ PendingOAuthFlow.expiresAt flow < now →
  let w' := TokenManagerSignalOnly.handleCallback now event w in
  Flow.exchanges (Flow.trace w') = Flow.exchanges (Flow.trace w) ∧
  Flow.notifications (Flow.trace w') =
    Flow.notifications (Flow.trace w)
      ++ [AuthCompleteEvent.mk (PendingOAuthFlow.telegramUserId flow)
            (PendingOAuthFlow.chatId flow) (PendingOAuthFlow.service flow) true None] ∧
  SessionStore.sessions (Flow.store w') = SessionStore.sessions (Flow.store w).
Proof.
  intros Hflow Hlive w'. subst w'. apply Z.ltb_nlt in Hlive.
  unfold TokenManagerSignalOnly.handleCallback. rewrite Hflow, Hlive. simpl.
  rewrite notifications_app, exchanges_app. simpl. by rewrite app_nil_r.
Qed.

(** C1, at the input on which the revision without the exchange departs
    from it: the callback for the live flow ["S1"] is answered with a
    success notification, no exchange is attempted, and user 7 holds no
    tokens for the food service afterwards. *)
Theorem signal_only_reports_success_without_exchange :
  let w' :=
    TokenManagerSignalOnly.handleCallback 2000
      (AuthCallbackEvent.mk "code-1" "S1") world_with_flow_S1 in
  Flow.exchanges (Flow.trace w') = [] ∧
  Flow.notifications (Flow.trace w') = [AuthCompleteEvent.mk 7 70 food true None] ∧
  SessionStore.getPendingFlow "S1" (Flow.store w') = None ∧
  SessionStore.isAuthenticated 7 food (Flow.store w') = false.
Proof. vm_compute. done. Qed.

(** The same callback under the revision with the exchange: the outcome of
    [auth] decides the notification. *)
Example exchange_revision_on_S1 :
  let ok :=
    TokenManager.handleCallback sample_token_manager 2000 authorized_run
      (AuthCallbackEvent.mk "code-1" "S1") world_with_flow_S1 in
  let ko :=
    TokenManager.handleCallback sample_token_manager 2000 failed_run
      (AuthCallbackEvent.mk "code-1" "S1") world_with_flow_S1 in
  Flow.exchanges (Flow.trace ok) = [(7, food, "code-1")] ∧
  Flow.notifications (Flow.trace ok) = [AuthCompleteEvent.mk 7 70 food true None] ∧
  SessionStore.isAuthenticated 7 food (Flow.store ok) = true ∧
  Flow.exchanges (Flow.trace ko) = [(7, food, "code-1")] ∧
  Flow.notifications (Flow.trace ko) =
    [AuthCompleteEvent.mk 7 70 food false (Some Flow.exchange_failed_message)] ∧
  SessionStore.isAuthenticated 7 food (Flow.store ko) = false.
Proof. vm_compute. done. Qed.

(** ** Correlation state of a login *)

(** A provider built without a known state answers [state()] with the
    freshly generated token; one built with a state answers with it. *)
Lemma provider_state_spec userId service port host oauthState uuid :
  SwiggyOAuthProvider.state
    (SwiggyOAuthProvider.new userId service port host oauthState) uuid
  = default uuid oauthState.
Proof. by destruct oauthState. Qed.

(** Whatever flow state was registered before, the provider that
    [initiateAuth] attaches to the transport knows none: its [state()] is
    the generated token. *)
Lemma initiateAuth_provider_has_no_state
    (userId : Z) (service : SwiggyService) (env : ConnectRun.t)
    (w : McpClientManager.World) :
  ConnectRun.url_ok env = true →
  ∃ client transport logs,
    McpClientManager.trace (McpClientManager.initiateAuth userId service env w).1 =
      McpClientManager.trace w
        ++ [McpClientManager.ConnectCalled client transport]
        ++ (McpClientManager.Logged <$> logs) ∧
    SwiggyOAuthProvider.oauthState (McpClientManager.authProvider transport) = None ∧
    ∀ uuid,
      SwiggyOAuthProvider.state (McpClientManager.authProvider transport) uuid = uuid.
Proof.
  intros Hurl. unfold McpClientManager.initiateAuth. rewrite Hurl. simpl.
  destruct (Sdk.run _ _ _) as [st1 logs].
  eexists _, _, logs.
  destruct (ConnectRun.outcome env) as [err|]; simpl.
  - destruct (SessionStore.getPendingAuthUrl userId st1) as [[url svc]|]; simpl;
      repeat split; done.
  - repeat split; done.
Qed.

(** C2, at the input on which the code departs from it: flow ["S1"] is
    registered for user 7 and the food service, then [initiateAuth] runs.
    The provider it hands to the SDK answers [state()] with the generated
    ["uuid-2"], not with ["S1"]; the login URL is returned; and the
    callback that later carries ["uuid-2"] finds no pending flow, so it is
    dropped without any notification while ["S1"] stays pending. *)
Theorem initiateAuth_state_is_not_the_registered_one :
  let '(w1, url) := McpClientManager.initiateAuth 7 food redirecting_connect world_logging_in in
  let sent :=
    omap (λ a, match a with
               | McpClientManager.ConnectCalled _ tr =>
                   Some (SwiggyOAuthProvider.state (McpClientManager.authProvider tr) "uuid-2")
               | _ => None
               end) (McpClientManager.trace w1) in
  let w2 :=
    TokenManager.handleCallback sample_token_manager 2000 authorized_run
      (AuthCallbackEvent.mk "code-1" "uuid-2")
      (Flow.mkWorld (McpClientManager.store w1) []) in
  sent = ["uuid-2"] ∧
  url = McpClientManager.Ok
          (Some "https://auth.swiggy.example/authorize?state=uuid-2") ∧
  SessionStore.getPendingFlow "S1" (McpClientManager.store w1) = Some flow_S1 ∧
  SessionStore.getPendingFlow "uuid-2" (McpClientManager.store w1) = None ∧
  Flow.notifications (Flow.trace w2) = [] ∧
  Flow.exchanges (Flow.trace w2) = [] ∧
  SessionStore.getPendingFlow "S1" (Flow.store w2) = Some flow_S1.
Proof. vm_compute. done. Qed.

(** ** Composite keys *)

Section KeyFacts.

Lemma pretty_N_go_no_colon (x : N) (s : string) :
  has_colon s = false → has_colon (pretty_N_go x s) = false.
Proof.
  revert s. induction (N.lt_wf_0 x) as [x _ IH]; intros s Hs.
  destruct (decide (x = 0)%N) as [->|Hx]; [by rewrite pretty_N_go_0|].
  rewrite pretty_N_go_step by lia. apply IH; [apply N.div_lt; lia|].
  simpl. rewrite Hs. unfold pretty_N_char. by repeat case_match.
Qed.

Lemma pretty_Z_no_colon (z : Z) : has_colon (pretty z) = false.
Proof.
  assert (HN : ∀ n : N, has_colon (pretty n) = false).
  { intros n. unfold pretty, pretty_N. case_decide; [done|].
    by apply pretty_N_go_no_colon. }
  destruct z as [|p|p]; unfold pretty, pretty_Z; [done|apply HN|].
  simpl. apply HN.
Qed.

(** A string is cut at its first separator in one way only. *)
Lemma cut_at_colon (a b a' b' : string) :
  has_colon a = false → has_colon a' = false →
  a +:+ ":" +:+ b = a' +:+ ":" +:+ b' → a = a' ∧ b = b'.
Proof.
  revert a'. induction a as [|c a IH]; intros [|c' a']; simpl;
    intros Ha Ha' Heq; simplify_eq/=.
  - done.
  - apply orb_false_iff in Ha as [_ Ha]. apply orb_false_iff in Ha' as [_ Ha'].
    by destruct (IH a' Ha Ha' ltac:(done)) as [-> ->].
Qed.

Lemma service_name_inj (s s' : SwiggyService) :
  service_name s = service_name s' → s = s'.
Proof. by destruct s, s'. Qed.

(** Distinct (user, service) pairs have distinct keys. *)
Lemma composite_key_inj (u u' : Z) (s s' : SwiggyService) :
  composite_key u s = composite_key u' s' → u = u' ∧ s = s'.
Proof.
  unfold composite_key. intros Heq.
  apply cut_at_colon in Heq as [Hu Hs]; try apply pretty_Z_no_colon.
  split; [by apply (inj pretty)|by apply service_name_inj].
Qed.

End KeyFacts.

(** ** Remote client manager *)

Section ManagerFacts.
Import McpClientManager.

Implicit Types (w : World) (u : Z) (s : SwiggyService) (env : ConnectRun.t).

Lemma getClient_cached u s env w c :
  clients (manager w) !! getKey u s = Some c → getClient u s env w = (w, Ok c).
Proof. unfold getClient. by intros ->. Qed.

Lemma getClient_unauthenticated u s env w :
  clients (manager w) !! getKey u s = None →
  SessionStore.isAuthenticated u s (store w) = false →
  getClient u s env w = (w, Throw (AuthenticationRequiredError u s)).
Proof. unfold getClient. by intros -> ->. Qed.

(** A successful [getClient] leaves its result in the cache. *)
Lemma getClient_ok_cached u s env w w1 c :
  getClient u s env w = (w1, Ok c) → clients (manager w1) !! getKey u s = Some c.
Proof.
  unfold getClient.
  destruct (clients (manager w) !! getKey u s) as [c0|] eqn:Hc.
  { intros [= <- <-]. exact Hc. }
  destruct (SessionStore.isAuthenticated u s (store w)); simpl; [|done].
  destruct (ConnectRun.url_ok env); simpl; [|done].
  destruct (Sdk.run _ _ _) as [st1 logs].
  destruct (ConnectRun.outcome env) as [err|].
  - by destruct (SessionStore.getPendingAuthUrl u st1).
  - intros [= <- <-]. simpl. apply lookup_insert_eq.
Qed.

(** [getClient] never deletes or replaces an entry of the cache. *)
Lemma getClient_keeps_entries u s env w key c :
  clients (manager w) !! key = Some c →
  clients (manager (getClient u s env w).1) !! key = Some c.
Proof.
  intros Hkey. unfold getClient.
  destruct (clients (manager w) !! getKey u s) as [c0|] eqn:Hc; [done|].
  assert (getKey u s ≠ key) by congruence.
  destruct (SessionStore.isAuthenticated u s (store w)); simpl; [|done].
  destruct (ConnectRun.url_ok env); simpl; [|done].
  destruct (Sdk.run _ _ _) as [st1 logs].
  destruct (ConnectRun.outcome env) as [err|].
  - by destruct (SessionStore.getPendingAuthUrl u st1).
  - simpl. by rewrite lookup_insert_ne.
Qed.

Lemma getKey_ne u s u' s' : ¬ (u' = u ∧ s' = s) → getKey u' s' ≠ getKey u s.
Proof. intros Hne Heq. by apply composite_key_inj in Heq. Qed.

Lemma initiateAuth_keeps_entry u s u' s' env w c :
  History.resets u s (History.InitiateAuth u' s' env) = false →
  clients (manager w) !! getKey u s = Some c →
  clients (manager (initiateAuth u' s' env w).1) !! getKey u s = Some c.
Proof.
  intros Hres Hkey. unfold initiateAuth.
  destruct (ConnectRun.url_ok env) eqn:Hurl; simpl; [|done].
  destruct (Sdk.run _ _ _) as [st1 logs].
  destruct (ConnectRun.outcome env) as [err|] eqn:Hout.
  - by destruct (SessionStore.getPendingAuthUrl u' st1) as [[url svc]|].
  - unfold History.resets in Hres. rewrite Hurl, Hout in Hres.
    destruct (decide (u' = u ∧ s' = s)) as [Heq|Hne].
    { by rewrite !bool_decide_eq_true_2 in Hres. }
    simpl. rewrite lookup_insert_ne; [done|by apply getKey_ne].
Qed.

Lemma disconnectClient_keeps_entry u s u' s' w c :
  ¬ (u' = u ∧ s' = s) →
  clients (manager w) !! getKey u s = Some c →
  clients (manager (disconnectClient u' s' w)) !! getKey u s = Some c.
Proof.
  intros Hne Hkey. unfold disconnectClient.
  destruct (clients (manager w) !! getKey u' s'); [|done].
  simpl. rewrite lookup_delete_ne; [done|by apply getKey_ne].
Qed.

Lemma invalidateClient_keeps_entry u s u' s' w c :
  ¬ (u' = u ∧ s' = s) →
  clients (manager w) !! getKey u s = Some c →
  clients (manager (invalidateClient u' s' w)) !! getKey u s = Some c.
Proof.
  intros Hne Hkey. unfold invalidateClient. simpl.
  rewrite lookup_delete_ne; [done|by apply getKey_ne].
Qed.

Lemma disconnectUser_keeps_entry u s u' w c :
  u' ≠ u →
  clients (manager w) !! getKey u s = Some c →
  clients (manager (disconnectUser u' w)) !! getKey u s = Some c.
Proof.
  intros Hne Hkey. unfold disconnectUser. simpl.
  repeat apply disconnectClient_keeps_entry; try done; by intros [? _].
Qed.

(** A call that does not reset the entry of a pair keeps it. *)
Lemma step_keeps_entry u s o w c :
  History.resets u s o = false →
  clients (manager w) !! getKey u s = Some c →
  clients (manager (History.step w o)) !! getKey u s = Some c.
Proof.
  intros Hres Hkey. destruct o as [u' s' env|u' s' env|u' s'|u'|u' s'|f]; simpl.
  - by apply getClient_keeps_entries.
  - by apply initiateAuth_keeps_entry.
  - apply disconnectClient_keeps_entry; [|done].
    by apply bool_decide_eq_false in Hres.
  - apply disconnectUser_keeps_entry; [|done].
    by apply bool_decide_eq_false in Hres.
  - apply invalidateClient_keeps_entry; [|done].
    by apply bool_decide_eq_false in Hres.
  - done.
Qed.

Lemma run_keeps_entry u s ops w c :
  Forall (λ o, History.resets u s o = false) ops →
  clients (manager w) !! getKey u s = Some c →
  clients (manager (History.run w ops)) !! getKey u s = Some c.
Proof.
  intros Hops. revert w. induction Hops as [|o ops Ho _ IH]; intros w Hkey; [done|].
  simpl. apply IH. by apply step_keeps_entry.
Qed.

End ManagerFacts.

(** C5: a cached client is returned as it is, whatever the store says; with
    no cached client and no tokens, [getClient] throws
    [AuthenticationRequiredError] and leaves everything as it was: no
    connection is attempted (the trace is the same), nothing is cached (the
    manager is the same) and no login flow is registered (the store is the
    same). *)
Theorem getClient_cached_or_authentication_required
    (userId : Z) (service : SwiggyService) (env : ConnectRun.t)
    (w : McpClientManager.World) :
  (∀ c,
     McpClientManager.clients (McpClientManager.manager w)
       !! McpClientManager.getKey userId service = Some c →
     McpClientManager.getClient userId service env w = (w, McpClientManager.Ok c)) ∧
  (McpClientManager.clients (McpClientManager.manager w)
     !! McpClientManager.getKey userId service = None →
   SessionStore.isAuthenticated userId service (McpClientManager.store w) = false →
   McpClientManager.getClient userId service env w =
     (w, McpClientManager.Throw
           (McpClientManager.AuthenticationRequiredError userId service))).
Proof.
  split.
  - intros c Hc. by apply getClient_cached.
  - intros Hc Hauth. by apply getClient_unauthenticated.
Qed.

Lemma getClient_cached_or_authentication_required_witness :
  McpClientManager.getClient 7 food failing_connect world_connected =
    (world_connected, McpClientManager.Ok (McpClientManager.mkClient 0)) ∧
  McpClientManager.getClient 7 food successful_connect world_logging_in =
    (world_logging_in,
     McpClientManager.Throw (McpClientManager.AuthenticationRequiredError 7 food)).
Proof.
  split.
  - apply (getClient_cached_or_authentication_required 7 food failing_connect
             world_connected).
    vm_compute. reflexivity.
  - apply (getClient_cached_or_authentication_required 7 food successful_connect
             world_logging_in).
    + vm_compute. reflexivity.
    + vm_compute. reflexivity.
Defined.

(** Calls made one after the other, each ended before the next starts:
    after a successful [getClient] for a pair, and after any further calls
    among which none invalidates or disconnects the pair and no
    [initiateAuth] for the pair connects, [getClient] returns the same
    client object without changing anything. *)
Theorem cached_client_survives_history
    (userId : Z) (service : SwiggyService) (env env' : ConnectRun.t)
    (w w1 : McpClientManager.World) (c : McpClientManager.Client)
    (ops : list History.op) :
  McpClientManager.getClient userId service env w = (w1, McpClientManager.Ok c) →
  Forall (λ o, History.resets userId service o = false) ops →
  let w2 := History.run w1 ops in
  let cache := McpClientManager.clients (McpClientManager.manager w2) in
  McpClientManager.getClient userId service env' w2 = (w2, McpClientManager.Ok c) ∧
  (∀ c', (McpClientManager.getKey userId service, c') ∈ map_to_list cache → c' = c) ∧
  NoDup (map_to_list cache).*1 ∧
  (∀ u' s', McpClientManager.getKey u' s' = McpClientManager.getKey userId service →
            u' = userId ∧ s' = service).
Proof.
  intros Hfirst Hops w2 cache.
  assert (Hkey : cache !! McpClientManager.getKey userId service = Some c).
  { apply run_keeps_entry; [done|]. by eapply getClient_ok_cached. }
  split; [|split; [|split]].
  - by apply getClient_cached.
  - intros c' Hin. apply elem_of_map_to_list in Hin. congruence.
  - apply NoDup_fst_map_to_list.
  - intros u' s' Heq. by apply composite_key_inj.
Qed.

Lemma cached_client_survives_history_witness :
  let w2 := History.run world_connected other_activity in
  let cache := McpClientManager.clients (McpClientManager.manager w2) in
  McpClientManager.getClient 7 food failing_connect w2 =
    (w2, McpClientManager.Ok (McpClientManager.mkClient 0)) ∧
  (∀ c', (McpClientManager.getKey 7 food, c') ∈ map_to_list cache →
         c' = McpClientManager.mkClient 0) ∧
  NoDup (map_to_list cache).*1 ∧
  (∀ u' s', McpClientManager.getKey u' s' = McpClientManager.getKey 7 food →
            u' = 7 ∧ s' = food).
Proof.
  apply (cached_client_survives_history 7 food successful_connect failing_connect
           world_authenticated world_connected (McpClientManager.mkClient 0)
           other_activity).
  - vm_compute. reflexivity.
  - repeat (constructor; [vm_compute; reflexivity|]). constructor.
Defined.

(** Between calls made one after the other, with neither an invalidation
    nor a disconnection, an [initiateAuth] for the pair that connects
    replaces the cached client, and the next [getClient] returns the new
    object. *)
Lemma initiateAuth_replaces_cached_client :
  let ops := [History.InitiateAuth 7 food successful_connect] in
  McpClientManager.getClient 7 food successful_connect world_authenticated =
    (world_connected, McpClientManager.Ok (McpClientManager.mkClient 0)) ∧
  Forall (λ o, History.evicts 7 food o = false) ops ∧
  (McpClientManager.getClient 7 food successful_connect
     (History.run world_connected ops)).2 =
    McpClientManager.Ok (McpClientManager.mkClient 1) ∧
  McpClientManager.mkClient 1 ≠ McpClientManager.mkClient 0.
Proof.
  split; [|split; [|split]].
  - vm_compute. reflexivity.
  - repeat constructor.
  - vm_compute. reflexivity.
  - discriminate.
Qed.

(** ** Calls that overlap *)

Section AsyncFacts.
Import McpClientManager Async.

Implicit Types (a : State) (u : Z) (s : SwiggyService) (e : event).

(** A [getClient] that returns a client, at once or after its connection,
    leaves that client in the cache. *)
Lemma step_GotClient_cached a e a1 u s c :
  step a e = (a1, Some (GotClient u s (Ok c))) →
  clients (manager (world a1)) !! getKey u s = Some c.
Proof.
  destruct e as [u' s' ok|u' s' ok|u' s'|u' s'|task call|f|task err]; simpl.
  - unfold callGetClient.
    destruct (clients (manager (world a)) !! getKey u' s') as [c0|] eqn:Hc.
    { intros [= <- <- <- <-]. exact Hc. }
    destruct (SessionStore.isAuthenticated u' s' (store (world a))); simpl; [|done].
    by destruct ok.
  - unfold callInitiateAuth. by destruct ok.
  - unfold callDisconnectClient.
    by destruct (clients (manager (world a)) !! getKey u' s').
  - done.
  - done.
  - done.
  - unfold settled.
    destruct (tasks a !! task) as [[[] u' s' client tr|u' s']|]; [| | |done].
    + destruct err as [err|]; [|done].
      by destruct (SessionStore.getPendingAuthUrl u' (store (world a))) as [[url svc]|].
    + destruct err as [err|].
      * by destruct (SessionStore.getPendingAuthUrl u' (store (world a))) as [[url svc]|].
      * intros [= <- <- <- <-]. simpl. apply lookup_insert_eq.
    + done.
Qed.

(** An event that does not disturb the pair keeps its cache entry. *)
Lemma step_keeps_cached a e u s c :
  disturbs u s a e = false →
  clients (manager (world a)) !! getKey u s = Some c →
  clients (manager (world (step a e).1)) !! getKey u s = Some c.
Proof.
  intros Hd Hkey. unfold disturbs in Hd. apply orb_false_iff in Hd as [Hev Hco].
  destruct e as [u' s' ok|u' s' ok|u' s'|u' s'|task call|f|task err]; simpl in *.
  - unfold callGetClient.
    destruct (clients (manager (world a)) !! getKey u' s'); [done|].
    destruct (SessionStore.isAuthenticated u' s' (store (world a))); simpl; [|done].
    by destruct ok.
  - unfold callInitiateAuth. by destruct ok.
  - unfold callDisconnectClient.
    by destruct (clients (manager (world a)) !! getKey u' s').
  - apply bool_decide_eq_false in Hev.
    rewrite lookup_delete_ne; [done|by apply getKey_ne].
  - unfold providerCalled.
    destruct (tasks a !! task) as [[b u' s' client tr|u' s']|]; [|done|done].
    by destruct (Sdk.perform (authProvider tr) call (store (world a))).
  - done.
  - unfold settled.
    destruct (tasks a !! task) as [[[] u' s' client tr|u' s']|]; [| | |done].
    + destruct err as [err|].
      * by destruct (SessionStore.getPendingAuthUrl u' (store (world a))) as [[url svc]|].
      * apply bool_decide_eq_false in Hco. simpl.
        rewrite lookup_insert_ne; [done|by apply getKey_ne].
    + destruct err as [err|].
      * by destruct (SessionStore.getPendingAuthUrl u' (store (world a))) as [[url svc]|].
      * apply bool_decide_eq_false in Hco. simpl.
        rewrite lookup_insert_ne; [done|by apply getKey_ne].
    + apply bool_decide_eq_false in Hev. simpl.
      rewrite lookup_delete_ne; [done|by apply getKey_ne].
Qed.

Lemma run_keeps_cached a es u s c :
  undisturbed u s a es = true →
  clients (manager (world a)) !! getKey u s = Some c →
  clients (manager (world (run a es).1)) !! getKey u s = Some c.
Proof.
  revert a. induction es as [|e es IH]; intros a Hq Hkey; [done|].
  cbn [undisturbed] in Hq. apply andb_true_iff in Hq as [Hd Hq].
  apply negb_true_iff in Hd.
  pose proof (step_keeps_cached a e u s c Hd Hkey) as Hstep.
  cbn [run]. destruct (step a e) as [a1 r]. simpl in *.
  specialize (IH a1 Hq Hstep). by destruct (run a1 es).
Qed.

(** *** The whole calls are the uninterrupted runs *)

Lemma run_app a es1 es2 :
  run a (es1 ++ es2) =
    let '(a1, r1) := run a es1 in
    let '(a2, r2) := run a1 es2 in
    (a2, r1 ++ r2).
Proof.
  revert a. induction es1 as [|e es1 IH]; intros a.
  - simpl. by destruct (run a es2).
  - cbn [app run]. destruct (step a e) as [a1 r]. rewrite IH.
    destruct (run a1 es1) as [a2 r1]. destruct (run a2 es2) as [a3 r2].
    by rewrite app_assoc.
Qed.

(** Events for a task that is not suspended do nothing. *)
Lemma run_no_task a task cs err :
  tasks a !! task = None →
  run a ((ProviderCalled task <$> cs) ++ [Settled task err]) = (a, []).
Proof.
  intros Hnone. induction cs as [|c cs IH].
  - simpl. unfold settled. by rewrite Hnone.
  - cbn [fmap list_fmap app run step]. unfold providerCalled. rewrite Hnone.
    by rewrite IH.
Qed.

(** The provider methods called during a connection attempt, one event
    each, amount to the run of the SDK. *)
Lemma run_provider_calls a task b u s client tr cs :
  tasks a !! task = Some (Connecting b u s client tr) →
  run a (ProviderCalled task <$> cs) =
    (with_world a
       (mkWorld (manager (world a))
          (Sdk.run (authProvider tr) cs (store (world a))).1
          (next_ref (world a))
          (trace (world a) ++ (Logged <$> (Sdk.run (authProvider tr) cs (store (world a))).2))),
     []).
Proof.
  revert a. induction cs as [|c cs IH]; intros a Htask.
  - simpl. rewrite app_nil_r. by destruct a as [[m st n tr0] ts nt].
  - cbn [fmap list_fmap run step]. unfold providerCalled at 1. rewrite Htask.
    cbn [Sdk.run].
    destruct (Sdk.perform (authProvider tr) c (store (world a))) as [st1 l1].
    rewrite IH by exact Htask. cbn [with_world world manager store next_ref trace].
    destruct (Sdk.run (authProvider tr) cs st1) as [st2 l2]. simpl.
    by rewrite fmap_app, app_assoc.
Qed.

(** [getClient] as one call is its three parts with nothing in between. *)
Lemma getClient_is_uninterrupted_run a u s env :
  tasks a !! next_task a = None →
  let events := whole_connect (CallGetClient u s (ConnectRun.url_ok env)) (next_task a) env in
  world (run a events).1 = (getClient u s env (world a)).1 ∧
  (run a events).2 = [GotClient u s (getClient u s env (world a)).2].
Proof.
  intros Hfresh events. subst events. unfold whole_connect.
  cbn [run step]. unfold callGetClient, getClient.
  destruct (clients (manager (world a)) !! getKey u s) as [c0|] eqn:Hc.
  { by rewrite run_no_task. }
  destruct (SessionStore.isAuthenticated u s (store (world a))); simpl;
    [|by rewrite run_no_task].
  destruct (ConnectRun.url_ok env); simpl; [|by rewrite run_no_task].
  rewrite run_app.
  erewrite run_provider_calls by (simpl; apply lookup_insert_eq).
  cbn [suspend with_world world manager store next_ref trace authProvider].
  destruct (Sdk.run _ (ConnectRun.calls env) (store (world a))) as [st1 logs].
  cbn [run step fst snd]. unfold settled.
  cbn [tasks world manager store next_ref trace suspend with_world resume].
  rewrite lookup_insert_eq.
  destruct (ConnectRun.outcome env) as [err|].
  - destruct (SessionStore.getPendingAuthUrl u st1) as [[url svc]|]; simpl;
      by rewrite <- !app_assoc.
  - simpl. by rewrite <- !app_assoc.
Qed.

(** The same for [initiateAuth]. *)
Lemma initiateAuth_is_uninterrupted_run a u s env :
  tasks a !! next_task a = None →
  let events := whole_connect (CallInitiateAuth u s (ConnectRun.url_ok env)) (next_task a) env in
  world (run a events).1 = (initiateAuth u s env (world a)).1 ∧
  (run a events).2 = [GotUrl u s (initiateAuth u s env (world a)).2].
Proof.
  intros Hfresh events. subst events. unfold whole_connect.
  cbn [run step]. unfold callInitiateAuth, initiateAuth.
  destruct (ConnectRun.url_ok env); simpl; [|by rewrite run_no_task].
  rewrite run_app.
  erewrite run_provider_calls by (simpl; apply lookup_insert_eq).
  cbn [suspend with_world world manager store next_ref trace authProvider].
  destruct (Sdk.run _ (ConnectRun.calls env) (store (world a))) as [st1 logs].
  cbn [run step fst snd]. unfold settled.
  cbn [tasks world manager store next_ref trace suspend with_world resume].
  rewrite lookup_insert_eq.
  destruct (ConnectRun.outcome env) as [err|].
  - destruct (SessionStore.getPendingAuthUrl u st1) as [[url svc]|]; simpl;
      by rewrite <- ?app_assoc.
  - simpl. by rewrite <- ?app_assoc.
Qed.

(** The same for [disconnectClient], however [close] ends. *)
Lemma disconnectClient_is_uninterrupted_run a u s err :
  tasks a !! next_task a = None →
  world (run a [CallDisconnectClient u s; Settled (next_task a) err]).1 =
    disconnectClient u s (world a).
Proof.
  intros Hfresh. cbn [run step]. unfold callDisconnectClient, disconnectClient.
  destruct (clients (manager (world a)) !! getKey u s) as [c0|].
  - simpl. unfold settled. simpl. by rewrite lookup_insert_eq.
  - simpl. unfold settled. by rewrite Hfresh.
Qed.

(** *** The keys of the cache *)

Lemma cache_keyed m u s client tr :
  keyed_by_pairs m → keyed_by_pairs (cache m (getKey u s) client tr).
Proof.
  intros Hm key. simpl. rewrite lookup_insert_is_Some.
  intros [<-|[_ Hkey]]; [by exists u, s|by apply Hm].
Qed.

Lemma evict_keyed m key : keyed_by_pairs m → keyed_by_pairs (evict m key).
Proof.
  intros Hm key'. simpl. rewrite lookup_delete_is_Some.
  intros [_ Hkey]. by apply Hm.
Qed.

(** No event puts anything in the cache under a key that is not the key
    of a pair. *)
Lemma step_keeps_keyed a e :
  keyed_by_pairs (manager (world a)) → keyed_by_pairs (manager (world (step a e).1)).
Proof.
  intros Hm.
  destruct e as [u' s' ok|u' s' ok|u' s'|u' s'|task call|f|task err]; simpl.
  - unfold callGetClient.
    destruct (clients (manager (world a)) !! getKey u' s'); [done|].
    destruct (SessionStore.isAuthenticated u' s' (store (world a))); simpl; [|done].
    by destruct ok.
  - unfold callInitiateAuth. by destruct ok.
  - unfold callDisconnectClient.
    by destruct (clients (manager (world a)) !! getKey u' s').
  - by apply evict_keyed.
  - unfold providerCalled.
    destruct (tasks a !! task) as [[b u' s' client tr|u' s']|]; [|done|done].
    by destruct (Sdk.perform (authProvider tr) call (store (world a))).
  - done.
  - unfold settled.
    destruct (tasks a !! task) as [[[] u' s' client tr|u' s']|]; [| | |done].
    + destruct err as [err|].
      * by destruct (SessionStore.getPendingAuthUrl u' (store (world a))) as [[url svc]|].
      * by apply cache_keyed.
    + destruct err as [err|].
      * by destruct (SessionStore.getPendingAuthUrl u' (store (world a))) as [[url svc]|].
      * by apply cache_keyed.
    + by apply evict_keyed.
Qed.

Lemma run_keeps_keyed a es :
  keyed_by_pairs (manager (world a)) → keyed_by_pairs (manager (world (run a es).1)).
Proof.
  revert a. induction es as [|e es IH]; intros a Hm; [done|].
  cbn [run]. pose proof (step_keeps_keyed a e Hm) as Hstep.
  destruct (step a e) as [a1 r]. specialize (IH a1 Hstep).
  by destruct (run a1 es).
Qed.

End AsyncFacts.

(** C7 (as amended): once a [getClient] for a pair has returned a client,
    at once from the cache or after its connection, a later [getClient]
    for the pair returns the same client object at once and changes
    nothing, whatever calls started, went on or ended in between, as long
    as in between no invalidation or disconnection of the pair started, no
    [close] awaited by a disconnection of the pair settled, and no
    connection attempt for the pair (of [initiateAuth], or of a
    [getClient] that had found the cache empty) resolved.  The cache then
    lists that client and no other under the key of the pair; and when the
    keys of the cache were keys of pairs before, as they are in a new
    manager, each entry of the cache is still the entry of one pair and of
    no other. *)
Theorem cached_client_survives_interleaving
    (userId : Z) (service : SwiggyService) (a0 a1 : Async.State) (e0 : Async.event)
    (c : McpClientManager.Client) (events : list Async.event) (url_ok : bool) :
  Async.step a0 e0 = (a1, Some (Async.GotClient userId service (McpClientManager.Ok c))) →
  Async.undisturbed userId service a1 events = true →
  let a2 := (Async.run a1 events).1 in
  let cache := McpClientManager.clients (McpClientManager.manager (Async.world a2)) in
  Async.step a2 (Async.CallGetClient userId service url_ok) =
    (a2, Some (Async.GotClient userId service (McpClientManager.Ok c))) ∧
  (∀ c', (McpClientManager.getKey userId service, c') ∈ map_to_list cache → c' = c) ∧
  NoDup (map_to_list cache).*1 ∧
  (keyed_by_pairs (McpClientManager.manager (Async.world a0)) →
   ∀ key c', cache !! key = Some c' →
     ∃ u' s', key = McpClientManager.getKey u' s' ∧
       ∀ u'' s'', key = McpClientManager.getKey u'' s'' → u'' = u' ∧ s'' = s').
Proof.
  intros Hfirst Hquiet a2 cache.
  assert (Hkey : cache !! McpClientManager.getKey userId service = Some c).
  { apply run_keeps_cached; [done|]. by eapply step_GotClient_cached. }
  split; [|split; [|split]].
  - simpl. unfold Async.callGetClient. fold cache. by rewrite Hkey.
  - intros c' Hin. apply elem_of_map_to_list in Hin. congruence.
  - apply NoDup_fst_map_to_list.
  - intros Hkeyed key c' Hc'.
    assert (Hk2 : keyed_by_pairs (McpClientManager.manager (Async.world a2))).
    { apply run_keeps_keyed.
      pose proof (step_keeps_keyed a0 e0 Hkeyed) as H1. by rewrite Hfirst in H1. }
    destruct (Hk2 key) as (u' & s' & ->); [by exists c'|].
    exists u', s'. split; [done|].
    intros u'' s'' Heq. symmetry in Heq. by apply composite_key_inj in Heq.
Qed.

Lemma cached_client_survives_interleaving_witness :
  let a2 := (Async.run async_connected async_activity).1 in
  Async.step async_connecting (Async.Settled 0 None) =
    (async_connected,
     Some (Async.GotClient 7 food (McpClientManager.Ok (McpClientManager.mkClient 0)))) ∧
  Async.undisturbed 7 food async_connected async_activity = true ∧
  keyed_by_pairs (McpClientManager.manager (Async.world async_connecting)) ∧
  Async.step a2 (Async.CallGetClient 7 food true) =
    (a2, Some (Async.GotClient 7 food (McpClientManager.Ok (McpClientManager.mkClient 0)))) ∧
  ∀ key c',
    McpClientManager.clients (McpClientManager.manager (Async.world a2)) !! key = Some c' →
    ∃ u' s', key = McpClientManager.getKey u' s' ∧
      ∀ u'' s'', key = McpClientManager.getKey u'' s'' → u'' = u' ∧ s'' = s'.
Proof.
  intros a2.
  assert (Hfirst : Async.step async_connecting (Async.Settled 0 None) =
                   (async_connected,
                    Some (Async.GotClient 7 food
                            (McpClientManager.Ok (McpClientManager.mkClient 0)))))
    by (vm_compute; reflexivity).
  assert (Hquiet : Async.undisturbed 7 food async_connected async_activity = true)
    by (vm_compute; reflexivity).
  assert (Hkeyed : keyed_by_pairs (McpClientManager.manager (Async.world async_connecting))).
  { intros key [x Hx]. vm_compute in Hx. discriminate. }
  destruct (cached_client_survives_interleaving 7 food async_connecting async_connected
              (Async.Settled 0 None) (McpClientManager.mkClient 0) async_activity true
              Hfirst Hquiet) as (Hagain & _ & _ & Hpairs).
  split; [exact Hfirst|]. split; [exact Hquiet|]. split; [exact Hkeyed|].
  split; [exact Hagain|exact (Hpairs Hkeyed)].
Defined.

(** C7 as stated fails, in two ways.  Two requests for the same pair that
    overlap both find the cache empty and both connect: the first returns
    client 0, then the second returns client 1 and takes its place in the
    cache, so that the next request gets client 1; two connections were
    opened for the key and none was closed.  And between requests made
    one after the other, an [initiateAuth] for the pair that connects
    replaces the cached client in the same way.  Neither history holds an
    invalidation or a disconnection. *)
Lemma cached_client_replaced_without_eviction :
  let a1 := (Async.run (Async.start world_authenticated)
               [Async.CallGetClient 7 food true; Async.CallGetClient 7 food true;
                Async.Settled 0 None]).1 in
  let a2 := (Async.step a1 (Async.Settled 1 None)).1 in
  (Async.run (Async.start world_authenticated) overlapping_requests).2 =
    [Async.GotClient 7 food (McpClientManager.Ok (McpClientManager.mkClient 0));
     Async.GotClient 7 food (McpClientManager.Ok (McpClientManager.mkClient 1))] ∧
  Async.unevicted 7 food (Async.start world_authenticated) overlapping_requests = true ∧
  (Async.step a2 (Async.CallGetClient 7 food true)).2 =
    Some (Async.GotClient 7 food (McpClientManager.Ok (McpClientManager.mkClient 1))) ∧
  McpClientManager.mkClient 1 ≠ McpClientManager.mkClient 0 ∧
  omap (λ x, match x with
             | McpClientManager.ConnectCalled cl _ => Some (inl cl)
             | McpClientManager.CloseCalled cl => Some (inr cl)
             | _ => None
             end) (McpClientManager.trace (Async.world a2)) =
    [inl (McpClientManager.mkClient 0); inl (McpClientManager.mkClient 1)] ∧
  let b1 := (Async.run async_connected
               (Async.whole_connect (Async.CallInitiateAuth 7 food true) 1
                  successful_connect)).1 in
  Async.unevicted 7 food async_connected
    (Async.whole_connect (Async.CallInitiateAuth 7 food true) 1 successful_connect) = true ∧
  (Async.step b1 (Async.CallGetClient 7 food true)).2 =
    Some (Async.GotClient 7 food (McpClientManager.Ok (McpClientManager.mkClient 1))).
Proof. vm_compute. repeat split; discriminate. Qed.

(** ** Callback listener *)

Section CallbackServerFacts.
Import Http.

(** The revision in auth/oauthCallbackServer.ts does what C8 says, a
    parameter counting as carried when it is present and not empty.  The
    function takes the request alone: the registry of pending flows is
    not among its inputs. *)
Lemma handleRequest_spec (req : Request) :
  let out := OAuthCallbackServer.handleRequest req in
  let code := get "code" (searchParams req) in
  let state := get "state" (searchParams req) in
  (pathname req = "/health" →
   out = mkServed (mkResponse 200 "text/plain" (Literal "OK")) [] []) ∧
  (pathname req = "/callback" →
   ∀ c s, code = Some c → state = Some s → truthy c = true → truthy s = true →
     emitted out = [AuthCallbackEvent.mk c s] ∧
     response out = mkResponse 200 "text/html" ConfirmationPage) ∧
  (pathname req = "/callback" →
   truthy_opt code = false ∨ truthy_opt state = false →
     emitted out = [] ∧
     response out = mkResponse 200 "text/html" FragmentRedirectPage) ∧
  (pathname req ≠ "/health" → pathname req ≠ "/callback" →
   out = mkServed (mkResponse 404 "text/plain" (Literal "Not found")) [] []).
Proof.
  intros out code state. subst out code state.
  unfold OAuthCallbackServer.handleRequest, OAuthCallbackServer.handleCallback.
  split; [|split; [|split]].
  - intros ->. done.
  - intros -> c s -> -> Hc Hs. simpl. by rewrite Hc, Hs.
  - intros -> Hmiss. simpl.
    destruct (get "code" (searchParams req)) as [c|],
             (get "state" (searchParams req)) as [s|]; simpl in *; try done.
    destruct Hmiss as [-> | ->]; simpl; [done|].
    by rewrite orb_true_r.
  - intros Hh Hc.
    apply String.eqb_neq in Hh. apply String.eqb_neq in Hc. by rewrite Hh, Hc.
Qed.

(** The two revisions differ on nothing but a callback without both
    parameters. *)
Lemma strict_revision_agrees_elsewhere (req : Request) :
  OAuthCallbackServerStrict.handleRequest req = OAuthCallbackServer.handleRequest req ∨
  (pathname req = "/callback" ∧
   (truthy_opt (get "code" (searchParams req)) = false ∨
    truthy_opt (get "state" (searchParams req)) = false) ∧
   OAuthCallbackServerStrict.handleRequest req =
     mkServed (mkResponse 400 "text/html"
                 (Literal "<h1>Missing code or state parameter</h1>")) [] []).
Proof.
  unfold OAuthCallbackServerStrict.handleRequest, OAuthCallbackServer.handleRequest.
  destruct (String.eqb (pathname req) "/health"); [by left|].
  destruct (String.eqb (pathname req) "/callback") eqn:Hcb; [|by left].
  apply String.eqb_eq in Hcb.
  unfold OAuthCallbackServerStrict.handleCallback, OAuthCallbackServer.handleCallback.
  destruct (get "code" (searchParams req)) as [c|];
    [destruct (get "state" (searchParams req)) as [s|]|]; simpl.
  - destruct (truthy c) eqn:Hc, (truthy s) eqn:Hs; simpl; auto.
  - right. auto.
  - right. auto.
Qed.

End CallbackServerFacts.

(** C8, at the input on which the other revision of the listener departs
    from it: a callback whose parameters came in the URL fragment reaches
    the server as [/callback] without a query.  That revision answers 400
    with a static error page; the revision in auth/oauthCallbackServer.ts
    serves the fragment-to-query redirect page.  Neither emits an event. *)
Theorem strict_revision_rejects_callback_without_query :
  let req := Http.mkRequest "GET" "/callback" [] in
  OAuthCallbackServerStrict.handleRequest req =
    Http.mkServed
      (Http.mkResponse 400 "text/html"
         (Http.Literal "<h1>Missing code or state parameter</h1>")) [] [] ∧
  OAuthCallbackServer.handleRequest req =
    Http.mkServed (Http.mkResponse 200 "text/html" Http.FragmentRedirectPage) [] [].
Proof. split; reflexivity. Qed.

Example handleRequest_examples :
  Http.emitted
    (OAuthCallbackServer.handleRequest
       (Http.mkRequest "GET" "/callback" [("code", "abc"); ("state", "S1")]))
    = [AuthCallbackEvent.mk "abc" "S1"] ∧
  Http.response
    (OAuthCallbackServer.handleRequest
       (Http.mkRequest "GET" "/callback" [("code", ""); ("state", "S1")]))
    = Http.mkResponse 200 "text/html" Http.FragmentRedirectPage ∧
  Http.response (OAuthCallbackServer.handleRequest (Http.mkRequest "GET" "/health" []))
    = Http.mkResponse 200 "text/plain" (Http.Literal "OK") ∧
  Http.response (OAuthCallbackServer.handleRequest (Http.mkRequest "GET" "/" []))
    = Http.mkResponse 404 "text/plain" (Http.Literal "Not found").
Proof. repeat split. Qed.

(** ** Tool invocation *)

Section ToolInvokerFacts.
Import ToolInvoker.

Lemma append_cons (c : ascii) (a b : string) :
  String c a +:+ b = String c (a +:+ b).
Proof. reflexivity. Qed.

Lemma prefix_spec (p s : string) :
  String.prefix p s = true ↔ ∃ rest, s = p +:+ rest.
Proof.
  revert s. induction p as [|c p IH]; intros s.
  - split; [by exists s|]. by destruct s.
  - setoid_rewrite append_cons. destruct s as [|c' s]; simpl.
    + split; [done|]. by intros [rest ?].
    + destruct (Ascii.ascii_dec c c') as [->|Hne].
      * rewrite IH. split; intros [rest Hrest]; exists rest; congruence.
      * split; [done|]. intros [rest Hrest]. congruence.
Qed.

(** [includes] finds exactly the substrings. *)
Lemma includes_spec (s search : string) :
  includes s search = true ↔ ∃ before after, s = before +:+ search +:+ after.
Proof.
  induction s as [|c s IH]; cbn [includes].
  - rewrite orb_false_r, prefix_spec. split.
    + intros [rest ->]. by exists "", rest.
    + intros [[|c before] [after Heq]]; [by exists after|done].
  - rewrite orb_true_iff, prefix_spec, IH. split.
    + intros [[rest ->] | (before & after & ->)].
      * by exists "", rest.
      * by exists (String c before), after.
    + intros [[|c' before] [after Heq]].
      * left. by exists after.
      * right. exists before, after. rewrite append_cons in Heq. congruence.
Qed.

(** An error is classified as transient exactly when its message contains
    one of the three markers. *)
Lemma retryable_spec (message : string) :
  retryable message = true ↔
  includes message "timeout" = true ∨ includes message "ECONNRESET" = true ∨
  includes message "503" = true.
Proof. unfold retryable. rewrite !orb_true_iff. tauto. Qed.

Lemma invoke_calls_once service toolName args o :
  calls (invoke service toolName args o).1 = [toolName].
Proof.
  destruct o as [c e|m]; simpl; [|done].
  by destruct (bool_decide (e = Some true)).
Qed.

Lemma calls_app tr1 tr2 : calls (tr1 ++ tr2) = calls tr1 ++ calls tr2.
Proof. apply omap_app. Qed.

End ToolInvokerFacts.

(** C9 (as amended): [invokeWithRetry] calls the tool once or twice.  It
    calls it a second time exactly when the first call was rejected with a
    message in which "timeout", "ECONNRESET" or "503" occurs, and then
    returns or throws what the second call gives, a second rejection
    included; a first rejection with any other message is thrown to the
    caller as a [SwiggyMcpError] with that message after a single call; a
    first call that resolves is returned after a single call. *)
Theorem invokeWithRetry_retries_transient_once
    (service : SwiggyService) (toolName : string) (args : list (string * string))
    (first second : ToolInvoker.CallOutcome) :
  let '(tr, r) := ToolInvoker.invokeWithRetry service toolName args first second in
  (length (ToolInvoker.calls tr) ≤ 2)%nat ∧
  match first with
  | ToolInvoker.Resolved c e =>
      ToolInvoker.calls tr = [toolName] ∧
      r = inl (ToolInvoker.mkResult service toolName (default [] c)
                 (bool_decide (e = Some true)))
  | ToolInvoker.Rejected message =>
      (transient_marker message →
       ToolInvoker.calls tr = [toolName; toolName] ∧
       (∀ c e, second = ToolInvoker.Resolved c e →
          r = inl (ToolInvoker.mkResult service toolName (default [] c)
                     (bool_decide (e = Some true)))) ∧
       (∀ message2, second = ToolInvoker.Rejected message2 →
          ∃ flag,
            r = inr (ToolInvoker.mkError message2 service (Some toolName) flag) ∧
            (flag = true ↔ transient_marker message2))) ∧
      (¬ transient_marker message →
       ToolInvoker.calls tr = [toolName] ∧
       r = inr (ToolInvoker.mkError message service (Some toolName) false))
  end.
Proof.
  assert (Hmark : ∀ m, ToolInvoker.retryable m = true ↔ transient_marker m).
  { intros m. unfold transient_marker, contains.
    by rewrite retryable_spec, !includes_spec. }
  unfold ToolInvoker.invokeWithRetry.
  destruct first as [c e|message].
  - simpl. destruct (bool_decide (e = Some true)); simpl; auto.
  - simpl. destruct (ToolInvoker.retryable message) eqn:Hretry; simpl.
    + pose proof (invoke_calls_once service toolName args second) as Hsecond.
      destruct (ToolInvoker.invoke service toolName args second) as [tr2 r2] eqn:Hinv.
      simpl in *. rewrite Hsecond. simpl.
      split; [lia|]. split.
      * intros _. split; [done|]. split.
        -- intros c e ->. simpl in Hinv. congruence.
        -- intros message2 ->. simpl in Hinv.
           exists (ToolInvoker.retryable message2). split; [congruence|apply Hmark].
      * intros Hnot. exfalso. apply Hnot. by apply Hmark.
    + split; [lia|]. split; [|done].
      intros Hm. apply Hmark in Hm. congruence.
Qed.

Example invokeWithRetry_examples :
  let timeout := ToolInvoker.Rejected "Request timeout after 30000ms" in
  let denied := ToolInvoker.Rejected "403 Forbidden" in
  let ok := ToolInvoker.Resolved (Some []) None in
  ToolInvoker.retryable "Request timeout after 30000ms" = true ∧
  ToolInvoker.retryable "read ECONNRESET" = true ∧
  ToolInvoker.retryable "HTTP 503 Service Unavailable" = true ∧
  ToolInvoker.retryable "403 Forbidden" = false ∧
  (ToolInvoker.invokeWithRetry food "search" [] timeout ok).2
    = inl (ToolInvoker.mkResult food "search" [] false) ∧
  (ToolInvoker.invokeWithRetry food "search" [] timeout timeout).2
    = inr (ToolInvoker.mkError "Request timeout after 30000ms" food (Some "search") true) ∧
  ToolInvoker.calls (ToolInvoker.invokeWithRetry food "search" [] timeout timeout).1
    = ["search"; "search"] ∧
  (ToolInvoker.invokeWithRetry food "search" [] denied ok).2
    = inr (ToolInvoker.mkError "403 Forbidden" food (Some "search") false) ∧
  ToolInvoker.calls (ToolInvoker.invokeWithRetry food "search" [] denied ok).1
    = ["search"].
Proof. vm_compute. done. Qed.

(** A first rejection with "timeout" in its message followed by a second
    rejection: two calls, and the second failure reaches the caller. *)
Lemma invokeWithRetry_retries_transient_once_witness :
  transient_marker "Request timeout after 30000ms" ∧
  ToolInvoker.calls
    (ToolInvoker.invokeWithRetry food "search" []
       (ToolInvoker.Rejected "Request timeout after 30000ms")
       (ToolInvoker.Rejected "read ECONNRESET")).1 = ["search"; "search"] ∧
  ∃ flag,
    (ToolInvoker.invokeWithRetry food "search" []
       (ToolInvoker.Rejected "Request timeout after 30000ms")
       (ToolInvoker.Rejected "read ECONNRESET")).2 =
      inr (ToolInvoker.mkError "read ECONNRESET" food (Some "search") flag) ∧
    (flag = true ↔ transient_marker "read ECONNRESET").
Proof.
  assert (Hm : transient_marker "Request timeout after 30000ms").
  { left. exists "Request ", " after 30000ms". reflexivity. }
  pose proof (invokeWithRetry_retries_transient_once food "search" []
                (ToolInvoker.Rejected "Request timeout after 30000ms")
                (ToolInvoker.Rejected "read ECONNRESET")) as H.
  destruct (ToolInvoker.invokeWithRetry _ _ _ _ _) as [tr r].
  destruct H as (_ & Hyes & _).
  destruct (Hyes Hm) as (Hcalls & _ & Hthrown).
  split; [exact Hm|]. split; [exact Hcalls|]. exact (Hthrown "read ECONNRESET" eq_refl).
Defined.

(** C9 as stated fails: what is retried goes by the text of the message,
    not by the kind of failure.  A connection timeout reported by the
    platform as "connect ETIMEDOUT ..." is thrown to the caller after a
    single call, marked as not retryable; and a failure that is neither a
    timeout, nor a connection reset, nor an unavailable service, but whose
    message happens to hold the digits 503, is retried. *)
Lemma retry_goes_by_the_text_of_the_message :
  ToolInvoker.calls
    (ToolInvoker.invokeWithRetry food "search_restaurants" []
       (ToolInvoker.Rejected "connect ETIMEDOUT 10.0.0.1:443")
       (ToolInvoker.Resolved (Some []) None)).1 = ["search_restaurants"] ∧
  (ToolInvoker.invokeWithRetry food "search_restaurants" []
     (ToolInvoker.Rejected "connect ETIMEDOUT 10.0.0.1:443")
     (ToolInvoker.Resolved (Some []) None)).2 =
    inr (ToolInvoker.mkError "connect ETIMEDOUT 10.0.0.1:443" food
           (Some "search_restaurants") false) ∧
  ToolInvoker.calls
    (ToolInvoker.invokeWithRetry food "track_order" []
       (ToolInvoker.Rejected "Order 15036 not found")
       (ToolInvoker.Rejected "Order 15036 not found")).1 = ["track_order"; "track_order"].
Proof. vm_compute. done. Qed.

(** * Further properties of the code *)

(** ** Credential store: sessions, tokens, verifier, registration *)

Section SessionStoreMore.
Import SessionStore.

Implicit Types (st : SessionStore.t) (userId : Z) (service : SwiggyService).

Lemma getTokens_put_session_other st userId userId' service s :
  userId ≠ userId' →
  getTokens userId' service (put_session st userId s) = getTokens userId' service st.
Proof.
  intros Hne. unfold getTokens, put_session, with_sessions; simpl.
  by rewrite lookup_insert_ne.
Qed.

Lemma getSession_getOrCreateSession st tc ta tn userId chatId username :
  is_Some (getSession userId (getOrCreateSession tc ta tn userId chatId username st).1).
Proof. unfold getSession, getOrCreateSession. simpl. rewrite lookup_insert_eq. eauto. Qed.

Lemma getCodeVerifier_no_entry st userId service session :
  sessions st !! userId = Some session →
  UserSession.oauthState session !! service = None →
  getCodeVerifier userId service st = "".
Proof. unfold getCodeVerifier. intros -> . simpl. by intros ->. Qed.

End SessionStoreMore.

(** X1: for a user who already has a session, [getOrCreateSession] changes
    nothing but [lastActiveAt]: the chat id and the user name it is given
    are not taken over, the tokens stay, and every other user, the pending
    flows and the client registrations are untouched. *)
Theorem getOrCreateSession_keeps_existing_session
    (st : SessionStore.t) (tc ta tn userId chatId : Z) (username : option string)
    (session : UserSession.t) :
  SessionStore.getSession userId st = Some session →
  let '(st', returned) :=
    SessionStore.getOrCreateSession tc ta tn userId chatId username st in
  returned =
    UserSession.mk (UserSession.telegramUserId session)
      (UserSession.telegramChatId session) (UserSession.username session)
      (UserSession.oauthState session) (UserSession.isAuthenticating session)
      (UserSession.pendingAuthService session) (UserSession.pendingAuthUrl session)
      (UserSession.createdAt session) tn ∧
  SessionStore.getSession userId st' = Some returned ∧
  (∀ service, SessionStore.getTokens userId service st' =
              SessionStore.getTokens userId service st) ∧
  (∀ userId', userId' ≠ userId →
     SessionStore.getSession userId' st' = SessionStore.getSession userId' st) ∧
  SessionStore.pendingFlows st' = SessionStore.pendingFlows st ∧
  SessionStore.clientInfos st' = SessionStore.clientInfos st.
Proof.
  unfold SessionStore.getSession, SessionStore.getOrCreateSession. intros Hs.
  rewrite Hs. simpl. split; [done|]. split; [apply lookup_insert_eq|].
  split; [|split; [|done]].
  - intros service. unfold SessionStore.getTokens, SessionStore.put_session,
      SessionStore.with_sessions. simpl. by rewrite lookup_insert_eq, Hs.
  - intros userId' Hne. unfold SessionStore.put_session, SessionStore.with_sessions.
    simpl. by rewrite lookup_insert_ne.
Qed.

Lemma getOrCreateSession_keeps_existing_session_witness :
  let '(st', returned) :=
    SessionStore.getOrCreateSession 9000 9000 9001 7 99 (Some "other") store_authenticated in
  UserSession.telegramChatId returned = 70 ∧
  UserSession.username returned = None ∧
  UserSession.createdAt returned = 1000 ∧
  UserSession.lastActiveAt returned = 9001 ∧
  SessionStore.isAuthenticated 7 food st' = true.
Proof.
  pose proof (getOrCreateSession_keeps_existing_session store_authenticated
                9000 9000 9001 7 99 (Some "other")) as H.
  destruct (SessionStore.getOrCreateSession _ _ _ _ _ _ _) as [st' returned].
  edestruct H as (-> & _ & Htok & _); [vm_compute; reflexivity|].
  repeat split.
  unfold SessionStore.isAuthenticated.
  specialize (Htok food). unfold SessionStore.getTokens in Htok. rewrite Htok.
  vm_compute. reflexivity.
Defined.

(** Once [getOrCreateSession] has run for a user, whatever the store
    was before, [saveTokens] takes effect: the tokens are the ones read
    back and the user is authenticated for that service. *)
Theorem saveTokens_after_getOrCreateSession
    (st : SessionStore.t) (tc ta tn userId chatId : Z) (username : option string)
    (service : SwiggyService) (now : Z) (tokens : OAuthTokens) :
  let st1 := (SessionStore.getOrCreateSession tc ta tn userId chatId username st).1 in
  let st2 := SessionStore.saveTokens now userId service tokens st1 in
  SessionStore.getTokens userId service st2 = Some tokens ∧
  SessionStore.isAuthenticated userId service st2 = true.
Proof.
  intros st1 st2.
  assert (Hget : SessionStore.getTokens userId service st2 = Some tokens).
  { apply saveTokens_getTokens. apply getSession_getOrCreateSession. }
  split; [done|]. apply isAuthenticated_getTokens. rewrite Hget. eauto.
Qed.


(** X2: tokens are kept per user and per service.  [saveTokens] and
    [clearTokens] for one pair leave the tokens of every other pair, of the
    same user or of another, as they were. *)
Theorem tokens_of_other_pairs_untouched
    (st : SessionStore.t) (userId userId' : Z) (service service' : SwiggyService)
    (now : Z) (tokens : OAuthTokens) :
  (userId', service') ≠ (userId, service) →
  SessionStore.getTokens userId' service'
    (SessionStore.saveTokens now userId service tokens st) =
    SessionStore.getTokens userId' service' st ∧
  SessionStore.getTokens userId' service' (SessionStore.clearTokens userId service st) =
    SessionStore.getTokens userId' service' st.
Proof.
  intros Hne.
  unfold SessionStore.saveTokens, SessionStore.clearTokens.
  destruct (SessionStore.sessions st !! userId) as [session|] eqn:Hs; [|done].
  destruct (decide (userId = userId')) as [<-|Hu].
  - assert (Hsvc : service ≠ service') by congruence.
    split.
    + unfold SessionStore.getTokens. rewrite sessions_put_session, Hs. simpl.
      by rewrite lookup_insert_ne.
    + destruct (UserSession.oauthState session !! service); [|done].
      unfold SessionStore.getTokens. rewrite sessions_put_session, Hs. simpl.
      by rewrite lookup_delete_ne.
  - split.
    + by apply getTokens_put_session_other.
    + destruct (UserSession.oauthState session !! service); [|done].
      by apply getTokens_put_session_other.
Qed.

Lemma tokens_of_other_pairs_untouched_witness :
  SessionStore.getTokens 7 dineout
    (SessionStore.saveTokens 6000 7 food (mkTokens "at-2" "Bearer" None) store_two_services)
    = Some sample_tokens ∧
  SessionStore.getTokens 7 dineout (SessionStore.clearTokens 7 food store_two_services)
    = Some sample_tokens.
Proof.
  destruct (tokens_of_other_pairs_untouched store_two_services 7 7 food dineout 6000
              (mkTokens "at-2" "Bearer" None)) as [Hsave Hclear]; [discriminate|].
  rewrite Hsave, Hclear. split; vm_compute; reflexivity.
Defined.

(** X3: a user has one slot for the pending authorization URL.  With a
    session, [setPendingAuthUrl] followed by [getPendingAuthUrl] gives the
    URL and the service just set, replacing what was pending for any
    service, except that an empty URL reads back as none; after
    [clearPendingAuth] or [saveTokens] (for any service) nothing is
    pending. *)
Theorem pending_auth_url_lifecycle
    (st : SessionStore.t) (userId : Z) (service service' : SwiggyService)
    (url : string) (now : Z) (tokens : OAuthTokens) :
  is_Some (SessionStore.getSession userId st) →
  let st1 := SessionStore.setPendingAuthUrl userId service url st in
  SessionStore.getPendingAuthUrl userId st1 =
    (if truthy url then Some (url, service) else None) ∧
  SessionStore.getPendingAuthUrl userId (SessionStore.clearPendingAuth userId st1) = None ∧
  SessionStore.getPendingAuthUrl userId
    (SessionStore.saveTokens now userId service' tokens st1) = None.
Proof.
  intros [session Hs] st1. subst st1. unfold SessionStore.getSession in Hs.
  unfold SessionStore.setPendingAuthUrl. rewrite Hs.
  split; [|split].
  - unfold SessionStore.getPendingAuthUrl. by rewrite sessions_put_session.
  - unfold SessionStore.clearPendingAuth, SessionStore.getPendingAuthUrl.
    by rewrite !sessions_put_session.
  - apply saveTokens_clears_pending.
Qed.

Lemma pending_auth_url_lifecycle_witness :
  let st1 := SessionStore.setPendingAuthUrl 7 food "https://auth.example/a" store_with_user7 in
  SessionStore.getPendingAuthUrl 7 st1 = Some ("https://auth.example/a", food) ∧
  SessionStore.getPendingAuthUrl 7 (SessionStore.clearPendingAuth 7 st1) = None ∧
  SessionStore.getPendingAuthUrl 7 (SessionStore.saveTokens 2000 7 dineout sample_tokens st1)
    = None.
Proof.
  apply (pending_auth_url_lifecycle store_with_user7 7 food dineout
           "https://auth.example/a" 2000 sample_tokens).
  vm_compute. eauto.
Defined.

(** X4: the PKCE verifier lives in the same per-service record as the
    tokens.  With a session, [saveCodeVerifier] followed by
    [getCodeVerifier] gives the verifier back and does not change the
    tokens; [saveTokens] keeps the verifier; [clearTokens] discards it, so
    that [getCodeVerifier] gives the empty string afterwards, as it does
    for a user without a session. *)
Theorem code_verifier_lifecycle
    (st : SessionStore.t) (userId : Z) (service : SwiggyService)
    (verifier : string) (now : Z) (tokens : OAuthTokens) :
  SessionStore.getCodeVerifier userId service (SessionStore.clearTokens userId service st)
    = "" ∧
  (SessionStore.getSession userId st = None →
   SessionStore.getCodeVerifier userId service st = "") ∧
  (is_Some (SessionStore.getSession userId st) →
   let st1 := SessionStore.saveCodeVerifier userId service verifier st in
   SessionStore.getCodeVerifier userId service st1 = verifier ∧
   SessionStore.getTokens userId service st1 = SessionStore.getTokens userId service st ∧
   SessionStore.getCodeVerifier userId service
     (SessionStore.saveTokens now userId service tokens st1) = verifier).
Proof.
  split; [|split].
  - unfold SessionStore.clearTokens.
    destruct (SessionStore.sessions st !! userId) as [session|] eqn:Hs.
    + destruct (UserSession.oauthState session !! service) as [e|] eqn:He.
      * unfold SessionStore.getCodeVerifier. rewrite sessions_put_session. simpl.
        by rewrite lookup_delete_eq.
      * by eapply getCodeVerifier_no_entry.
    + unfold SessionStore.getCodeVerifier. by rewrite Hs.
  - unfold SessionStore.getSession. intros Hs.
    unfold SessionStore.getCodeVerifier. by rewrite Hs.
  - intros [session Hs] st1. subst st1. unfold SessionStore.getSession in Hs.
    unfold SessionStore.saveCodeVerifier. rewrite Hs.
    split; [|split].
    + unfold SessionStore.getCodeVerifier. rewrite sessions_put_session. simpl.
      by rewrite lookup_insert_eq.
    + unfold SessionStore.getTokens. rewrite sessions_put_session, Hs. simpl.
      rewrite lookup_insert_eq. simpl.
      by destruct (UserSession.oauthState session !! service).
    + unfold SessionStore.saveTokens. rewrite sessions_put_session.
      unfold SessionStore.getCodeVerifier. rewrite sessions_put_session. simpl.
      by rewrite !lookup_insert_eq.
Qed.

Lemma code_verifier_lifecycle_witness :
  let st1 := SessionStore.saveCodeVerifier 7 food "verifier-1" store_authenticated in
  SessionStore.getCodeVerifier 7 food st1 = "verifier-1" ∧
  SessionStore.getTokens 7 food st1 = Some sample_tokens ∧
  SessionStore.getCodeVerifier 7 food (SessionStore.saveTokens 6000 7 food sample_tokens st1)
    = "verifier-1" ∧
  SessionStore.getCodeVerifier 7 food (SessionStore.clearTokens 7 food st1) = "".
Proof.
  destruct (code_verifier_lifecycle store_authenticated 7 food "verifier-1" 6000
              sample_tokens) as (_ & _ & Hlive).
  destruct Hlive as (Hget & Htok & Hkeep); [vm_compute; eauto|].
  destruct (code_verifier_lifecycle
              (SessionStore.saveCodeVerifier 7 food "verifier-1" store_authenticated)
              7 food "verifier-1" 6000 sample_tokens) as (Hclear & _).
  split; [exact Hget|]. split; [rewrite Htok; vm_compute; reflexivity|].
  split; [exact Hkeep|exact Hclear].
Defined.


(** Client registrations are kept per (user, service) under the
    composite key, apart from the sessions.  [saveClientInfo] followed by
    [getClientInfo] gives the registration back for that pair and changes
    the registration of no other pair; it needs no session and creates
    none; [saveTokens] and [clearTokens] leave every registration in
    place. *)
Theorem client_registration_round_trip
    (st : SessionStore.t) (userId userId' : Z) (service service' : SwiggyService)
    (info : OAuthClientInformationFull) (now : Z) (tokens : OAuthTokens) :
  SessionStore.getClientInfo userId' service'
    (SessionStore.saveClientInfo userId service info st) =
    (if decide ((userId', service') = (userId, service)) then Some info
     else SessionStore.getClientInfo userId' service' st) ∧
  SessionStore.sessions (SessionStore.saveClientInfo userId service info st) =
    SessionStore.sessions st ∧
  SessionStore.getClientInfo userId' service'
    (SessionStore.saveTokens now userId service tokens st) =
    SessionStore.getClientInfo userId' service' st ∧
  SessionStore.getClientInfo userId' service' (SessionStore.clearTokens userId service st) =
    SessionStore.getClientInfo userId' service' st.
Proof.
  split; [|split; [done|split]].
  - unfold SessionStore.getClientInfo, SessionStore.saveClientInfo. simpl.
    case_decide as Heq.
    + injection Heq as -> ->. apply lookup_insert_eq.
    + rewrite lookup_insert_ne; [done|].
      intros Hk. apply composite_key_inj in Hk as [-> ->]. done.
  - unfold SessionStore.saveTokens.
    by destruct (SessionStore.sessions st !! userId).
  - unfold SessionStore.clearTokens.
    destruct (SessionStore.sessions st !! userId) as [session|]; [|done].
    by destruct (UserSession.oauthState session !! service).
Qed.

(** X5: the services that [getAuthenticatedServices] lists for a user are
    exactly those for which [isAuthenticated] holds, each listed once. *)
Theorem getAuthenticatedServices_spec
    (st : SessionStore.t) (userId : Z) (service : SwiggyService) :
  (service ∈ getAuthenticatedServices userId st ↔
   SessionStore.isAuthenticated userId service st = true) ∧
  NoDup (getAuthenticatedServices userId st).
Proof.
  unfold getAuthenticatedServices, SessionStore.isAuthenticated.
  destruct (SessionStore.sessions st !! userId) as [session|]; simpl.
  - split.
    + rewrite list_elem_of_filter.
      destruct (UserSession.oauthState session !! service) as [e|] eqn:He; simpl.
      * split.
        -- intros [[tk Htk] _]. by rewrite Htk.
        -- intros Htk. split.
           ++ destruct (UserOAuthState.tokens e); [eauto|done].
           ++ apply list_elem_of_fmap. exists (service, e). split; [done|].
              by apply elem_of_map_to_list.
      * split; [|done]. by intros [[tk Htk] _].
    + apply NoDup_filter, NoDup_fst_map_to_list.
  - split; [|constructor]. split; [|done]. intros Hin. by apply elem_of_nil in Hin.
Qed.

(** Two services connected independently, then one of them cleared. *)
Example getAuthenticatedServices_examples :
  getAuthenticatedServices 7 store_two_services ≡ₚ [food; dineout] ∧
  getAuthenticatedServices 7 (SessionStore.clearTokens 7 food store_two_services)
    = [dineout] ∧
  getAuthenticatedServices 8 store_two_services = [].
Proof. vm_compute. repeat split. by apply Permutation_swap. Qed.


(** ** Credential provider under the SDK *)

Section ProviderFacts.
Import SessionStore.

Implicit Types (st : SessionStore.t) (p : SwiggyOAuthProvider.t).

Lemma oauth_entry_put_session_other st u u' s session :
  u ≠ u' → oauth_entry u' s (put_session st u session) = oauth_entry u' s st.
Proof.
  intros Hne. unfold oauth_entry, put_session, with_sessions. simpl.
  by rewrite lookup_insert_ne.
Qed.

Lemma getSession_put_session_other st u u' session :
  u' ≠ u → getSession u' (put_session st u session) = getSession u' st.
Proof.
  intros Hne. unfold getSession, put_session, with_sessions. simpl.
  by rewrite lookup_insert_ne.
Qed.

Lemma perform_untouched_elsewhere p c st :
  untouched_elsewhere p st (Sdk.perform p c st).1.
Proof.
  destruct p as [pu ps port host ostate].
  destruct c as [|info| |now tokens|url|uuid|v|]; simpl;
    try (repeat split; done);
    unfold SwiggyOAuthProvider.saveClientInformation,
      SwiggyOAuthProvider.saveCodeVerifier; simpl;
    (split; [|split; [|split]]).
  - done.
  - intros u s Hne. unfold getClientInfo, saveClientInfo. simpl.
    rewrite lookup_insert_ne; [done|].
    intros Hk. apply composite_key_inj in Hk as [-> ->]. done.
  - done.
  - done.
  - intros u s Hne. unfold saveTokens.
    destruct (sessions st !! pu) as [session|] eqn:Hs; [|done].
    destruct (decide (pu = u)) as [<-|Hu].
    + unfold oauth_entry. rewrite sessions_put_session, Hs. simpl.
      rewrite lookup_insert_ne; [done|]. intros ->. by apply Hne.
    + by apply oauth_entry_put_session_other.
  - intros u s _. unfold saveTokens. by destruct (sessions st !! pu).
  - intros u Hne. unfold saveTokens.
    destruct (sessions st !! pu); [|done]. by apply getSession_put_session_other.
  - apply pendingFlows_saveTokens.
  - intros u s Hne. unfold setPendingAuthUrl.
    destruct (sessions st !! pu) as [session|] eqn:Hs; [|done].
    destruct (decide (pu = u)) as [<-|Hu].
    + unfold oauth_entry. by rewrite sessions_put_session, Hs.
    + by apply oauth_entry_put_session_other.
  - intros u s _. unfold setPendingAuthUrl. by destruct (sessions st !! pu).
  - intros u Hne. unfold setPendingAuthUrl.
    destruct (sessions st !! pu); [|done]. by apply getSession_put_session_other.
  - apply pendingFlows_setPendingAuthUrl.
  - intros u s Hne. unfold saveCodeVerifier.
    destruct (sessions st !! pu) as [session|] eqn:Hs; [|done].
    destruct (decide (pu = u)) as [<-|Hu].
    + unfold oauth_entry. rewrite sessions_put_session, Hs. simpl.
      rewrite lookup_insert_ne; [done|]. intros ->. by apply Hne.
    + by apply oauth_entry_put_session_other.
  - intros u s _. unfold saveCodeVerifier. by destruct (sessions st !! pu).
  - intros u Hne. unfold saveCodeVerifier.
    destruct (sessions st !! pu); [|done]. by apply getSession_put_session_other.
  - apply pendingFlows_saveCodeVerifier.
Qed.

Lemma run_untouched_elsewhere p cs st :
  untouched_elsewhere p st (Sdk.run p cs st).1.
Proof.
  revert st. induction cs as [|c cs IH]; intros st; simpl.
  { repeat split; done. }
  pose proof (perform_untouched_elsewhere p c st) as (H1 & H2 & H3 & H4).
  destruct (Sdk.perform p c st) as [st1 l1]. simpl in *.
  specialize (IH st1). destruct (Sdk.run p cs st1) as [st2 l2]. simpl in *.
  destruct IH as (I1 & I2 & I3 & I4).
  split; [|split; [|split]].
  - intros u s Hne. by rewrite I1, H1.
  - intros u s Hne. by rewrite I2, H2.
  - intros u Hne. by rewrite I3, H3.
  - by rewrite I4, H4.
Qed.



End ProviderFacts.

(** X6: whatever methods the SDK invokes on the provider of one
    (user, service) pair, the tokens, the code verifier and the client
    registration of every other pair are as before, the sessions of other
    users are unchanged, and so is the registry of pending flows. *)
Theorem sdk_run_touches_only_its_pair
    (p : SwiggyOAuthProvider.t) (calls : list Sdk.call) (st : SessionStore.t)
    (userId : Z) (service : SwiggyService) :
  (userId, service) ≠ (SwiggyOAuthProvider.userId p, SwiggyOAuthProvider.service p) →
  let st' := (Sdk.run p calls st).1 in
  SessionStore.getTokens userId service st' = SessionStore.getTokens userId service st ∧
  SessionStore.getCodeVerifier userId service st' =
    SessionStore.getCodeVerifier userId service st ∧
  SessionStore.getClientInfo userId service st' =
    SessionStore.getClientInfo userId service st ∧
  (userId ≠ SwiggyOAuthProvider.userId p →
   SessionStore.getSession userId st' = SessionStore.getSession userId st) ∧
  SessionStore.pendingFlows st' = SessionStore.pendingFlows st.
Proof.
  intros Hne st'. subst st'.
  destruct (run_untouched_elsewhere p calls st) as (Hentry & Hinfo & Hsess & Hflows).
  specialize (Hentry userId service Hne).
  assert (Htok : ∀ st0, SessionStore.getTokens userId service st0 =
                        oauth_entry userId service st0 ≫= UserOAuthState.tokens).
  { intros st0. unfold SessionStore.getTokens, oauth_entry.
    by destruct (SessionStore.sessions st0 !! userId). }
  assert (Hver : ∀ st0, SessionStore.getCodeVerifier userId service st0 =
                        default "" (oauth_entry userId service st0
                                      ≫= UserOAuthState.codeVerifier)).
  { intros st0. unfold SessionStore.getCodeVerifier, oauth_entry.
    by destruct (SessionStore.sessions st0 !! userId). }
  rewrite !Htok, !Hver, Hentry.
  split; [done|]. split; [done|]. split; [by apply Hinfo|]. split; [|done].
  intros Hu. by apply Hsess.
Qed.

Lemma sdk_run_touches_only_its_pair_witness :
  let p := SwiggyOAuthProvider.new 7 food 3000 None None in
  let st' :=
    (Sdk.run p [Sdk.SaveTokens 7000 (mkTokens "at-3" "Bearer" None);
                Sdk.SaveCodeVerifier "v"; Sdk.RedirectToAuthorization "https://a"]
       store_two_services).1 in
  SessionStore.getTokens 7 dineout st' = Some sample_tokens.
Proof.
  intros p st'.
  destruct (sdk_run_touches_only_its_pair p
              [Sdk.SaveTokens 7000 (mkTokens "at-3" "Bearer" None);
               Sdk.SaveCodeVerifier "v"; Sdk.RedirectToAuthorization "https://a"]
              store_two_services 7 dineout) as (Htok & _); [discriminate|].
  subst st'. rewrite Htok. vm_compute. reflexivity.
Defined.


(** ** Flow coordinator: resolution, replay, frame *)

Section FlowMore.
Import Flow.

Lemma handleCallback_unknown tm now sdk event w :
  SessionStore.getPendingFlow (AuthCallbackEvent.state event) (store w) = None →
  TokenManager.handleCallback tm now sdk event w =
    mkWorld (store w)
      (trace w ++ [Logged (Log.warn "Received callback for unknown state")]).
Proof. unfold TokenManager.handleCallback. by intros ->. Qed.

Lemma signal_only_unknown now event w :
  SessionStore.getPendingFlow (AuthCallbackEvent.state event) (store w) = None →
  TokenManagerSignalOnly.handleCallback now event w =
    mkWorld (store w)
      (trace w ++ [Logged (Log.warn "Received callback for unknown state")]).
Proof. unfold TokenManagerSignalOnly.handleCallback. by intros ->. Qed.

(** What either revision leaves of the store in the registry of pending
    flows: the flows of before without the state of the callback, when
    that state was registered. *)
Lemma handleCallback_pendingFlows tm now sdk event w :
  SessionStore.pendingFlows (store (TokenManager.handleCallback tm now sdk event w)) =
    match SessionStore.getPendingFlow (AuthCallbackEvent.state event) (store w) with
    | Some _ => delete (AuthCallbackEvent.state event) (SessionStore.pendingFlows (store w))
    | None => SessionStore.pendingFlows (store w)
    end.
Proof.
  unfold TokenManager.handleCallback.
  destruct (SessionStore.getPendingFlow _ _) as [flow|]; [|done].
  destruct (PendingOAuthFlow.expiresAt flow <? now); [done|].
  set (st1 := SessionStore.removePendingFlow _ _).
  set (p := SwiggyOAuthProvider.new _ _ _ _ _).
  pose proof (run_pendingFlows p (AuthRun.calls sdk) st1) as Hpf.
  destruct (Sdk.run p (AuthRun.calls sdk) st1) as [st2 logs]. simpl in Hpf.
  by destruct (AuthRun.outcome sdk).
Qed.

Lemma signal_only_pendingFlows now event w :
  SessionStore.pendingFlows (store (TokenManagerSignalOnly.handleCallback now event w)) =
    match SessionStore.getPendingFlow (AuthCallbackEvent.state event) (store w) with
    | Some _ => delete (AuthCallbackEvent.state event) (SessionStore.pendingFlows (store w))
    | None => SessionStore.pendingFlows (store w)
    end.
Proof.
  unfold TokenManagerSignalOnly.handleCallback.
  destruct (SessionStore.getPendingFlow _ _) as [flow|]; [|done].
  by destruct (PendingOAuthFlow.expiresAt flow <? now).
Qed.

(** The notification of the revision with the exchange for a live flow. *)
Lemma handleCallback_live_notifications tm now sdk event w flow :
  SessionStore.getPendingFlow (AuthCallbackEvent.state event) (store w) = Some flow →
  (PendingOAuthFlow.expiresAt flow <? now) = false →
  notifications (trace (TokenManager.handleCallback tm now sdk event w)) =
    notifications (trace w)
      ++ [AuthCompleteEvent.mk (PendingOAuthFlow.telegramUserId flow)
            (PendingOAuthFlow.chatId flow) (PendingOAuthFlow.service flow)
            (is_authorized (AuthRun.outcome sdk))
            (if is_authorized (AuthRun.outcome sdk) then None
             else Some exchange_failed_message)].
Proof.
  intros Hflow Hlive. unfold TokenManager.handleCallback. rewrite Hflow, Hlive.
  destruct (Sdk.run _ _ _) as [st2 logs]. unfold TokenManager.notify.
  destruct (AuthRun.outcome sdk); cbn [trace is_authorized];
    rewrite !notifications_app, notifications_logged; simpl;
    by rewrite app_nil_r.
Qed.

End FlowMore.

(** The flow registered with expiry 301000, resolved at 301000: the expiry
    test is strict, so the flow is still live. *)
Lemma exchange_revision_resolves_flow_witness :
  let event := AuthCallbackEvent.mk "code-1" "S1" in
  let w' :=
    TokenManager.handleCallback sample_token_manager 301000 authorized_run event
      world_with_flow_S1 in
  ∃ provider seen logs ev,
    Flow.trace w' =
      Flow.trace world_with_flow_S1
        ++ [Flow.AuthCalled provider
              (TokenManager.endpoints sample_token_manager (PendingOAuthFlow.service flow_S1))
              (AuthCallbackEvent.code event) seen]
        ++ (Flow.Logged <$> logs) ++ [Flow.AuthComplete ev] ∧
    SwiggyOAuthProvider.userId provider = PendingOAuthFlow.telegramUserId flow_S1 ∧
    SwiggyOAuthProvider.service provider = PendingOAuthFlow.service flow_S1 ∧
    SessionStore.getPendingFlow (AuthCallbackEvent.state event) seen = None ∧
    SessionStore.getPendingFlow (AuthCallbackEvent.state event) (Flow.store w') = None ∧
    AuthCompleteEvent.userId ev = PendingOAuthFlow.telegramUserId flow_S1 ∧
    AuthCompleteEvent.chatId ev = PendingOAuthFlow.chatId flow_S1 ∧
    AuthCompleteEvent.service ev = PendingOAuthFlow.service flow_S1 ∧
    (AuthCompleteEvent.success ev = true ↔
     AuthRun.outcome authorized_run = AuthRun.AUTHORIZED) ∧
    (AuthCompleteEvent.success ev = false →
     AuthCompleteEvent.error ev = Some Flow.exchange_failed_message) ∧
    Flow.notifications (Flow.trace w') =
      Flow.notifications (Flow.trace world_with_flow_S1) ++ [ev] ∧
    Flow.exchanges (Flow.trace w') =
      Flow.exchanges (Flow.trace world_with_flow_S1)
        ++ [(PendingOAuthFlow.telegramUserId flow_S1, PendingOAuthFlow.service flow_S1,
             AuthCallbackEvent.code event)].
Proof.
  apply (exchange_revision_resolves_flow sample_token_manager 301000 authorized_run
           (AuthCallbackEvent.mk "code-1" "S1") world_with_flow_S1 flow_S1).
  - vm_compute. reflexivity.
  - vm_compute. discriminate.
Defined.

(** X8: a state is resolved at most once.  After either revision has
    handled a callback, its state is not pending, whatever the branch
    taken; a second callback with the same state, at any time and with any
    code, is dropped: the store stays as it is, no notification is
    delivered and no exchange is attempted. *)
Theorem callback_state_resolves_at_most_once
    (tm : TokenManager.t) (now now' : Z) (sdk sdk' : AuthRun.t)
    (event event' : AuthCallbackEvent.t) (w : Flow.World) :
  AuthCallbackEvent.state event' = AuthCallbackEvent.state event →
  ∀ w1 w2,
    (w1 = TokenManager.handleCallback tm now sdk event w ∧
     w2 = TokenManager.handleCallback tm now' sdk' event' w1) ∨
    (w1 = TokenManagerSignalOnly.handleCallback now event w ∧
     w2 = TokenManagerSignalOnly.handleCallback now' event' w1) →
    SessionStore.getPendingFlow (AuthCallbackEvent.state event) (Flow.store w1) = None ∧
    Flow.store w2 = Flow.store w1 ∧
    Flow.notifications (Flow.trace w2) = Flow.notifications (Flow.trace w1) ∧
    Flow.exchanges (Flow.trace w2) = Flow.exchanges (Flow.trace w1).
Proof.
  intros Hstate w1 w2 Hw.
  assert (Hgone : SessionStore.getPendingFlow (AuthCallbackEvent.state event)
                    (Flow.store w1) = None).
  { unfold SessionStore.getPendingFlow.
    destruct Hw as [[-> _] | [-> _]];
      rewrite ?handleCallback_pendingFlows, ?signal_only_pendingFlows;
      destruct (SessionStore.getPendingFlow _ _) eqn:Hf;
      try apply lookup_delete_eq; exact Hf. }
  split; [exact Hgone|].
  rewrite <- Hstate in Hgone.
  destruct Hw as [[_ ->] | [_ ->]];
    rewrite ?(handleCallback_unknown _ _ _ _ _ Hgone),
      ?(signal_only_unknown _ _ _ Hgone);
    simpl; rewrite notifications_app, exchanges_app; simpl;
    by rewrite !app_nil_r.
Qed.

Lemma callback_state_resolves_at_most_once_witness :
  let event := AuthCallbackEvent.mk "code-1" "S1" in
  let w1 :=
    TokenManager.handleCallback sample_token_manager 2000 authorized_run event
      world_with_flow_S1 in
  let w2 := TokenManager.handleCallback sample_token_manager 2001 authorized_run event w1 in
  SessionStore.getPendingFlow "S1" (Flow.store w1) = None ∧
  Flow.store w2 = Flow.store w1 ∧
  Flow.notifications (Flow.trace w2) = Flow.notifications (Flow.trace w1) ∧
  Flow.exchanges (Flow.trace w2) = Flow.exchanges (Flow.trace w1).
Proof.
  intros event w1 w2.
  apply (callback_state_resolves_at_most_once sample_token_manager 2000 2001
           authorized_run authorized_run event event world_with_flow_S1 eq_refl w1 w2).
  left. split; reflexivity.
Defined.


(** X9: handling a callback touches no pending flow but its own: under
    either revision every flow registered under another state is still
    registered, unchanged, afterwards. *)
Theorem handleCallback_keeps_other_flows
    (tm : TokenManager.t) (now : Z) (sdk : AuthRun.t)
    (event : AuthCallbackEvent.t) (w : Flow.World) (state : string) :
  state ≠ AuthCallbackEvent.state event →
  SessionStore.getPendingFlow state
    (Flow.store (TokenManager.handleCallback tm now sdk event w)) =
    SessionStore.getPendingFlow state (Flow.store w) ∧
  SessionStore.getPendingFlow state
    (Flow.store (TokenManagerSignalOnly.handleCallback now event w)) =
    SessionStore.getPendingFlow state (Flow.store w).
Proof.
  intros Hne. unfold SessionStore.getPendingFlow.
  rewrite handleCallback_pendingFlows, signal_only_pendingFlows.
  destruct (SessionStore.getPendingFlow _ _); [|done].
  by rewrite lookup_delete_ne.
Qed.

Lemma handleCallback_keeps_other_flows_witness :
  SessionStore.getPendingFlow "S1"
    (Flow.store
       (TokenManager.handleCallback sample_token_manager 2000 authorized_run
          (AuthCallbackEvent.mk "code-9" "S9") world_with_flow_S9)) = Some flow_S1 ∧
  SessionStore.getPendingFlow "S1"
    (Flow.store
       (TokenManagerSignalOnly.handleCallback 2000
          (AuthCallbackEvent.mk "code-9" "S9") world_with_flow_S9)) = Some flow_S1.
Proof.
  destruct (handleCallback_keeps_other_flows sample_token_manager 2000 authorized_run
              (AuthCallbackEvent.mk "code-9" "S9") world_with_flow_S9 "S1")
    as [H1 H2]; [discriminate|].
  rewrite H1, H2. split; vm_compute; reflexivity.
Defined.

(** One callback, at most one notification.  Under either revision
    the notifications after a callback are those of before followed by
    exactly one more when the state was registered, and by none when it
    was not. *)
Theorem one_notification_per_registered_state
    (tm : TokenManager.t) (now : Z) (sdk : AuthRun.t)
    (event : AuthCallbackEvent.t) (w : Flow.World) :
  ∀ w', w' = TokenManager.handleCallback tm now sdk event w ∨
        w' = TokenManagerSignalOnly.handleCallback now event w →
    ∃ delivered,
      Flow.notifications (Flow.trace w') = Flow.notifications (Flow.trace w) ++ delivered ∧
      length delivered =
        match SessionStore.getPendingFlow (AuthCallbackEvent.state event) (Flow.store w)
        with Some _ => 1%nat | None => 0%nat end.
Proof.
  intros w' Hw'.
  destruct (SessionStore.getPendingFlow (AuthCallbackEvent.state event) (Flow.store w))
    as [flow|] eqn:Hflow.
  - destruct (PendingOAuthFlow.expiresAt flow <? now) eqn:Hexp.
    + exists [AuthCompleteEvent.mk (PendingOAuthFlow.telegramUserId flow)
                (PendingOAuthFlow.chatId flow) (PendingOAuthFlow.service flow)
                false (Some Flow.expired_message)].
      split; [|done].
      destruct Hw' as [-> | ->];
        unfold TokenManager.handleCallback, TokenManagerSignalOnly.handleCallback;
        rewrite Hflow, Hexp; simpl; by rewrite notifications_app.
    + destruct Hw' as [-> | ->].
      * eexists. split; [by apply handleCallback_live_notifications|done].
      * eexists. unfold TokenManagerSignalOnly.handleCallback.
        rewrite Hflow, Hexp. simpl. rewrite notifications_app. simpl.
        split; [reflexivity|done].
  - exists []. split; [|done]. rewrite app_nil_r.
    destruct Hw' as [-> | ->];
      rewrite ?(handleCallback_unknown _ _ _ _ _ Hflow), ?(signal_only_unknown _ _ _ Hflow);
      simpl; rewrite notifications_app; simpl; by rewrite app_nil_r.
Qed.

Lemma one_notification_per_registered_state_witness :
  ∃ delivered,
    Flow.notifications
      (Flow.trace
         (TokenManager.handleCallback sample_token_manager 2000 failed_run
            (AuthCallbackEvent.mk "code-1" "S1") world_with_flow_S1)) =
      Flow.notifications (Flow.trace world_with_flow_S1) ++ delivered ∧
    length delivered =
      match SessionStore.getPendingFlow "S1" (Flow.store world_with_flow_S1)
      with Some _ => 1%nat | None => 0%nat end.
Proof.
  apply (one_notification_per_registered_state sample_token_manager 2000 failed_run
           (AuthCallbackEvent.mk "code-1" "S1") world_with_flow_S1).
  left. reflexivity.
Defined.

Section RegistrationFacts.
Import SessionStore.



End RegistrationFacts.



(** X11: the chat that is told about the outcome.  The handler of the
    entry point passes user, service, outcome and error on as they are and
    replaces the chat of the event by the chat of the user's session when
    the user has one.  As [getOrCreateSession] never updates the chat of an
    existing session, a user whose session was created in one chat and who
    logs in from another is told in the first chat. *)
Theorem completion_goes_to_the_chat_of_the_session
    (st : SessionStore.t) (tc ta tn tc' ta' tn' userId chat1 chat2 : Z)
    (name name' : option string) (event : AuthCompleteEvent.t) :
  SessionStore.getSession userId st = None →
  AuthCompleteEvent.userId event = userId →
  let st1 := (SessionStore.getOrCreateSession tc ta tn userId chat1 name st).1 in
  let st2 := (SessionStore.getOrCreateSession tc' ta' tn' userId chat2 name' st1).1 in
  Main.onAuthComplete event st = event ∧
  Main.onAuthComplete event st2 =
    AuthCompleteEvent.mk userId chat1 (AuthCompleteEvent.service event)
      (AuthCompleteEvent.success event) (AuthCompleteEvent.error event).
Proof.
  intros Hnone Hu st1 st2. subst st1 st2. unfold Main.onAuthComplete.
  rewrite Hu. split.
  - rewrite Hnone. destruct event. simpl in *. by subst.
  - unfold SessionStore.getSession in *. unfold SessionStore.getOrCreateSession.
    simpl. rewrite !lookup_insert_eq. simpl. by rewrite Hnone.
Qed.

Lemma completion_goes_to_the_chat_of_the_session_witness :
  let st2 :=
    (SessionStore.getOrCreateSession 1000 1000 1000 7 555 None store_with_user7).1 in
  let event := AuthCompleteEvent.mk 7 555 food true None in
  Main.onAuthComplete event SessionStore.empty = event ∧
  Main.onAuthComplete event st2 = AuthCompleteEvent.mk 7 70 food true None.
Proof.
  apply (completion_goes_to_the_chat_of_the_session SessionStore.empty
           1000 1000 1000 1000 1000 1000 7 70 555 None None
           (AuthCompleteEvent.mk 7 555 food true None)); reflexivity.
Defined.


(** ** Remote client manager: failures, eviction, disconnection *)

(** X12: how a failed connection is reported.  With no cached client, an
    authenticated user and a valid endpoint, when [client.connect] rejects
    [getClient] caches nothing and has made exactly one connection attempt;
    it throws [AuthenticationRequiredError] when, after the attempt, an
    authorization URL is pending for the user (recorded during this attempt
    or earlier, for this service or another), and rethrows the connection
    error otherwise. *)
Theorem getClient_connection_failure
    (userId : Z) (service : SwiggyService) (env : ConnectRun.t)
    (w : McpClientManager.World) (err : string) :
  McpClientManager.clients (McpClientManager.manager w)
    !! McpClientManager.getKey userId service = None →
  SessionStore.isAuthenticated userId service (McpClientManager.store w) = true →
  ConnectRun.url_ok env = true →
  ConnectRun.outcome env = Some err →
  let '(w', r) := McpClientManager.getClient userId service env w in
  let provider :=
    SwiggyOAuthProvider.new userId service
      (McpClientManager.callbackPort (McpClientManager.manager w))
      (Some (McpClientManager.callbackHost (McpClientManager.manager w))) None in
  r = match SessionStore.getPendingAuthUrl userId (McpClientManager.store w') with
      | Some _ =>
          McpClientManager.Throw (McpClientManager.AuthenticationRequiredError userId service)
      | None => McpClientManager.Throw (McpClientManager.ConnectError err)
      end ∧
  McpClientManager.manager w' = McpClientManager.manager w ∧
  McpClientManager.store w' = (Sdk.run provider (ConnectRun.calls env)
                                 (McpClientManager.store w)).1 ∧
  ∃ transport logs,
    McpClientManager.authProvider transport = provider ∧
    McpClientManager.trace w' =
      McpClientManager.trace w
        ++ [McpClientManager.ConnectCalled
              (McpClientManager.mkClient (McpClientManager.next_ref w)) transport]
        ++ (McpClientManager.Logged <$> logs).
Proof.
  intros Hc Hauth Hurl Hout. unfold McpClientManager.getClient.
  rewrite Hc, Hauth, Hurl, Hout. simpl.
  destruct (Sdk.run _ _ _) as [st1 logs] eqn:Hrun. simpl.
  destruct (SessionStore.getPendingAuthUrl userId st1) as [pending|] eqn:Hp; simpl;
    rewrite Hp; (split; [done|]); (split; [done|]); (split; [done|]);
    eexists (McpClientManager.mkTransport _ _),
      (logs ++ [Log.error "MCP client connection failed"]);
    (split; [reflexivity|]); by rewrite fmap_app, <- !app_assoc.
Qed.

Lemma getClient_connection_failure_witness :
  (McpClientManager.getClient 7 food unauthorized_connect world_authenticated).2 =
    McpClientManager.Throw (McpClientManager.AuthenticationRequiredError 7 food) ∧
  (McpClientManager.getClient 7 food failing_connect world_authenticated).2 =
    McpClientManager.Throw (McpClientManager.ConnectError "ECONNREFUSED") ∧
  McpClientManager.manager
    (McpClientManager.getClient 7 food failing_connect world_authenticated).1 =
    McpClientManager.manager world_authenticated.
Proof.
  pose proof (getClient_connection_failure 7 food unauthorized_connect
                world_authenticated "Unauthorized") as H1.
  pose proof (getClient_connection_failure 7 food failing_connect
                world_authenticated "ECONNREFUSED") as H2.
  destruct (McpClientManager.getClient 7 food unauthorized_connect world_authenticated)
    as [w1 r1] eqn:E1.
  destruct (McpClientManager.getClient 7 food failing_connect world_authenticated)
    as [w2 r2] eqn:E2.
  destruct H1 as (Hr1 & _); try (vm_compute; reflexivity).
  destruct H2 as (Hr2 & Hm2 & _); try (vm_compute; reflexivity).
  simpl. split; [|split; [|exact Hm2]].
  - rewrite Hr1. injection E1 as <- _. vm_compute. reflexivity.
  - rewrite Hr2. injection E2 as <- _. vm_compute. reflexivity.
Defined.

(** X13: [invalidateClient] evicts without closing, and the next
    [getClient] connects afresh.  After [invalidateClient] the pair has no
    cache entry, no [close] was called and the store is as before; if the
    user is authenticated and the connection succeeds, the following
    [getClient] makes a connection attempt with a newly built client and
    provider, caches that client and returns it. *)
Theorem invalidateClient_then_getClient_reconnects
    (userId : Z) (service : SwiggyService) (env : ConnectRun.t)
    (w : McpClientManager.World) :
  let w1 := McpClientManager.invalidateClient userId service w in
  McpClientManager.clients (McpClientManager.manager w1)
    !! McpClientManager.getKey userId service = None ∧
  McpClientManager.trace w1 = McpClientManager.trace w ∧
  McpClientManager.store w1 = McpClientManager.store w ∧
  (SessionStore.isAuthenticated userId service (McpClientManager.store w) = true →
   ConnectRun.url_ok env = true →
   ConnectRun.outcome env = None →
   let '(w2, r) := McpClientManager.getClient userId service env w1 in
   let fresh := McpClientManager.mkClient (McpClientManager.next_ref w) in
   r = McpClientManager.Ok fresh ∧
   McpClientManager.clients (McpClientManager.manager w2)
     !! McpClientManager.getKey userId service = Some fresh ∧
   ∃ transport logs,
     McpClientManager.trace w2 =
       McpClientManager.trace w
         ++ [McpClientManager.ConnectCalled fresh transport]
         ++ (McpClientManager.Logged <$> logs)).
Proof.
  intros w1. subst w1. unfold McpClientManager.invalidateClient. simpl.
  split; [apply lookup_delete_eq|]. split; [done|]. split; [done|].
  intros Hauth Hurl Hout. unfold McpClientManager.getClient. simpl.
  rewrite lookup_delete_eq, Hauth, Hurl, Hout. simpl.
  destruct (Sdk.run _ _ _) as [st1 logs]. simpl.
  split; [done|]. split; [apply lookup_insert_eq|].
  eexists _, (logs ++ [Log.info "MCP client connected"]).
  by rewrite fmap_app, <- !app_assoc.
Qed.

Lemma invalidateClient_then_getClient_reconnects_witness :
  let w1 := McpClientManager.invalidateClient 7 food world_connected in
  McpClientManager.clients (McpClientManager.manager w1)
    !! McpClientManager.getKey 7 food = None ∧
  McpClientManager.trace w1 = McpClientManager.trace world_connected ∧
  (McpClientManager.getClient 7 food successful_connect w1).2 =
    McpClientManager.Ok (McpClientManager.mkClient 1).
Proof.
  intros w1.
  destruct (invalidateClient_then_getClient_reconnects 7 food successful_connect
              world_connected) as (Hgone & Htrace & _ & Hnext).
  split; [exact Hgone|]. split; [exact Htrace|].
  fold w1 in Hnext.
  destruct (McpClientManager.getClient 7 food successful_connect w1) as [w2 r].
  destruct Hnext as (-> & _); vm_compute; reflexivity.
Defined.


Section DisconnectFacts.
Import McpClientManager.

Lemma disconnectClient_trace u s w :
  trace (disconnectClient u s w) =
    trace w ++ match clients (manager w) !! getKey u s with
               | Some c => [CloseCalled c]
               | None => []
               end.
Proof.
  unfold disconnectClient. destruct (clients (manager w) !! getKey u s); simpl; [done|].
  by rewrite app_nil_r.
Qed.

Lemma disconnectClient_lookup u s w key :
  clients (manager (disconnectClient u s w)) !! key =
    if decide (getKey u s = key) then None else clients (manager w) !! key.
Proof.
  unfold disconnectClient.
  destruct (clients (manager w) !! getKey u s) as [c|] eqn:Hc; simpl.
  - by rewrite lookup_delete.
  - case_decide as Hk; [by subst|done].
Qed.

Lemma disconnectClient_store u s w : store (disconnectClient u s w) = store w.
Proof. unfold disconnectClient. by destruct (clients (manager w) !! getKey u s). Qed.

Lemma disconnectClient_other u s u' s' w :
  (u', s') ≠ (u, s) →
  clients (manager (disconnectClient u s w)) !! getKey u' s' =
    clients (manager w) !! getKey u' s'.
Proof.
  intros Hne. rewrite disconnectClient_lookup. case_decide as Hk; [|done].
  apply composite_key_inj in Hk as [-> ->]. done.
Qed.

End DisconnectFacts.

(** X14: [disconnectClient] closes the cached client of the pair once and
    evicts it; without a cached client it calls nothing and changes
    nothing.  Either way the pair has no entry afterwards, the store and
    the entries of all other pairs are as before, and disconnecting again
    is a no-op. *)
Theorem disconnectClient_closes_and_evicts
    (userId : Z) (service : SwiggyService) (w : McpClientManager.World) :
  let w1 := McpClientManager.disconnectClient userId service w in
  McpClientManager.clients (McpClientManager.manager w1)
    !! McpClientManager.getKey userId service = None ∧
  McpClientManager.transports (McpClientManager.manager w1)
    !! McpClientManager.getKey userId service =
    match McpClientManager.clients (McpClientManager.manager w)
            !! McpClientManager.getKey userId service with
    | Some _ => None
    | None => McpClientManager.transports (McpClientManager.manager w)
                !! McpClientManager.getKey userId service
    end ∧
  McpClientManager.trace w1 =
    McpClientManager.trace w
      ++ match McpClientManager.clients (McpClientManager.manager w)
                 !! McpClientManager.getKey userId service with
         | Some c => [McpClientManager.CloseCalled c]
         | None => []
         end ∧
  McpClientManager.store w1 = McpClientManager.store w ∧
  McpClientManager.disconnectClient userId service w1 = w1 ∧
  (∀ userId' service', (userId', service') ≠ (userId, service) →
     McpClientManager.clients (McpClientManager.manager w1)
       !! McpClientManager.getKey userId' service' =
     McpClientManager.clients (McpClientManager.manager w)
       !! McpClientManager.getKey userId' service').
Proof.
  intros w1. subst w1.
  assert (Hgone : McpClientManager.clients
                    (McpClientManager.manager
                       (McpClientManager.disconnectClient userId service w))
                    !! McpClientManager.getKey userId service = None).
  { rewrite disconnectClient_lookup. by case_decide. }
  split; [exact Hgone|]. split; [|split; [apply disconnectClient_trace|]].
  - clear Hgone. unfold McpClientManager.disconnectClient.
    destruct (McpClientManager.clients _ !! _); simpl; [apply lookup_delete_eq|done].
  - split; [apply disconnectClient_store|]. split.
    + unfold McpClientManager.disconnectClient at 1. by rewrite Hgone.
    + intros u' s' Hne. by apply disconnectClient_other.
Qed.

Lemma disconnectClient_closes_and_evicts_witness :
  let w1 := McpClientManager.disconnectClient 7 food world_three_clients in
  McpClientManager.clients (McpClientManager.manager w1)
    !! McpClientManager.getKey 7 food = None ∧
  McpClientManager.trace w1 =
    McpClientManager.trace world_three_clients
      ++ [McpClientManager.CloseCalled (McpClientManager.mkClient 0)] ∧
  McpClientManager.clients (McpClientManager.manager w1)
    !! McpClientManager.getKey 8 food = Some (McpClientManager.mkClient 2).
Proof.
  destruct (disconnectClient_closes_and_evicts 7 food world_three_clients)
    as (Hgone & _ & Htrace & _ & _ & Hother).
  split; [exact Hgone|]. split.
  - rewrite Htrace. vm_compute. reflexivity.
  - rewrite (Hother 8 food); [vm_compute; reflexivity|discriminate].
Defined.







(** ** Callback listener and tool invocation, continued *)

(** A callback with both parameters, the first value of a repeated
    parameter being the one used. *)
Lemma handleRequest_spec_witness :
  let req :=
    Http.mkRequest "GET" "/callback" [("code", "abc"); ("state", "S1"); ("code", "zzz")] in
  Http.emitted (OAuthCallbackServer.handleRequest req) = [AuthCallbackEvent.mk "abc" "S1"] ∧
  Http.response (OAuthCallbackServer.handleRequest req) =
    Http.mkResponse 200 "text/html" Http.ConfirmationPage.
Proof.
  intros req.
  destruct (handleRequest_spec req) as (_ & Hboth & _).
  apply (Hboth eq_refl "abc" "S1"); reflexivity.
Defined.

(** X17: what the callback listener does with a request, from its
    arrival on.  When [new URL] throws on the request target, the
    [TypeError] leaves [handleRequest] of either revision: no response is
    written and no event is emitted.  When the target parses, the revision
    in auth/oauthCallbackServer.ts answers [/health] with 200 OK and a path
    that is neither [/health] nor [/callback] with 404, emitting nothing;
    a [/callback] whose code and state are present and not empty emits one
    event with these two values (the first value of a repeated parameter)
    and is answered with the confirmation page; a [/callback] that lacks
    either emits nothing and is answered with the page that looks for the
    parameters in the fragment. *)
Theorem handleRequest_parses_then_answers (p : Incoming.Parse) :
  let out := Incoming.serve OAuthCallbackServer.handleRequest p in
  (p = Incoming.NotAUrl →
   out = Incoming.TypeErrorThrown "Invalid URL" ∧
   Incoming.serve OAuthCallbackServerStrict.handleRequest p =
     Incoming.TypeErrorThrown "Invalid URL" ∧
   Incoming.response out = None ∧ Incoming.emitted out = []) ∧
  (∀ req, p = Incoming.Parsed req →
     let code := Http.get "code" (Http.searchParams req) in
     let state := Http.get "state" (Http.searchParams req) in
     (Http.pathname req = "/health" →
      out = Incoming.Answered
              (Http.mkServed (Http.mkResponse 200 "text/plain" (Http.Literal "OK")) [] [])) ∧
     (Http.pathname req = "/callback" →
      ∀ c s, code = Some c → state = Some s → truthy c = true → truthy s = true →
        Incoming.emitted out = [AuthCallbackEvent.mk c s] ∧
        Incoming.response out =
          Some (Http.mkResponse 200 "text/html" Http.ConfirmationPage)) ∧
     (Http.pathname req = "/callback" →
      truthy_opt code = false ∨ truthy_opt state = false →
        Incoming.emitted out = [] ∧
        Incoming.response out =
          Some (Http.mkResponse 200 "text/html" Http.FragmentRedirectPage)) ∧
     (Http.pathname req ≠ "/health" → Http.pathname req ≠ "/callback" →
      out = Incoming.Answered
              (Http.mkServed (Http.mkResponse 404 "text/plain" (Http.Literal "Not found"))
                 [] []))).
Proof.
  intros out. subst out. split.
  - intros ->. done.
  - intros req ->. cbn [Incoming.serve Incoming.emitted Incoming.response].
    destruct (handleRequest_spec req) as (Hhealth & Hboth & Hlack & Hother).
    split; [|split; [|split]].
    + intros Hp. by rewrite (Hhealth Hp).
    + intros Hp c s Hc Hs Htc Hts.
      destruct (Hboth Hp c s Hc Hs Htc Hts) as [-> ->]. done.
    + intros Hp Hmiss. destruct (Hlack Hp Hmiss) as [-> ->]. done.
    + intros Hh Hc. by rewrite (Hother Hh Hc).
Qed.

Lemma handleRequest_parses_then_answers_witness :
  let req :=
    Http.mkRequest "GET" "/callback" [("code", "abc"); ("state", "S1"); ("code", "zzz")] in
  Incoming.emitted (Incoming.serve OAuthCallbackServer.handleRequest (Incoming.Parsed req)) =
    [AuthCallbackEvent.mk "abc" "S1"] ∧
  Incoming.response (Incoming.serve OAuthCallbackServer.handleRequest
                       (Incoming.Parsed (Http.mkRequest "GET" "/favicon.ico" []))) =
    Some (Http.mkResponse 404 "text/plain" (Http.Literal "Not found")) ∧
  Incoming.response (Incoming.serve OAuthCallbackServer.handleRequest Incoming.NotAUrl) = None.
Proof.
  intros req. split; [|split].
  - destruct (handleRequest_parses_then_answers (Incoming.Parsed req)) as [_ Hparsed].
    destruct (Hparsed req eq_refl) as (_ & Hboth & _).
    apply (Hboth eq_refl "abc" "S1"); reflexivity.
  - destruct (handleRequest_parses_then_answers
                (Incoming.Parsed (Http.mkRequest "GET" "/favicon.ico" []))) as [_ Hparsed].
    destruct (Hparsed _ eq_refl) as (_ & _ & _ & Hother).
    rewrite Hother; [reflexivity|discriminate|discriminate].
  - destruct (handleRequest_parses_then_answers Incoming.NotAUrl) as [Hbad _].
    destruct (Hbad eq_refl) as (_ & _ & Hnone & _). exact Hnone.
Defined.

(** X18: which failures are retried.  The message of a rejected call is
    classified as transient exactly when it contains, in this spelling,
    ["timeout"], ["ECONNRESET"] or ["503"] somewhere. *)
Theorem retryable_iff_contains_marker (message : string) :
  ToolInvoker.retryable message = true ↔
  ∃ marker before after,
    marker ∈ ["timeout"; "ECONNRESET"; "503"] ∧
    message = before +:+ marker +:+ after.
Proof.
  rewrite retryable_spec, !includes_spec. split.
  - intros [(b & a & ->) | [(b & a & ->) | (b & a & ->)]].
    + exists "timeout", b, a. split; [set_solver|done].
    + exists "ECONNRESET", b, a. split; [set_solver|done].
    + exists "503", b, a. split; [set_solver|done].
  - intros (marker & b & a & Hin & ->).
    apply elem_of_cons in Hin as [->|Hin]; [left; eauto|].
    apply elem_of_cons in Hin as [->|Hin]; [right; left; eauto|].
    apply elem_of_cons in Hin as [->|Hin]; [right; right; eauto|].
    by apply elem_of_nil in Hin.
Qed.

Lemma retryable_iff_contains_marker_witness :
  ToolInvoker.retryable "upstream 503 from gateway" = true.
Proof.
  apply (retryable_iff_contains_marker "upstream 503 from gateway").
  exists "503", "upstream ", " from gateway". split; [set_solver|reflexivity].
Defined.


(** ** Commands: login and logout *)

Section CommandFacts.
Import CommandHandlers.

Lemma valid_service_nonempty arg service :
  valid_service (toLowerCase arg) = Some service → truthy arg = true.
Proof. by destruct arg. Qed.

Lemma isAuthenticated_getOrCreateSession st tc ta tn u chat name u' s :
  SessionStore.isAuthenticated u' s
    (SessionStore.getOrCreateSession tc ta tn u chat name st).1 =
  SessionStore.isAuthenticated u' s st.
Proof.
  unfold SessionStore.isAuthenticated, SessionStore.getOrCreateSession,
    SessionStore.put_session, SessionStore.with_sessions. simpl.
  destruct (decide (u = u')) as [<-|Hne].
  - rewrite lookup_insert_eq. simpl.
    by destruct (SessionStore.sessions st !! u).
  - by rewrite lookup_insert_ne.
Qed.


Lemma initiateAuth_pendingFlows u s env w :
  SessionStore.pendingFlows
    (McpClientManager.store (McpClientManager.initiateAuth u s env w).1) =
  SessionStore.pendingFlows (McpClientManager.store w).
Proof.
  unfold McpClientManager.initiateAuth.
  destruct (ConnectRun.url_ok env); simpl; [|done].
  set (p := SwiggyOAuthProvider.new _ _ _ _ _).
  pose proof (run_pendingFlows p (ConnectRun.calls env) (McpClientManager.store w)) as Hpf.
  destruct (Sdk.run p (ConnectRun.calls env) (McpClientManager.store w)) as [st1 logs].
  simpl in Hpf.
  destruct (ConnectRun.outcome env); simpl; [|done].
  by destruct (SessionStore.getPendingAuthUrl u st1) as [[url svc]|].
Qed.

Lemma login_failed_store chatId service b :
  McpClientManager.store (world (login_failed chatId service b)) =
  McpClientManager.store (world b).
Proof. done. Qed.

(** The store that [initiateLogin] leaves, as far as pending flows go. *)
Lemma initiateLogin_pendingFlows u chat s env b :
  SessionStore.pendingFlows (McpClientManager.store (world (initiateLogin u chat s env b))) =
    if delivered env 0 then
      <[uuid env :=
          PendingOAuthFlow.mk u chat s "" (uuid env) (t_created env)
            (t_expires env + OAUTH_FLOW_TIMEOUT_MS)]>
        (SessionStore.pendingFlows (McpClientManager.store (world b)))
    else SessionStore.pendingFlows (McpClientManager.store (world b)).
Proof.
  unfold initiateLogin. destruct (delivered env 0); simpl; [|done].
  match goal with
  | |- context [McpClientManager.initiateAuth u s (connect env) ?w1] =>
      pose proof (initiateAuth_pendingFlows u s (connect env) w1) as Hpf;
      destruct (McpClientManager.initiateAuth u s (connect env) w1) as [w2 r]
  end.
  simpl in Hpf.
  destruct r as [authUrl|e]; [|by rewrite login_failed_store].
  destruct (delivered env 1); [done|by rewrite login_failed_store].
Qed.

End CommandFacts.



(** X20: what a login attempt registers.  Once its first message is
    delivered, [initiateLogin] registers one pending flow under the
    generated state, for the user, chat and service given, expiring five
    minutes after the second clock reading; the flow is still registered
    when the attempt ends, whether a link was obtained, the connection
    failed or a message was lost, and the flows under other states are
    untouched.  If the first message is not delivered nothing is
    registered. *)
Theorem initiateLogin_registers_flow
    (userId chatId : Z) (service : SwiggyService)
    (env : CommandHandlers.LoginEnv) (b : CommandHandlers.Bot) :
  let st := McpClientManager.store (CommandHandlers.world b) in
  let st1 :=
    McpClientManager.store
      (CommandHandlers.world (CommandHandlers.initiateLogin userId chatId service env b)) in
  (CommandHandlers.delivered env 0 = true →
   SessionStore.getPendingFlow (CommandHandlers.uuid env) st1 =
     Some (PendingOAuthFlow.mk userId chatId service "" (CommandHandlers.uuid env)
             (CommandHandlers.t_created env) (CommandHandlers.t_expires env + 300000)) ∧
   ∀ state, state ≠ CommandHandlers.uuid env →
            SessionStore.getPendingFlow state st1 = SessionStore.getPendingFlow state st) ∧
  (CommandHandlers.delivered env 0 = false →
   SessionStore.pendingFlows st1 = SessionStore.pendingFlows st).
Proof.
  intros st st1. subst st st1. unfold SessionStore.getPendingFlow.
  rewrite initiateLogin_pendingFlows. split.
  - intros ->. split; [apply lookup_insert_eq|].
    intros state Hne. by rewrite lookup_insert_ne.
  - by intros ->.
Qed.

Lemma initiateLogin_registers_flow_witness :
  let st1 :=
    McpClientManager.store
      (CommandHandlers.world
         (CommandHandlers.initiateLogin 7 70 instamart sample_login_env bot_logging_in)) in
  SessionStore.getPendingFlow "uuid-1" st1 =
    Some (PendingOAuthFlow.mk 7 70 instamart "" "uuid-1" 2000 302001) ∧
  SessionStore.getPendingFlow "S1" st1 = Some flow_S1.
Proof.
  intros st1.
  destruct (initiateLogin_registers_flow 7 70 instamart sample_login_env bot_logging_in)
    as [Hreg _].
  destruct (Hreg eq_refl) as [Hflow Hother].
  split; [exact Hflow|].
  subst st1. rewrite (Hother "S1"); [vm_compute; reflexivity|discriminate].
Defined.




(** X22: [/login <service>] for a user who is already authenticated for
    the service starts nothing: no pending flow is registered, no
    connection is attempted, the cache is as it was, and one message says
    that the service is already connected.  The command makes sure the
    user has a session, and that does not change who is authenticated. *)
Theorem handleLogin_when_authenticated_starts_no_flow
    (tc ta tn userId chatId : Z) (username : option string) (arg : string)
    (service : SwiggyService) (env : CommandHandlers.LoginEnv)
    (b : CommandHandlers.Bot) :
  valid_service (toLowerCase arg) = Some service →
  SessionStore.isAuthenticated userId service
    (McpClientManager.store (CommandHandlers.world b)) = true →
  let b1 := CommandHandlers.handleLogin tc ta tn userId chatId username (Some arg) env b in
  let w := CommandHandlers.world b in
  let w1 := CommandHandlers.world b1 in
  SessionStore.pendingFlows (McpClientManager.store w1) =
    SessionStore.pendingFlows (McpClientManager.store w) ∧
  McpClientManager.trace w1 = McpClientManager.trace w ∧
  McpClientManager.manager w1 = McpClientManager.manager w ∧
  (∀ u s, SessionStore.isAuthenticated u s (McpClientManager.store w1) =
          SessionStore.isAuthenticated u s (McpClientManager.store w)) ∧
  CommandHandlers.outbox b1 =
    CommandHandlers.outbox b
      ++ [Telegram.mkSent chatId
            ("You're already connected to <b>" +:+ SERVICE_LABELS service
             +:+ "</b>. Use /logout " +:+ service_name service +:+ " to disconnect first.")
            true None].
Proof.
  intros Hvalid Hauth b1 w w1. subst b1 w w1.
  pose proof (valid_service_nonempty _ _ Hvalid) as Hne.
  unfold CommandHandlers.handleLogin. rewrite Hne, Hvalid. cbn [negb].
  rewrite isAuthenticated_getOrCreateSession, Hauth.
  split; [done|]. split; [done|]. split; [done|]. split; [|done].
  intros u s. apply isAuthenticated_getOrCreateSession.
Qed.

Lemma handleLogin_when_authenticated_starts_no_flow_witness :
  let b1 :=
    CommandHandlers.handleLogin 9000 9000 9001 7 70 None (Some "Food") sample_login_env
      bot_three_clients in
  SessionStore.pendingFlows (McpClientManager.store (CommandHandlers.world b1)) =
    SessionStore.pendingFlows (McpClientManager.store world_three_clients) ∧
  McpClientManager.trace (CommandHandlers.world b1) =
    McpClientManager.trace world_three_clients ∧
  CommandHandlers.outbox b1 =
    [Telegram.mkSent 70
       "You're already connected to <b>Swiggy Food</b>. Use /logout food to disconnect first."
       true None].
Proof.
  intros b1.
  destruct (handleLogin_when_authenticated_starts_no_flow 9000 9000 9001 7 70 None "Food"
              food sample_login_env bot_three_clients eq_refl)
    as (Hflows & Htrace & _ & _ & Hout); [vm_compute; reflexivity|].
  split; [exact Hflows|]. split; [exact Htrace|exact Hout].
Defined.


(** ** Rate limiter *)

Section RateLimiterFacts.
Import RateLimiter.

Lemma filter_in_window_later rl now t l :
  now ≤ t →
  List.filter (in_window rl t) (List.filter (in_window rl now) l) =
  List.filter (in_window rl t) l.
Proof.
  intros Hle. induction l as [|ts l IH]; [done|]. simpl.
  destruct (in_window rl now ts) eqn:Hnow; simpl.
  - by rewrite IH.
  - unfold in_window in *. apply Z.ltb_ge in Hnow.
    replace (t - ts <? windowMs rl) with false by (symmetry; apply Z.ltb_ge; lia).
    exact IH.
Qed.

Lemma times_of_snoc u acc now u' :
  times_of u (acc ++ [(now, u')]) =
  times_of u acc ++ (if u' =? u then [now] else []).
Proof.
  unfold times_of. rewrite List.filter_app, fmap_app. simpl.
  by destruct (u' =? u).
Qed.

Lemma in_window_same rl rl' : windowMs rl' = windowMs rl → in_window rl' = in_window rl.
Proof. unfold in_window. by intros ->. Qed.

(** One call: the answer is decided by the calls let through that are
    still in the window, and the list kept goes on tracking them. *)
Lemma isLimited_tracks rl acc tlast now u :
  limiter_tracks rl acc tlast → tlast ≤ now →
  let s' := step (rl, acc) (now, u) in
  (isLimited now u rl).2 =
    (maxRequests rl <=? Z.of_nat (length (List.filter (in_window rl now) (times_of u acc)))) ∧
  limiter_tracks s'.1 s'.2 now ∧
  windowMs s'.1 = windowMs rl ∧ maxRequests s'.1 = maxRequests rl.
Proof.
  intros Hinv Hle s'. subst s'. unfold step, isLimited. simpl.
  rewrite (Hinv u now Hle).
  set (valid := List.filter (in_window rl now) (times_of u acc)).
  assert (Hvalid : ∀ t', now ≤ t' →
            List.filter (in_window rl t') valid =
            List.filter (in_window rl t') (times_of u acc)).
  { intros t' Ht'. by apply filter_in_window_later. }
  destruct (maxRequests rl <=? Z.of_nat (length valid)) eqn:Hlim; simpl.
  - split; [done|]. split; [|done].
    intros u' t' Ht'. simpl. rewrite (in_window_same rl) by done.
    destruct (decide (u = u')) as [<-|Hne].
    + rewrite lookup_insert_eq. simpl. by apply Hvalid.
    + rewrite lookup_insert_ne by done. apply Hinv. lia.
  - split; [done|]. split; [|done].
    intros u' t' Ht'. simpl. rewrite (in_window_same rl) by done.
    rewrite times_of_snoc.
    destruct (decide (u = u')) as [<-|Hne].
    + rewrite lookup_insert_eq, Z.eqb_refl. simpl.
      rewrite !List.filter_app. by rewrite Hvalid.
    + rewrite lookup_insert_ne by done.
      replace (u =? u') with false by (symmetry; by apply Z.eqb_neq).
      rewrite app_nil_r. apply Hinv. lia.
Qed.

Lemma run_tracks calls : ∀ rl acc tlast,
  limiter_tracks rl acc tlast → nondecreasing tlast calls →
  let s := foldl step (rl, acc) calls in
  limiter_tracks s.1 s.2 (end_time tlast calls) ∧
  windowMs s.1 = windowMs rl ∧ maxRequests s.1 = maxRequests rl.
Proof.
  induction calls as [|[now u] calls IH]; intros rl acc tlast Hinv Hnd; simpl; [done|].
  destruct Hnd as [Hle Hnd]. simpl in Hle, Hnd.
  destruct (isLimited_tracks rl acc tlast now u Hinv Hle) as (_ & Hinv' & Hw & Hm).
  destruct (step (rl, acc) (now, u)) as [rl1 acc1]. simpl in *.
  destruct (IH rl1 acc1 now Hinv' Hnd) as (H1 & H2 & H3).
  unfold end_time in *. simpl. split; [exact H1|]. split; congruence.
Qed.

Lemma nondecreasing_snoc tlast calls c :
  nondecreasing tlast (calls ++ [c]) →
  nondecreasing tlast calls ∧ end_time tlast calls ≤ c.1.
Proof.
  revert tlast. induction calls as [|c0 calls IH]; intros tlast; simpl.
  - intros [Hle _]. done.
  - intros [Hle Hnd]. destruct (IH _ Hnd) as [H1 H2]. done.
Qed.

End RateLimiterFacts.

(** X23: the limiter is a sliding window over the calls it let through.
    Starting from a new limiter and with a clock that never goes back, a
    call of a user is refused exactly when at least [maxRequests] earlier
    calls of that same user were let through less than [windowMs] before
    it; refused calls and the calls of other users do not count. *)
Theorem rate_limiter_is_a_sliding_window
    (maxRequests windowMs : option Z) (t0 : Z) (calls : list (Z * Z))
    (now userId : Z) :
  RateLimiter.nondecreasing t0 (calls ++ [(now, userId)]) →
  let '(rl, accepted) := RateLimiter.run (RateLimiter.new maxRequests windowMs) calls in
  (RateLimiter.isLimited now userId rl).2 =
    (default 20 maxRequests <=?
       Z.of_nat (length (List.filter (λ ts, now - ts <? default 60000 windowMs)
                           (RateLimiter.times_of userId accepted)))).
Proof.
  intros Hnd. apply nondecreasing_snoc in Hnd as [Hnd Hlast]. simpl in Hlast.
  assert (Hinit : limiter_tracks (RateLimiter.new maxRequests windowMs) [] t0).
  { intros u t' _. unfold RateLimiter.new. simpl. by rewrite lookup_empty. }
  pose proof (run_tracks calls _ _ _ Hinit Hnd) as (Hinv & Hw & Hm).
  unfold RateLimiter.run.
  destruct (foldl RateLimiter.step _ calls) as [rl accepted]. simpl in *.
  destruct (isLimited_tracks rl accepted _ now userId Hinv Hlast) as (Hans & _).
  rewrite Hans, Hm. unfold RateLimiter.in_window. by rewrite Hw.
Qed.

(** Two requests a minute: the third call within the minute is refused and
    does not count, so a call 61 seconds after the first is let through. *)
Lemma rate_limiter_is_a_sliding_window_witness :
  let '(rl, accepted) :=
    RateLimiter.run (RateLimiter.new (Some 2) (Some 60000))
      [(0, 7); (1000, 7); (2000, 8); (3000, 7)] in
  accepted = [(0, 7); (1000, 7); (2000, 8)] ∧
  (RateLimiter.isLimited 61000 7 rl).2 = false.
Proof.
  pose proof (rate_limiter_is_a_sliding_window (Some 2) (Some 60000) 0
                [(0, 7); (1000, 7); (2000, 8); (3000, 7)] 61000 7) as H.
  destruct (RateLimiter.run _ _) as [rl accepted] eqn:Hrun.
  assert (Hacc : accepted = [(0, 7); (1000, 7); (2000, 8)]).
  { vm_compute in Hrun. by injection Hrun as _ <-. }
  split; [exact Hacc|]. rewrite H.
  - rewrite Hacc. vm_compute. reflexivity.
  - simpl. lia.
Defined.


(** ** Conversation memory *)

Section ConversationFacts.
Import ConversationMemory.

(** The list kept by [addTurn], in one expression for both branches. *)
Lemma addTurn_lookup u turn cm :
  store (addTurn u turn cm) !! u =
    Some (let turns := default [] (store cm !! u) ++ [turn] in
          drop (Z.to_nat (Z.of_nat (length turns) - maxTurnsPerUser cm)) turns).
Proof.
  unfold addTurn. simpl. rewrite lookup_insert_eq. f_equal.
  destruct (_ <? _) eqn:Hlt; [done|].
  apply Z.ltb_ge in Hlt.
  by replace (Z.to_nat _) with 0%nat by lia.
Qed.

Lemma addTurn_max cm u turn : maxTurnsPerUser (addTurn u turn cm) = maxTurnsPerUser cm.
Proof. done. Qed.

End ConversationFacts.

(** X24: [addTurn] keeps the most recent turns.  After it the turns of the
    user are the end of the former turns followed by the new one, as many
    as fit: their number is the smaller of the former number plus one and
    [maxTurnsPerUser] (none when that is not positive); when at least one
    turn may be kept the new turn is the last; the turns of other users
    are as before. *)
Theorem addTurn_keeps_the_most_recent_turns
    (userId : Z) (turn : ConversationMemory.ConversationTurn)
    (cm : ConversationMemory.t) :
  let old := default [] (ConversationMemory.store cm !! userId) in
  let kept :=
    default [] (ConversationMemory.store (ConversationMemory.addTurn userId turn cm)
                  !! userId) in
  (∃ dropped, old ++ [turn] = dropped ++ kept) ∧
  Z.of_nat (length kept) =
    Z.min (Z.of_nat (length old) + 1) (Z.max 0 (ConversationMemory.maxTurnsPerUser cm)) ∧
  (1 ≤ ConversationMemory.maxTurnsPerUser cm → last kept = Some turn) ∧
  (∀ userId', userId' ≠ userId →
     ConversationMemory.store (ConversationMemory.addTurn userId turn cm) !! userId' =
     ConversationMemory.store cm !! userId').
Proof.
  intros old kept. subst kept. rewrite addTurn_lookup. simpl. fold old.
  set (k := Z.to_nat _).
  split; [|split; [|split]].
  - exists (take k (old ++ [turn])). by rewrite take_drop.
  - rewrite length_drop, length_app. simpl. subst k.
    rewrite length_app. simpl. lia.
  - intros Hmax. subst k. rewrite length_app. simpl.
    rewrite drop_app_le by lia. apply last_snoc.
  - intros u' Hne. unfold ConversationMemory.addTurn. simpl.
    by rewrite lookup_insert_ne.
Qed.

Lemma addTurn_keeps_the_most_recent_turns_witness :
  default [] (ConversationMemory.store
                (ConversationMemory.addTurn 7 (sample_turn 4) memory_full) !! 7) =
    [sample_turn 2; sample_turn 3; sample_turn 4] ∧
  last (default [] (ConversationMemory.store
                      (ConversationMemory.addTurn 7 (sample_turn 4) memory_full) !! 7)) =
    Some (sample_turn 4).
Proof.
  destruct (addTurn_keeps_the_most_recent_turns 7 (sample_turn 4) memory_full)
    as (_ & _ & Hlast & _).
  split; [vm_compute; reflexivity|]. apply Hlast. vm_compute. discriminate.
Defined.

(** X25: what [getHistory] returns.  With a limit of at least one it is
    the last [limit] turns of the user, all of them when there are fewer,
    oldest first; without a limit it is the last ten.  A limit of zero
    does not give an empty history but the whole of it, and a negative
    limit drops that many of the oldest turns. *)
Theorem getHistory_returns_the_last_turns
    (userId limit : Z) (cm : ConversationMemory.t) :
  let turns := default [] (ConversationMemory.store cm !! userId) in
  (1 ≤ limit →
   ConversationMemory.getHistory userId (Some limit) cm =
     drop (length turns - Z.to_nat limit) turns ∧
   length (ConversationMemory.getHistory userId (Some limit) cm) =
     (Z.to_nat limit `min` length turns)%nat) ∧
  ConversationMemory.getHistory userId None cm =
    drop (length turns - 10) turns ∧
  ConversationMemory.getHistory userId (Some 0) cm = turns ∧
  (limit < 0 →
   ConversationMemory.getHistory userId (Some limit) cm = drop (Z.to_nat (- limit)) turns).
Proof.
  intros turns.
  assert (Hpos : ∀ l, 1 ≤ l →
            ConversationMemory.getHistory userId (Some l) cm =
            drop (length turns - Z.to_nat l) turns).
  { intros l Hl. unfold ConversationMemory.getHistory, ConversationMemory.slice_from.
    simpl. fold turns.
    replace (- l <? 0) with true by (symmetry; apply Z.ltb_lt; lia).
    f_equal. lia. }
  split; [|split; [|split]].
  - intros Hl. rewrite (Hpos limit Hl). split; [done|].
    rewrite length_drop. lia.
  - exact (Hpos 10 ltac:(lia)).
  - unfold ConversationMemory.getHistory, ConversationMemory.slice_from. simpl.
    fold turns. replace (Z.to_nat _) with 0%nat by lia. done.
  - intros Hl. unfold ConversationMemory.getHistory, ConversationMemory.slice_from.
    simpl. fold turns.
    replace (- limit <? 0) with false by (symmetry; apply Z.ltb_ge; lia).
    destruct (decide (- limit ≤ Z.of_nat (length turns))) as [Hle|Hgt].
    + f_equal. lia.
    + rewrite !drop_ge; [done|lia|lia].
Qed.

Lemma getHistory_returns_the_last_turns_witness :
  ConversationMemory.getHistory 7 (Some 2) memory_full = [sample_turn 2; sample_turn 3] ∧
  ConversationMemory.getHistory 7 (Some 0) memory_full =
    [sample_turn 1; sample_turn 2; sample_turn 3] ∧
  ConversationMemory.getHistory 7 (Some (-1)) memory_full = [sample_turn 2; sample_turn 3].
Proof.
  destruct (getHistory_returns_the_last_turns 7 2 memory_full) as ([H2 _] & _ & H0 & _);
    [lia|].
  destruct (getHistory_returns_the_last_turns 7 (-1) memory_full) as (_ & _ & _ & Hneg).
  split; [rewrite H2; vm_compute; reflexivity|].
  split; [rewrite H0; vm_compute; reflexivity|].
  rewrite Hneg by lia. vm_compute. reflexivity.
Defined.


Section StoredTurnFacts.
Import ConversationMemory.

(** The turns of a user after [storeConversationTurn], by how many turns
    the memory keeps. *)
Lemma storeConversationTurn_lookup t1 t2 u msg resp i r cm :
  let T1 := mkTurn user msg t1 i None in
  let T2 := mkTurn assistant resp t2 None r in
  let kept := default [] (store (storeConversationTurn t1 t2 u msg resp i r cm) !! u) in
  (2 ≤ maxTurnsPerUser cm → ∃ before, kept = before ++ [T1; T2]) ∧
  (maxTurnsPerUser cm = 1 → kept = [T2]) ∧
  (maxTurnsPerUser cm ≤ 0 → kept = []).
Proof.
  intros T1 T2 kept. subst kept. unfold storeConversationTurn.
  rewrite addTurn_lookup, addTurn_max, addTurn_lookup. simpl.
  fold T1 T2. set (old := default [] (store cm !! u)).
  set (m := maxTurnsPerUser cm).
  split; [|split].
  - intros Hm.
    assert (Hk1 : (Z.to_nat (Z.of_nat (length (old ++ [T1])) - m) ≤ length old)%nat)
      by (rewrite length_app; simpl; lia).
    remember (Z.to_nat (Z.of_nat (length (old ++ [T1])) - m)) as k1 eqn:Ek1.
    assert (Hk1' : Z.of_nat (length old) + 1 - m ≤ Z.of_nat k1)
      by (subst k1; rewrite length_app; simpl; lia).
    rewrite (drop_app_le old [T1]) by done.
    rewrite <- app_assoc. simpl.
    eexists. apply drop_app_le.
    rewrite length_app, length_drop. simpl. lia.
  - intros Hm. rewrite Hm.
    replace (Z.to_nat (Z.of_nat (length (old ++ [T1])) - 1)) with (length old)
      by (rewrite length_app; simpl; lia).
    rewrite drop_app_length. done.
  - intros Hm.
    rewrite (drop_ge (old ++ [T1])) by (rewrite length_app; simpl; lia).
    simpl. apply drop_ge. simpl. lia.
Qed.

End StoredTurnFacts.

(** X26: what a follow-up sees after [storeConversationTurn].  The intent
    stored with the user's turn is the one [getLastIntent] returns exactly
    when the memory keeps at least two turns per user: with one turn per
    user the assistant's turn pushes the user's turn out and no intent is
    found.  Non-empty tool results are the ones [getLastToolResults]
    returns when the memory keeps at least one turn. *)
Theorem stored_turn_is_what_a_follow_up_sees
    (t1 t2 userId : Z) (userMessage assistantResponse results : string)
    (intent : ConversationMemory.ParsedIntent) (cm : ConversationMemory.t) :
  let cm' :=
    ConversationMemory.storeConversationTurn t1 t2 userId userMessage assistantResponse
      (Some intent) (Some results) cm in
  ConversationMemory.getLastIntent userId cm' =
    (if 2 <=? ConversationMemory.maxTurnsPerUser cm then Some intent else None) ∧
  (truthy results = true →
   ConversationMemory.getLastToolResults userId cm' =
     (if 1 <=? ConversationMemory.maxTurnsPerUser cm then Some results else None)).
Proof.
  intros cm'. subst cm'.
  destruct (storeConversationTurn_lookup t1 t2 userId userMessage assistantResponse
              (Some intent) (Some results) cm) as (H2 & H1 & H0).
  unfold ConversationMemory.getLastIntent, ConversationMemory.getLastToolResults.
  destruct (Z.leb_spec 2 (ConversationMemory.maxTurnsPerUser cm)) as [Hm|Hm].
  - destruct (H2 Hm) as [before ->].
    replace (1 <=? _) with true by (symmetry; apply Z.leb_le; lia).
    rewrite reverse_app. split; [done|].
    intros Htruthy. simpl. by rewrite Htruthy.
  - destruct (Z.leb_spec 1 (ConversationMemory.maxTurnsPerUser cm)) as [Hm1|Hm1].
    + rewrite H1 by lia. split; [done|].
      intros Htruthy. simpl. by rewrite Htruthy.
    + rewrite H0 by lia. done.
Qed.

Lemma stored_turn_is_what_a_follow_up_sees_witness :
  truthy "3 restaurants" = true ∧
  ConversationMemory.getLastIntent 7
    (ConversationMemory.storeConversationTurn 10 11 7 "pizza" "here you go"
       (Some sample_intent) (Some "3 restaurants") memory_full) = Some sample_intent ∧
  ConversationMemory.getLastToolResults 7
    (ConversationMemory.storeConversationTurn 10 11 7 "pizza" "here you go"
       (Some sample_intent) (Some "3 restaurants") memory_full) = Some "3 restaurants".
Proof.
  destruct (stored_turn_is_what_a_follow_up_sees 10 11 7 "pizza" "here you go"
              "3 restaurants" sample_intent memory_full) as [Hi Hr].
  split; [reflexivity|]. split; [exact Hi|exact (Hr eq_refl)].
Defined.


(** ** Message formatter *)

Section MessageFormatterFacts.
Import MessageFormatter.

Lemma len_app (a b : text) : len (a ++ b) = len a + len b.
Proof. unfold len. rewrite length_app. lia. Qed.

Lemma len_nonneg (s : text) : 0 ≤ len s.
Proof. unfold len. lia. Qed.

Lemma last_index_from_app c a b i best :
  last_index_from c (a ++ b) i best =
  last_index_from c b (i + len a) (last_index_from c a i best).
Proof.
  revert i best. induction a as [|x a IH]; intros i best; simpl.
  - unfold len. simpl. by rewrite Z.add_0_r.
  - rewrite IH. f_equal. unfold len. simpl. lia.
Qed.

(** The scan returns [best] or an index of [s] that holds [c]. *)
Lemma last_index_from_hit c s i best :
  last_index_from c s i best = best ∨
  (i ≤ last_index_from c s i best < i + len s ∧
   s !! Z.to_nat (last_index_from c s i best - i) = Some c).
Proof.
  revert i best. induction s as [|x s IH]; intros i best; simpl; [by left|].
  destruct (IH (i + 1) (if x =? c then i else best)) as [Heq|[Hrange Hat]].
  - rewrite Heq. destruct (Z.eqb_spec x c) as [->|Hne]; [|by left].
    right. split; [unfold len; simpl; lia|].
    by replace (i - i) with 0 by lia.
  - right. split; [unfold len in *; simpl; lia|].
    set (r := last_index_from _ _ _ _) in *.
    replace (Z.to_nat (r - i)) with (S (Z.to_nat (r - (i + 1)))) by lia.
    done.
Qed.

Lemma lastIndexOf_hit c position s :
  lastIndexOf c position s = -1 ∨
  (0 ≤ lastIndexOf c position s ≤ Z.max position 0 ∧
   s !! Z.to_nat (lastIndexOf c position s) = Some c).
Proof.
  unfold lastIndexOf.
  destruct (last_index_from_hit c (take (Z.to_nat (Z.max position 0 + 1)) s) 0 (-1))
    as [Heq|[Hrange Hat]]; [by left|right].
  set (r := last_index_from _ _ _ _) in *.
  rewrite Z.sub_0_r in Hat.
  assert (Hlen : len (take (Z.to_nat (Z.max position 0 + 1)) s) ≤ Z.max position 0 + 1).
  { unfold len. rewrite length_take. lia. }
  split; [lia|].
  apply lookup_take_Some in Hat. tauto.
Qed.

(** The cut is in the second half of the window, and away from the limit
    it is at a line break. *)
Lemma split_point_range remaining :
  TELEGRAM_MAX_MESSAGE_LENGTH / 2 ≤ split_point remaining ≤ TELEGRAM_MAX_MESSAGE_LENGTH.
Proof.
  unfold split_point.
  destruct (lastIndexOf_hit newline TELEGRAM_MAX_MESSAGE_LENGTH remaining)
    as [->|[Hrange _]]; [done|].
  set (r := lastIndexOf _ _ _) in *.
  change (Z.max TELEGRAM_MAX_MESSAGE_LENGTH 0) with TELEGRAM_MAX_MESSAGE_LENGTH in Hrange.
  destruct (r =? -1); [done|]. simpl.
  destruct (Z.ltb_spec r (TELEGRAM_MAX_MESSAGE_LENGTH / 2)); [done|]. lia.
Qed.

Lemma split_point_newline remaining :
  split_point remaining = TELEGRAM_MAX_MESSAGE_LENGTH ∨
  remaining !! Z.to_nat (split_point remaining) = Some newline.
Proof.
  unfold split_point.
  destruct (lastIndexOf_hit newline TELEGRAM_MAX_MESSAGE_LENGTH remaining)
    as [->|[_ Hat]]; [by left|].
  set (r := lastIndexOf _ _ _) in *.
  destruct ((r =? -1) || _); [by left|by right].
Qed.

Lemma split_loop_step fuel remaining :
  split_loop (S fuel) remaining =
    if 0 <? len remaining then
      if len remaining <=? TELEGRAM_MAX_MESSAGE_LENGTH then Some [remaining]
      else
        match split_loop fuel (substring_from (split_point remaining) remaining) with
        | Some chunks => Some (substring 0 (split_point remaining) remaining :: chunks)
        | None => None
        end
    else Some [].
Proof. done. Qed.

Lemma split_loop_chunks fuel remaining :
  len remaining < (TELEGRAM_MAX_MESSAGE_LENGTH / 2) * Z.of_nat fuel →
  ∃ chunks, split_loop fuel remaining = Some chunks ∧ chunks_of remaining chunks ∧
            (head chunks ≫= head) = head remaining.
Proof.
  revert remaining. induction fuel as [|fuel IH]; intros remaining Hfuel.
  { pose proof (len_nonneg remaining). lia. }
  rewrite split_loop_step.
  destruct (Z.ltb_spec 0 (len remaining)) as [Hpos|Hzero].
  2: { exists []. assert (remaining = []) as ->.
       { destruct remaining; [done|]. unfold len in Hzero. simpl in Hzero. lia. }
       split; [done|]. split; [|done]. split; [done|]. split; [constructor|].
       intros i c next Hi. by rewrite lookup_nil in Hi. }
  destruct (Z.leb_spec (len remaining) TELEGRAM_MAX_MESSAGE_LENGTH) as [Hshort|Hlong].
  { exists [remaining]. split; [done|]. split.
    - split; [simpl; by rewrite app_nil_r|]. split.
      + constructor; [|constructor]. simpl. lia.
      + intros i c next _ Hnext. destruct i; simpl in Hnext; by rewrite ?lookup_nil in Hnext.
    - simpl. by destruct remaining. }
  pose proof (split_point_range remaining) as Hrange.
  pose proof (split_point_newline remaining) as Hnl.
  set (k := split_point remaining) in *.
  change (TELEGRAM_MAX_MESSAGE_LENGTH / 2) with 2048 in *.
  change TELEGRAM_MAX_MESSAGE_LENGTH with 4096 in *.
  assert (Hfirst : len (substring 0 k remaining) = k).
  { unfold substring, len in *. rewrite length_take, length_drop. lia. }
  assert (Hrest : len (substring_from k remaining) = len remaining - k).
  { unfold substring_from, len in *. rewrite length_drop. lia. }
  destruct (IH (substring_from k remaining)) as (chunks & -> & (Hcat & Hall & Hmid) & Hhead);
    [lia|].
  eexists. split; [done|]. split.
  - split; [|split].
    + simpl. rewrite Hcat. unfold substring, substring_from.
      rewrite Z.sub_0_r. change (Z.to_nat 0) with 0%nat. rewrite drop_0.
      apply take_drop.
    + constructor; [|done]. simpl. rewrite Hfirst.
      change TELEGRAM_MAX_MESSAGE_LENGTH with 4096. lia.
    + intros i c next Hc Hnext. destruct i as [|i].
      * simpl in Hc, Hnext. injection Hc as <-. rewrite Hfirst.
        change (TELEGRAM_MAX_MESSAGE_LENGTH / 2) with 2048.
        change TELEGRAM_MAX_MESSAGE_LENGTH with 4096.
        split; [lia|].
        destruct Hnl as [Hfull|Hat]; [left; lia|right].
        assert (head chunks = Some next) as Hn by (by destruct chunks).
        rewrite Hn in Hhead. simpl in Hhead. rewrite Hhead.
        unfold substring_from. rewrite <- Hat.
        by rewrite head_lookup, lookup_drop, Nat.add_0_r.
      * simpl in Hc, Hnext. by apply (Hmid i).
  - simpl. unfold substring. rewrite Z.sub_0_r. change (Z.to_nat 0) with 0%nat.
    rewrite drop_0. destruct remaining as [|x r]; [unfold len in Hpos; simpl in Hpos; lia|].
    replace (Z.to_nat k) with (S (Z.to_nat (k - 1))) by lia. done.
Qed.

End MessageFormatterFacts.

(** X27: [splitMessage] always returns, and its chunks make up the text,
    in order and with nothing dropped, the line breaks included.  There is
    at least one chunk, none is longer than 4096 units, and none is empty
    unless the text is.  A chunk that is followed by another is at least
    2048 units long, and is either 4096 units long or followed by a chunk
    that starts with the line break at which the text was cut. *)
Theorem splitMessage_chunks_make_up_the_text (s : MessageFormatter.text) :
  ∃ chunks,
    MessageFormatter.splitMessage s = Some chunks ∧
    concat chunks = s ∧
    chunks ≠ [] ∧
    Forall (λ c, MessageFormatter.len c ≤ MessageFormatter.TELEGRAM_MAX_MESSAGE_LENGTH) chunks ∧
    (s = [] ∨ Forall (λ c, c ≠ []) chunks) ∧
    ∀ (i : nat) c next, chunks !! i = Some c → chunks !! S i = Some next →
      MessageFormatter.TELEGRAM_MAX_MESSAGE_LENGTH / 2 ≤ MessageFormatter.len c ∧
      (MessageFormatter.len c = MessageFormatter.TELEGRAM_MAX_MESSAGE_LENGTH ∨
       head next = Some MessageFormatter.newline).
Proof.
  unfold MessageFormatter.splitMessage.
  destruct (Z.leb_spec (MessageFormatter.len s) MessageFormatter.TELEGRAM_MAX_MESSAGE_LENGTH)
    as [Hshort|Hlong].
  - exists [s]. split; [done|]. split; [simpl; by rewrite app_nil_r|].
    split; [done|]. split; [by repeat constructor|].
    split.
    + destruct s; [by left|right]. by repeat constructor.
    + intros i c next _ Hnext. destruct i; simpl in Hnext; by rewrite ?lookup_nil in Hnext.
  - destruct (split_loop_chunks (length s) s) as (chunks & Hloop & (Hcat & Hall & Hmid) & _).
    { unfold MessageFormatter.len in *.
      change (MessageFormatter.TELEGRAM_MAX_MESSAGE_LENGTH / 2) with 2048.
      change MessageFormatter.TELEGRAM_MAX_MESSAGE_LENGTH with 4096 in Hlong. lia. }
    exists chunks. split; [done|]. split; [done|].
    split.
    { intros ->. simpl in Hcat. subst s. unfold MessageFormatter.len in Hlong.
      simpl in Hlong. change MessageFormatter.TELEGRAM_MAX_MESSAGE_LENGTH with 4096 in Hlong.
      lia. }
    split; [eapply Forall_impl; [exact Hall|]; simpl; intros; lia|].
    split; [|exact Hmid].
    right. eapply Forall_impl; [exact Hall|]. simpl. intros c Hc ->.
    unfold MessageFormatter.len in Hc. simpl in Hc. lia.
Qed.

Lemma splitMessage_chunks_make_up_the_text_witness :
  MessageFormatter.splitMessage sample_long_text =
    Some [repeat 120 3000; MessageFormatter.newline :: repeat 121 2000] ∧
  MessageFormatter.TELEGRAM_MAX_MESSAGE_LENGTH / 2 ≤ MessageFormatter.len (repeat 120 3000) ∧
  (MessageFormatter.len (repeat 120 3000) = MessageFormatter.TELEGRAM_MAX_MESSAGE_LENGTH ∨
   head (MessageFormatter.newline :: repeat 121 2000) = Some MessageFormatter.newline).
Proof.
  destruct (splitMessage_chunks_make_up_the_text sample_long_text)
    as (chunks & Hs & _ & _ & _ & _ & Hmid).
  assert (Hrun : MessageFormatter.splitMessage sample_long_text =
                 Some [repeat 120 3000; MessageFormatter.newline :: repeat 121 2000])
    by (vm_compute; reflexivity).
  split; [exact Hrun|].
  rewrite Hrun in Hs. injection Hs as <-.
  exact (Hmid 0%nat _ _ eq_refl eq_refl).
Defined.

(** X28: [truncate] leaves a text of at most 4096 units as it is; a longer
    text becomes its first 4076 units and the 22 units of the marker, 4098
    units in all, which is over the limit it was cut for.  [splitMessage],
    through which the bot sends a formatted text, therefore cuts a
    truncated text in two, at the second line break of the marker: the
    marker line is a chunk of its own. *)
Theorem truncate_overshoots_and_is_split (s : MessageFormatter.text) :
  MessageFormatter.len (MessageFormatter.truncate s) =
    (if MessageFormatter.len s <=? MessageFormatter.TELEGRAM_MAX_MESSAGE_LENGTH
     then MessageFormatter.len s
     else MessageFormatter.TELEGRAM_MAX_MESSAGE_LENGTH + 2) ∧
  (MessageFormatter.TELEGRAM_MAX_MESSAGE_LENGTH < MessageFormatter.len s →
   MessageFormatter.splitMessage (MessageFormatter.truncate s) =
     Some [MessageFormatter.substring 0 (MessageFormatter.TELEGRAM_MAX_MESSAGE_LENGTH - 20) s
             ++ [MessageFormatter.newline];
           MessageFormatter.newline :: MessageFormatter.units "<i>... truncated</i>"]).
Proof.
  unfold MessageFormatter.truncate.
  change MessageFormatter.TELEGRAM_MAX_MESSAGE_LENGTH with 4096.
  destruct (Z.leb_spec (MessageFormatter.len s) 4096) as [Hshort|Hlong];
    [split; [done|lia]|].
  set (A := MessageFormatter.substring 0 (4096 - 20) s).
  assert (HA : length A = Z.to_nat 4076).
  { subst A. unfold MessageFormatter.substring, MessageFormatter.len in *.
    rewrite length_take, length_drop. lia. }
  assert (HM : MessageFormatter.truncated_marker =
               [MessageFormatter.newline] ++
               MessageFormatter.newline :: MessageFormatter.units "<i>... truncated</i>")
    by reflexivity.
  assert (HlenM : length MessageFormatter.truncated_marker = 22%nat) by reflexivity.
  split.
  { rewrite len_app. unfold MessageFormatter.len. rewrite HA, HlenM. lia. }
  intros _. unfold MessageFormatter.splitMessage.
  assert (Hlen : length (A ++ MessageFormatter.truncated_marker) = S (Z.to_nat 4097)).
  { rewrite length_app, HA, HlenM. lia. }
  replace (MessageFormatter.len (A ++ MessageFormatter.truncated_marker) <=?
           MessageFormatter.TELEGRAM_MAX_MESSAGE_LENGTH) with false.
  2: { symmetry. apply Z.leb_gt. unfold MessageFormatter.len. rewrite Hlen.
       change MessageFormatter.TELEGRAM_MAX_MESSAGE_LENGTH with 4096. lia. }
  rewrite Hlen, split_loop_step.
  replace (0 <? MessageFormatter.len (A ++ MessageFormatter.truncated_marker)) with true
    by (symmetry; apply Z.ltb_lt; unfold MessageFormatter.len; rewrite Hlen; lia).
  replace (MessageFormatter.len (A ++ MessageFormatter.truncated_marker) <=?
           MessageFormatter.TELEGRAM_MAX_MESSAGE_LENGTH) with false.
  2: { symmetry. apply Z.leb_gt. unfold MessageFormatter.len. rewrite Hlen.
       change MessageFormatter.TELEGRAM_MAX_MESSAGE_LENGTH with 4096. lia. }
  assert (Hpoint : MessageFormatter.split_point (A ++ MessageFormatter.truncated_marker) = 4077).
  { unfold MessageFormatter.split_point, MessageFormatter.lastIndexOf.
    change (Z.max MessageFormatter.TELEGRAM_MAX_MESSAGE_LENGTH 0 + 1) with 4097.
    rewrite take_app, (take_ge A) by lia.
    replace (Z.to_nat 4097 - length A)%nat with 21%nat by lia.
    rewrite last_index_from_app.
    replace (0 + MessageFormatter.len A) with 4076
      by (unfold MessageFormatter.len; rewrite HA; lia).
    generalize (MessageFormatter.last_index_from MessageFormatter.newline A 0 (-1)).
    intros best. reflexivity. }
  rewrite Hpoint.
  assert (Hrest : MessageFormatter.substring_from 4077 (A ++ MessageFormatter.truncated_marker) =
                  MessageFormatter.newline :: MessageFormatter.units "<i>... truncated</i>").
  { unfold MessageFormatter.substring_from. rewrite drop_app, (drop_ge A) by lia.
    replace (Z.to_nat 4077 - length A)%nat with 1%nat by lia. reflexivity. }
  assert (Hfirst : MessageFormatter.substring 0 4077 (A ++ MessageFormatter.truncated_marker) =
                   A ++ [MessageFormatter.newline]).
  { unfold MessageFormatter.substring. change (Z.to_nat 0) with 0%nat. rewrite drop_0.
    rewrite Z.sub_0_r, take_app, (take_ge A) by lia.
    replace (Z.to_nat 4077 - length A)%nat with 1%nat by lia. reflexivity. }
  rewrite Hrest, Hfirst.
  replace (Z.to_nat 4097) with (S (Z.to_nat 4096)) by lia.
  rewrite split_loop_step. reflexivity.
Qed.

Lemma truncate_overshoots_and_is_split_witness :
  MessageFormatter.TELEGRAM_MAX_MESSAGE_LENGTH < MessageFormatter.len sample_long_line ∧
  MessageFormatter.len (MessageFormatter.truncate sample_long_line) = 4098 ∧
  MessageFormatter.splitMessage (MessageFormatter.truncate sample_long_line) =
    Some [repeat 120 4076 ++ [MessageFormatter.newline];
          MessageFormatter.newline :: MessageFormatter.units "<i>... truncated</i>"].
Proof.
  destruct (truncate_overshoots_and_is_split sample_long_line) as [Hlen Hsplit].
  assert (Hlong : MessageFormatter.TELEGRAM_MAX_MESSAGE_LENGTH <
                  MessageFormatter.len sample_long_line) by (vm_compute; reflexivity).
  split; [exact Hlong|]. split; [exact Hlen|].
  rewrite (Hsplit Hlong). vm_compute. reflexivity.
Defined.

Section EscapeFacts.
Import MessageFormatter.

Lemma replace_all_app c by_ (a b : text) :
  replace_all c by_ (a ++ b) = replace_all c by_ a ++ replace_all c by_ b.
Proof. unfold replace_all. apply bind_app. Qed.

Lemma escapeHtml_app (a b : text) : escapeHtml (a ++ b) = escapeHtml a ++ escapeHtml b.
Proof. unfold escapeHtml. by rewrite !replace_all_app. Qed.

Lemma escapeHtml_unit x : escapeHtml [x] = escape_unit x.
Proof.
  unfold escapeHtml, escape_unit, replace_all. simpl.
  destruct (Z.eqb_spec x amp) as [->|Hamp]; [reflexivity|]. simpl.
  destruct (Z.eqb_spec x lt) as [->|Hlt]; [reflexivity|]. simpl.
  destruct (Z.eqb_spec x gt) as [->|Hgt]; [reflexivity|]. done.
Qed.

(** The three passes of [escapeHtml] amount to one pass. *)
Lemma escapeHtml_one_pass (s : text) : escapeHtml s = s ≫= escape_unit.
Proof.
  induction s as [|x s IH]; [done|].
  change (x :: s) with ([x] ++ s). rewrite escapeHtml_app, escapeHtml_unit, IH. done.
Qed.

Lemma escape_unit_cases x :
  (x = amp ∧ escape_unit x = [38; 97; 109; 112; 59]) ∨
  (x = lt ∧ escape_unit x = [38; 108; 116; 59]) ∨
  (x = gt ∧ escape_unit x = [38; 103; 116; 59]) ∨
  (x ≠ amp ∧ x ≠ lt ∧ x ≠ gt ∧ escape_unit x = [x]).
Proof.
  unfold escape_unit.
  destruct (Z.eqb_spec x amp) as [->|Hamp]; [by left|].
  destruct (Z.eqb_spec x lt) as [->|Hlt]; [by right; left|].
  destruct (Z.eqb_spec x gt) as [->|Hgt]; [by right; right; left|].
  by right; right; right.
Qed.

Lemma escapeHtml_injective (a b : text) : escapeHtml a = escapeHtml b → a = b.
Proof.
  rewrite !escapeHtml_one_pass. revert b.
  induction a as [|x a IH]; intros [|y b] H; rewrite ?bind_cons, ?bind_nil in H.
  - done.
  - destruct (escape_unit_cases y) as [[_ E]|[[_ E]|[[_ E]|(_ & _ & _ & E)]]];
      rewrite E in H; discriminate.
  - destruct (escape_unit_cases x) as [[_ E]|[[_ E]|[[_ E]|(_ & _ & _ & E)]]];
      rewrite E in H; discriminate.
  - destruct (escape_unit_cases x) as [[Hx E]|[[Hx E]|[[Hx E]|(? & ? & ? & E)]]];
      destruct (escape_unit_cases y) as [[Hy E']|[[Hy E']|[[Hy E']|(? & ? & ? & E')]]];
      rewrite E, E' in H; cbn [app] in H; unfold amp, lt, gt in *; subst;
      try discriminate; try (injection H as H; f_equal; by apply IH);
      try (injection H as Hhd Htl; first [congruence | subst; f_equal; by apply IH]).
Qed.

End EscapeFacts.

(** X29: [escapeHtml] leaves no angle bracket in its output, so that the
    text it returns opens or closes no tag in a message sent in HTML
    mode.  It works unit by unit: escaping two texts one after the other
    is escaping them joined.  And it loses nothing: two different texts
    are escaped to different texts, which holds because the ampersand is
    replaced first. *)
Theorem escapeHtml_is_safe_and_lossless (s s' : MessageFormatter.text) :
  (MessageFormatter.lt ∉ MessageFormatter.escapeHtml s) ∧
  (MessageFormatter.gt ∉ MessageFormatter.escapeHtml s) ∧
  MessageFormatter.escapeHtml (s ++ s') =
    MessageFormatter.escapeHtml s ++ MessageFormatter.escapeHtml s' ∧
  (MessageFormatter.escapeHtml s = MessageFormatter.escapeHtml s' → s = s').
Proof.
  split; [|split; [|split]].
  - rewrite escapeHtml_one_pass. intros Hin.
    apply list_elem_of_bind in Hin as (x & Hin & _).
    destruct (escape_unit_cases x) as [[_ E]|[[_ E]|[[_ E]|(_ & Hlt & _ & E)]]];
      rewrite E in Hin; unfold MessageFormatter.lt in *;
      repeat (apply elem_of_cons in Hin as [Hin|Hin]; [try discriminate; try done|]);
      by apply elem_of_nil in Hin.
  - rewrite escapeHtml_one_pass. intros Hin.
    apply list_elem_of_bind in Hin as (x & Hin & _).
    destruct (escape_unit_cases x) as [[_ E]|[[_ E]|[[_ E]|(_ & _ & Hgt & E)]]];
      rewrite E in Hin; unfold MessageFormatter.gt in *;
      repeat (apply elem_of_cons in Hin as [Hin|Hin]; [try discriminate; try done|]);
      by apply elem_of_nil in Hin.
  - apply escapeHtml_app.
  - apply escapeHtml_injective.
Qed.

Lemma escapeHtml_is_safe_and_lossless_witness :
  MessageFormatter.escapeHtml (MessageFormatter.units "a<b") =
    MessageFormatter.units "a&lt;b" ∧
  MessageFormatter.units "a<b" = MessageFormatter.units "a<b".
Proof.
  split; [vm_compute; reflexivity|].
  apply (escapeHtml_is_safe_and_lossless (MessageFormatter.units "a<b")
           (MessageFormatter.units "a<b")).
  vm_compute. reflexivity.
Defined.


(** ** Tool discovery *)

Section ToolDiscoveryFacts.
Import ToolDiscovery.

Lemma filter_service_found (svc : SwiggyService) (names : list string) :
  List.filter (λ x, bool_decide (service x = svc)) (mkTool svc <$> names) = mkTool svc <$> names.
Proof.
  induction names as [|n names IH]; [done|].
  cbn [fmap list_fmap List.filter service].
  rewrite bool_decide_eq_true_2 by done. f_equal. exact IH.
Qed.

Lemma filter_other_found (svc svc' : SwiggyService) (names : list string) :
  svc' ≠ svc →
  List.filter (λ x, bool_decide (service x = svc')) (mkTool svc <$> names) = [].
Proof.
  intros Hne. induction names as [|n names IH]; [done|].
  cbn [fmap list_fmap List.filter service].
  rewrite bool_decide_eq_false_2 by (intros Heq; by apply Hne). exact IH.
Qed.

Lemma filter_filter_other (svc svc' : SwiggyService) (l : list DiscoveredTool) :
  svc' ≠ svc →
  List.filter (λ x, bool_decide (service x = svc'))
    (List.filter (λ x, negb (bool_decide (service x = svc))) l) =
  List.filter (λ x, bool_decide (service x = svc')) l.
Proof.
  intros Hne. induction l as [|x l IH]; [done|]. simpl.
  destruct (bool_decide_reflect (service x = svc)) as [Heq|Hneq]; simpl.
  - rewrite bool_decide_eq_false_2 by (rewrite Heq; intros E; by apply Hne). exact IH.
  - destruct (bool_decide (service x = svc')); [f_equal|]; exact IH.
Qed.

Lemma filter_filter_same (svc : SwiggyService) (l : list DiscoveredTool) :
  List.filter (λ x, bool_decide (service x = svc))
    (List.filter (λ x, negb (bool_decide (service x = svc))) l) = [].
Proof.
  induction l as [|x l IH]; [done|]. simpl.
  destruct (bool_decide_reflect (service x = svc)) as [Heq|Hneq]; simpl; [exact IH|].
  rewrite bool_decide_eq_false_2 by done. exact IH.
Qed.

End ToolDiscoveryFacts.

(** X30: what a discovery does to the cache of a user.  When [listTools]
    answers, the tools returned are the listed ones under the service, and
    for an hour from then on (for a user id other than 0) the cache gives
    exactly those for the service and, for every other service, the tools
    the user's cache held for it before: whether that cache had expired
    is not looked at, so a discovery for one service renews the tools of
    the others.  When [listTools] throws, nothing is returned and the
    cache is as it was. *)
Theorem discovery_replaces_one_service_and_renews_the_rest
    (now later later' userId : Z) (svc : SwiggyService) (names : list string)
    (td : ToolDiscovery.t) :
  let '(td', found) := ToolDiscovery.discoverToolsForUser now userId svc (Some names) td in
  let before := default [] (ToolDiscovery.tools <$> ToolDiscovery.perUserCache td !! userId) in
  found = ToolDiscovery.mkTool svc <$> names ∧
  (userId ≠ 0 → later - now < ToolDiscovery.TOOL_CACHE_TTL_MS →
   ToolDiscovery.getToolsForService later later' svc (Some userId) td' = found ∧
   ∀ svc', svc' ≠ svc →
     ToolDiscovery.getToolsForService later later' svc' (Some userId) td' =
     List.filter (λ x, bool_decide (ToolDiscovery.service x = svc')) before) ∧
  ToolDiscovery.discoverToolsForUser now userId svc None td = (td, []).
Proof.
  unfold ToolDiscovery.discoverToolsForUser. cbv zeta.
  split; [done|]. split; [|done].
  intros Hid Hfresh.
  assert (Hget : ∀ l,
            ToolDiscovery.getTools later later' (Some userId)
              (ToolDiscovery.mk (ToolDiscovery.globalCache td)
                 (<[userId := ToolDiscovery.mkCache l now ToolDiscovery.TOOL_CACHE_TTL_MS]>
                    (ToolDiscovery.perUserCache td))) = l).
  { intros l. unfold ToolDiscovery.getTools. cbn [ToolDiscovery.perUserCache].
    rewrite lookup_insert_eq.
    replace (userId =? 0) with false by (symmetry; by apply Z.eqb_neq).
    unfold ToolDiscovery.fresh. cbn [ToolDiscovery.discoveredAt ToolDiscovery.ttlMs ToolDiscovery.tools].
    by replace (later - now <? ToolDiscovery.TOOL_CACHE_TTL_MS) with true
      by (symmetry; by apply Z.ltb_lt). }
  unfold ToolDiscovery.getToolsForService. split.
  - rewrite Hget, List.filter_app, filter_service_found.
    destruct (ToolDiscovery.perUserCache td !! userId) as [existing|]; [|done].
    by rewrite filter_filter_same.
  - intros svc' Hne. rewrite Hget, List.filter_app, filter_other_found, app_nil_r by done.
    destruct (ToolDiscovery.perUserCache td !! userId) as [existing|]; [|done].
    simpl. by apply filter_filter_other.
Qed.

Lemma discovery_replaces_one_service_and_renews_the_rest_witness :
  ToolDiscovery.getTools 3600001 3600001 (Some 7) discovery_at_0 = [] ∧
  ToolDiscovery.getToolsForService 3600002 3600002 dineout (Some 7)
    (ToolDiscovery.discoverToolsForUser 3600001 7 food (Some ["search_menu"]) discovery_at_0).1 =
    [ToolDiscovery.mkTool dineout "search_restaurants"].
Proof.
  split; [vm_compute; reflexivity|].
  pose proof (discovery_replaces_one_service_and_renews_the_rest
                3600001 3600002 3600002 7 food ["search_menu"] discovery_at_0) as H.
  destruct (ToolDiscovery.discoverToolsForUser 3600001 7 food (Some ["search_menu"])
              discovery_at_0) as [td' found] eqn:E.
  destruct H as (_ & H & _).
  destruct H as [_ Hother]; [lia|vm_compute; reflexivity|].
  cbn [fst]. rewrite (Hother dineout); [vm_compute; reflexivity|discriminate].
Defined.
